(** * Devialet IP Control integration: client, coordinator, projections

    A shallow embedding of [custom_components/devialet] and the properties
    of its specification.  Python values are embedded as one type of
    dynamically typed values; every operation that can raise in Python
    returns a [result]; side effects (HTTP requests issued, refresh
    requests, attributes mutated on the entity) are threaded through a
    small state-and-exception monad. *)

From Stdlib Require Import ZArith QArith Qminmax Qabs String Ascii DecimalString.
From Stdlib Require Import List Bool Lia SpecFloat.
Import ListNotations.
Local Close Scope Q_scope.
Local Open Scope string_scope.
Local Open Scope Z_scope.

(* ===================================================================== *)
(** ** Python values and the operations the integration uses on them *)
(* ===================================================================== *)

Module Py.

(** The values that [response.json()] can produce, which are also all the
    values the integration manipulates.  A [float] is a binary64 number,
    embedded as the rational number it denotes (an infinity or a NaN is
    not a value of the embedding); a [dict] keeps its insertion order and
    has [str] keys. *)
#[local] Set Warnings "-register-all".
Inductive value : Type :=
| VNone
| VBool (b : bool)
| VInt (n : Z)
| VFloat (q : Q)
| VStr (s : string)
| VList (l : list value)
| VDict (d : list (string * value)).

Definition dict := list (string * value).

(** The exceptions of Python that occur, and [NotModelled], which is not
    one of them: it marks the few paths that this embedding leaves out. *)
Inductive exn : Type :=
| TypeError
| AttributeError
| KeyError
| ValueError
| ZeroDivisionError
| OverflowError
| RequestException
| NotModelled.

Inductive result (A : Type) : Type :=
| Ok (a : A)
| Raise (e : exn).
Arguments Ok {A} a.
Arguments Raise {A} e.

Definition rbind {A B} (r : result A) (k : A -> result B) : result B :=
  match r with
  | Ok a => k a
  | Raise e => Raise e
  end.

(** [try: body except <e>: handler] *)
Definition try_except {A} (body : result A) (e : exn -> bool)
    (handler : result A) : result A :=
  match body with
  | Ok a => Ok a
  | Raise x => if e x then handler else Raise x
  end.

Definition is_ValueError (x : exn) : bool :=
  match x with ValueError => true | _ => false end.

(** *** dict *)

Fixpoint lookup (k : string) (d : dict) : option value :=
  match d with
  | [] => None
  | (k', v) :: r => if (k' =? k)%string then Some v else lookup k r
  end.

(** [d[k] = v]: an existing key keeps its position, a new key goes last. *)
Fixpoint dict_set (k : string) (v : value) (d : dict) : dict :=
  match d with
  | [] => [(k, v)]
  | (k', v') :: r =>
      if (k' =? k)%string then (k, v) :: r else (k', v') :: dict_set k v r
  end.

Definition keys (d : dict) : list string := map fst d.

(** *** truth value, [bool(v)] *)
Definition truthy (v : value) : bool :=
  match v with
  | VNone => false
  | VBool b => b
  | VInt n => negb (n =? 0)
  | VFloat q => negb (Qeq_bool q (0 # 1))
  | VStr s => negb (s =? "")%string
  | VList l => match l with [] => false | _ => true end
  | VDict d => match d with [] => false | _ => true end
  end.

(** [v.get(k, default)]: only a dict has the method. *)
Definition get (v : value) (k : string) (default : value) : result value :=
  match v with
  | VDict d => Ok (match lookup k d with Some x => x | None => default end)
  | _ => Raise AttributeError
  end.

(** [v[k]] with a [str] subscript. *)
Definition getitem (v : value) (k : string) : result value :=
  match v with
  | VDict d => match lookup k d with Some x => Ok x | None => Raise KeyError end
  | _ => Raise TypeError
  end.

(** [v == "literal"]: comparing with a [str] never raises and holds only
    for the equal [str]. *)
Definition eq_str (v : value) (s : string) : bool :=
  match v with
  | VStr s' => (s' =? s)%string
  | _ => false
  end.

Fixpoint is_substring (s t : string) : bool :=
  prefix s t ||
  match t with
  | EmptyString => false
  | String _ t' => is_substring s t'
  end.

(** ["literal" in v]: key membership for a dict, element membership for a
    list, substring for a str; the other values are not iterable. *)
Definition contains (v : value) (s : string) : result bool :=
  match v with
  | VDict d => Ok (match lookup s d with Some _ => true | None => false end)
  | VList l => Ok (existsb (fun x => eq_str x s) l)
  | VStr t => Ok (is_substring s t)
  | _ => Raise TypeError
  end.

(** [for x in v] *)
Definition iter (v : value) : result (list value) :=
  match v with
  | VList l => Ok l
  | VDict d => Ok (map VStr (keys d))
  | VStr s => Ok (map (fun c => VStr (String c EmptyString)) (list_ascii_of_string s))
  | _ => Raise TypeError
  end.

(** [str.lower()] on the ASCII letters.  Code points outside ASCII are kept
    as they are.  Where the integration only compares the lowered string
    with fixed ASCII words, this decides the comparison as [str.lower()]
    does: the letter k, the one ASCII letter that is also the lower case
    of a code point outside ASCII, does not occur in these words.  Where
    the lowered text itself is returned, [str_lower] is used, which
    leaves the strings outside ASCII out of the embedding. *)
Definition lower_ascii (c : ascii) : ascii :=
  let n := N_of_ascii c in
  if ((65 <=? n) && (n <=? 90))%N then ascii_of_N (n + 32) else c.

Fixpoint lower (s : string) : string :=
  match s with
  | EmptyString => EmptyString
  | String c r => String (lower_ascii c) (lower r)
  end.

Definition is_ascii (s : string) : bool :=
  forallb (fun c => (N_of_ascii c <? 128)%N) (list_ascii_of_string s).

(** [v.lower()], as a text. *)
Definition str_lower (v : value) : result string :=
  match v with
  | VStr s => if is_ascii s then Ok (lower s) else Raise NotModelled
  | _ => Raise AttributeError
  end.

(** [v >= "literal"]: strings are ordered lexicographically by code point
    (byte order on the UTF-8 encoding is the same order); a value of
    another type is not orderable with a str. *)
Definition ge_str (v : value) (s : string) : result bool :=
  match v with
  | VStr s' => Ok (String.leb s s')
  | _ => Raise TypeError
  end.

(** [str(v)], as [str.format] interpolates a value.  The text of a float,
    a list or a dict is left out of the embedding. *)
Definition str (v : value) : result string :=
  match v with
  | VNone => Ok "None"
  | VBool b => Ok (if b then "True" else "False")
  | VInt n => Ok (NilZero.string_of_int (Z.to_int n))
  | VStr s => Ok s
  | _ => Raise NotModelled
  end.

(** Numbers, for [min], [max] and [/]. [bool] is a subclass of [int]. *)
Definition number (v : value) : option Q :=
  match v with
  | VInt n => Some (inject_Z n)
  | VFloat q => Some q
  | VBool b => Some (inject_Z (if b then 1 else 0))
  | _ => None
  end.

Definition Qltb (a b : Q) : bool := negb (Qle_bool b a).

(** [min(a, b)] returns [b] only when [b < a]. *)
Definition min (a b : value) : result value :=
  match number a, number b with
  | Some x, Some y => Ok (if Qltb y x then b else a)
  | _, _ => Raise TypeError
  end.

(** [max(a, b)] returns [b] only when [b > a]. *)
Definition max (a b : value) : result value :=
  match number a, number b with
  | Some x, Some y => Ok (if Qltb x y then b else a)
  | _, _ => Raise TypeError
  end.

(** *** float arithmetic

    The two operations on floats that the integration uses, the
    conversion of an [int] and the division, round to the nearest
    binary64 number, ties to even.  They are computed by the standard
    library's specification of IEEE 754 arithmetic at precision 53. *)
Definition prec : Z := 53.
Definition emax : Z := 1024.

(** [float(n)]: an infinity where Python raises [OverflowError]. *)
Definition float_of_int (n : Z) : spec_float :=
  binary_normalize prec emax n 0 false.

(** The binary64 number that [VFloat q] holds. *)
Definition float_of_Q (q : Q) : spec_float :=
  let q := Qred q in
  SFdiv prec emax (float_of_int (Qnum q)) (float_of_int (Zpos (Qden q))).

(** The rational that a finite binary64 number denotes, in lowest
    terms. *)
Definition Q_of_float (f : spec_float) : option Q :=
  match f with
  | S754_zero _ => Some (0 # 1)%Q
  | S754_finite s m e =>
      Some (Qred (Qmult (inject_Z (cond_Zopp s (Zpos m))) (Qpower (2 # 1)%Q e)))
  | S754_infinity _ | S754_nan => None
  end.

(** [x / d] on floats: division by zero raises; a quotient that is not
    finite is left out of the embedding. *)
Definition float_truediv (x : spec_float) (d : Q) : result value :=
  if Qeq_bool d (0 # 1) then Raise ZeroDivisionError
  else
    match Q_of_float (SFdiv prec emax x (float_of_Q d)) with
    | Some q => Ok (VFloat q)
    | None => Raise NotModelled
    end.

(** [n / d] for an [int] [n]: the [int] is converted first, which raises
    [OverflowError] when it is too large for a float. *)
Definition int_truediv (n : Z) (d : Q) : result value :=
  match float_of_int n with
  | S754_infinity _ => Raise OverflowError
  | x => float_truediv x d
  end.

(** [v / d] for a float divisor [d]. *)
Definition truediv (v : value) (d : Q) : result value :=
  match v with
  | VInt n => int_truediv n d
  | VBool b => int_truediv (if b then 1 else 0) d
  | VFloat q => float_truediv (float_of_Q q) d
  | _ => Raise TypeError
  end.

(** *** State and exceptions

    A computation over a state [S] either returns or raises, and in both
    cases leaves a state behind: what was done before an exception stays
    done. *)
Definition M (S A : Type) : Type := S -> result A * S.

Definition ret {S A} (a : A) : M S A := fun s => (Ok a, s).
Definition raise {S A} (e : exn) : M S A := fun s => (Raise e, s).
Definition bind {S A B} (m : M S A) (k : A -> M S B) : M S B :=
  fun s =>
    match m s with
    | (Ok a, s') => k a s'
    | (Raise e, s') => (Raise e, s')
    end.
Definition lift {S A} (r : result A) : M S A := fun s => (r, s).

End Py.

Import Py.

Declare Scope py_scope.
Delimit Scope py_scope with py.
Notation "x <- m ;; k" := (bind m (fun x => k))
  (at level 61, m at next level, right associativity) : py_scope.
Notation "m ;;; k" := (bind m (fun _ => k))
  (at level 61, right associativity) : py_scope.
Notation "x <~ r ;; k" := (rbind r (fun x => k))
  (at level 61, r at next level, right associativity) : py_scope.
Local Open Scope py_scope.

(* ===================================================================== *)
(** ** const.py *)
(* ===================================================================== *)

Module Const.

Definition API_BASE := "/ipcontrol/v1".
Definition API_DEVICES_CURRENT := API_BASE ++ "/devices/current".
Definition API_SYSTEMS_CURRENT := API_BASE ++ "/systems/current".
Definition API_VOLUME :=
  API_BASE ++ "/systems/current/sources/current/soundControl/volume".
Definition API_VOLUME_UP :=
  API_BASE ++ "/systems/current/sources/current/soundControl/volumeUp".
Definition API_VOLUME_DOWN :=
  API_BASE ++ "/systems/current/sources/current/soundControl/volumeDown".
Definition API_PLAY := API_BASE ++ "/groups/current/sources/current/playback/play".
Definition API_PAUSE := API_BASE ++ "/groups/current/sources/current/playback/pause".
Definition API_MUTE := API_BASE ++ "/groups/current/sources/current/playback/mute".
Definition API_UNMUTE := API_BASE ++ "/groups/current/sources/current/playback/unmute".
Definition API_NEXT := API_BASE ++ "/groups/current/sources/current/playback/next".
Definition API_PREVIOUS :=
  API_BASE ++ "/groups/current/sources/current/playback/previous".
Definition API_SOURCES := API_BASE ++ "/groups/current/sources".
Definition API_CURRENT_SOURCE := API_BASE ++ "/groups/current/sources/current".
(** [API_PLAY_SOURCE.format(source_id=...)] *)
Definition API_PLAY_SOURCE (source_id : string) :=
  API_BASE ++ "/groups/current/sources/" ++ source_id ++ "/playback/play".
Definition API_NIGHT_MODE := API_BASE ++ "/systems/current/settings/audio/nightMode".
Definition API_EQUALIZER := API_BASE ++ "/systems/current/settings/audio/equalizer".
Definition API_SYSTEM_POWER_OFF := API_BASE ++ "/systems/current/powerOff".

Definition EQ_PRESET_FLAT := "flat".
Definition EQ_PRESET_VOICE := "voice".
Definition EQ_PRESET_CUSTOM := "custom".

End Const.

Import Const.

(* ===================================================================== *)
(** ** The device seen through HTTP *)
(* ===================================================================== *)

Inductive http_method : Type := GET | POST.

(** A request as the client of one device issues it: the URL is
    [urljoin("http://<host>", endpoint)], [json] is the POST body.  The
    host is the client's own and is not repeated in the request; where
    the clients of several entries act in turn, in the service handlers,
    the log records each event with its entry (see [Services.log]). *)
Record request : Type := mkRequest {
  method : http_method;
  endpoint : string;
  json : option value
}.

(** What the client reads of a response: [body] is [None] when
    [response.json()] raises [ValueError]. *)
Record response : Type := mkResponse {
  status_code : Z;
  body : option value
}.

(** [requests.get]/[requests.post] either raise a [RequestException]
    (timeout, refused connection, DNS failure) or return a response. *)
Inductive outcome : Type :=
| Failed
| Responded (r : response).

(** What the integration does to the outside world, in order. *)
Inductive event : Type :=
| Http (r : request)
| Refresh.

Definition trace := list event.

(** The device answers a request, possibly depending on what happened
    before. *)
Definition device := trace -> request -> outcome.

(* ===================================================================== *)
(** ** devialet_api.py *)
(* ===================================================================== *)

Module DevialetAPI.

(** [_handle_response]: the status check, then the [try] block whose
    [ValueError] is caught.  Logging is not modelled; [data["error"]] is
    still evaluated for the log line. *)
Definition _handle_response (response : response) : result value :=
  if negb (status_code response =? 200) then Ok VNone
  else
    try_except
      (data <~ match body response with
               | Some v => Ok v
               | None => Raise ValueError
               end ;;
       has_error <~ contains data "error" ;;
       if has_error : bool then
         (_ <~ getitem data "error" ;; Ok VNone)
       else Ok data)
      is_ValueError
      (Ok VNone).

Section Client.

Variable dev : device.

(** One attempt: the request is issued, then a [RequestException] is
    caught, any other exception of [_handle_response] propagates.

    The URL is [urljoin(self.base_url, endpoint)], built inside the [try].
    The client is one whose base URL [urljoin] accepts: the client of a
    configured entry, whose host answered the probe of the configuration
    flow through this very call.  For a host that [urljoin] rejects, every
    call raises [ValueError] before anything is sent; the configuration
    flow, where the host is an input, models that path (see
    [ConfigFlow.validate_input]). *)
Definition send (rq : request) : M trace value :=
  fun t =>
    let t' := (t ++ [Http rq])%list in
    match dev t rq with
    | Failed => (Ok VNone, t')
    | Responded r => (_handle_response r, t')
    end.

Definition get (endpoint : string) : M trace value :=
  send (mkRequest GET endpoint None).

(** [post(endpoint, data=None)]: an omitted body is sent as [{}]. *)
Definition post (endpoint : string) (data : option value) : M trace value :=
  let data := match data with Some d => d | None => VDict [] end in
  send (mkRequest POST endpoint (Some data)).

Definition get_device_info : M trace value := get API_DEVICES_CURRENT.
Definition get_system_info : M trace value := get API_SYSTEMS_CURRENT.

Definition get_firmware_version : M trace value :=
  system_info <- get_system_info ;;
  if truthy system_info then
    has <- lift (contains system_info "firmwareVersion") ;;
    if has : bool then lift (Py.get system_info "firmwareVersion" VNone)
    else ret VNone
  else ret VNone.

Definition get_volume : M trace value := get API_VOLUME.

Definition set_volume (volume : value) : M trace value :=
  m <- lift (Py.min (VInt 100) volume) ;;
  volume <- lift (Py.max (VInt 0) m) ;;
  post API_VOLUME (Some (VDict [("volume", volume)])).

Definition volume_up : M trace value := post API_VOLUME_UP None.
Definition volume_down : M trace value := post API_VOLUME_DOWN None.
Definition play : M trace value := post API_PLAY None.
Definition pause : M trace value := post API_PAUSE None.
Definition mute : M trace value := post API_MUTE None.
Definition unmute : M trace value := post API_UNMUTE None.
Definition next_track : M trace value := post API_NEXT None.
Definition previous_track : M trace value := post API_PREVIOUS None.
Definition get_sources : M trace value := get API_SOURCES.
Definition get_current_source : M trace value := get API_CURRENT_SOURCE.

Definition play_source (source_id : value) : M trace value :=
  id <- lift (Py.str source_id) ;;
  let endpoint := API_PLAY_SOURCE id in
  post endpoint None.

Definition get_night_mode : M trace value := get API_NIGHT_MODE.

Definition set_night_mode (enabled : value) : M trace value :=
  post API_NIGHT_MODE
    (Some (VDict [("nightMode", VStr (if truthy enabled then "on" else "off"))])).

Definition get_equalizer : M trace value := get API_EQUALIZER.

Definition set_eq_preset (preset : value) : M trace value :=
  if negb (existsb (eq_str preset)
             [EQ_PRESET_FLAT; EQ_PRESET_VOICE; EQ_PRESET_CUSTOM])
  then ret VNone
  else post API_EQUALIZER (Some (VDict [("preset", preset)])).

Definition set_custom_eq (low high : value) : M trace value :=
  let data :=
    VDict [("preset", VStr EQ_PRESET_CUSTOM);
           ("customEqualization",
            VDict [("low", VDict [("gain", low)]);
                   ("high", VDict [("gain", high)])])] in
  post API_EQUALIZER (Some data).

(** The endpoint that [urljoin(self.base_url, endpoint)] joins when
    [endpoint] is any value: a falsy value gives the base URL itself, as
    the empty endpoint does; a truthy value that is not a [str] raises
    [TypeError]; a [str] is joined as it is.  [urljoin] rejects some
    strings that hold a bracket or a code point outside ASCII: these are
    left out of the embedding. *)
Definition plain (s : string) : bool :=
  forallb (fun c => (N_of_ascii c <? 128)%N
                    && negb (c =? "[")%char && negb (c =? "]")%char)
    (list_ascii_of_string s).

Definition endpoint_of (v : value) : result string :=
  if negb (truthy v) then Ok ""
  else
    match v with
    | VStr s => if plain s then Ok s else Raise NotModelled
    | _ => Raise TypeError
    end.

(** The attributes of a [DevialetAPI] object, by name, each applied to
    positional arguments as an executor job applies it: the methods of
    the class, the two request methods and the two helpers included, and
    the four instance attributes, which are not callable.  The names that
    every object has (they begin with two underscores) are left out of
    the embedding; any other name is not an attribute of the object. *)
Definition bound_method := list value -> M trace value.

Definition nullary (m : M trace value) : bound_method :=
  fun args => match args with [] => m | _ => raise TypeError end.

Definition unary (m : value -> M trace value) : bound_method :=
  fun args => match args with [a] => m a | _ => raise TypeError end.

Definition methods : list (string * bound_method) :=
  [ ("host", fun _ => raise TypeError);
    ("base_url", fun _ => raise TypeError);
    ("headers", fun _ => raise TypeError);
    ("timeout", fun _ => raise TypeError);
    ("_get_url", unary (fun _ => raise NotModelled));
    ("_handle_response", unary (fun _ => raise AttributeError));
    ("get", unary (fun v => endpoint <- lift (endpoint_of v) ;; get endpoint));
    ("post",
     fun args =>
       match args with
       | [v] => endpoint <- lift (endpoint_of v) ;; post endpoint None
       | [v; data] =>
           endpoint <- lift (endpoint_of v) ;;
           post endpoint (match data with VNone => None | _ => Some data end)
       | _ => raise TypeError
       end);
    ("get_device_info", nullary get_device_info);
    ("get_system_info", nullary get_system_info);
    ("get_firmware_version", nullary get_firmware_version);
    ("get_volume", nullary get_volume);
    ("set_volume", unary set_volume);
    ("volume_up", nullary volume_up);
    ("volume_down", nullary volume_down);
    ("play", nullary play);
    ("pause", nullary pause);
    ("mute", nullary mute);
    ("unmute", nullary unmute);
    ("next_track", nullary next_track);
    ("previous_track", nullary previous_track);
    ("get_sources", nullary get_sources);
    ("get_current_source", nullary get_current_source);
    ("play_source", unary play_source);
    ("get_night_mode", nullary get_night_mode);
    ("set_night_mode", unary set_night_mode);
    ("get_equalizer", nullary get_equalizer);
    ("set_eq_preset", unary set_eq_preset);
    ("set_custom_eq",
     fun args =>
       match args with
       | [] => set_custom_eq (VFloat (0 # 1)) (VFloat (0 # 1))
       | [low] => set_custom_eq low (VFloat (0 # 1))
       | [low; high] => set_custom_eq low high
       | _ => raise TypeError
       end) ].

Fixpoint find_method (name : string) (l : list (string * bound_method))
    : option bound_method :=
  match l with
  | [] => None
  | (n, m) :: r => if (n =? name)%string then Some m else find_method name r
  end.

(** [api.<name>]: attribute lookup on the client object. *)
Definition getattr (name : string) : result bound_method :=
  match find_method name methods with
  | Some m => Ok m
  | None => if prefix "__" name then Raise NotModelled else Raise AttributeError
  end.

(** [hass.async_add_executor_job(api.<name>, *args)]: the attribute is
    looked up, then the job runs to completion and its result or its
    exception comes back to the caller. *)
Definition async_add_executor_job (name : string) (args : list value)
    : M trace value :=
  m <- lift (getattr name) ;;
  m args.

End Client.

End DevialetAPI.

(* ===================================================================== *)
(** ** media_player.py *)
(* ===================================================================== *)

Module MediaPlayer.

(** The members of the host platform's flag enumeration
    [MediaPlayerEntityFeature] that the integration names.  The enumeration
    belongs to the host, so its values are a parameter of the model. *)
Record MediaPlayerEntityFeature : Type := mkFeature {
  VOLUME_STEP : Z;
  VOLUME_SET : Z;
  VOLUME_MUTE : Z;
  PLAY : Z;
  PAUSE : Z;
  STOP : Z;
  NEXT_TRACK : Z;
  PREVIOUS_TRACK : Z;
  SELECT_SOURCE : Z;
  SELECT_SOUND_MODE : Z;
  BROWSE_MEDIA : Z;
  TURN_ON : Z
}.

Definition SUPPORT_DEVIALET (F : MediaPlayerEntityFeature) : Z :=
  fold_left Z.lor
    [VOLUME_SET F; VOLUME_MUTE F; PLAY F; PAUSE F; STOP F; NEXT_TRACK F;
     PREVIOUS_TRACK F; SELECT_SOURCE F; SELECT_SOUND_MODE F; BROWSE_MEDIA F;
     TURN_ON F]
    (VOLUME_STEP F).

Definition SUPPORT_REBOOT (F : MediaPlayerEntityFeature) : Z :=
  Z.shiftl (TURN_ON F) 1.

Definition SUPPORT_NIGHT_MODE (F : MediaPlayerEntityFeature) : Z :=
  Z.shiftl (SELECT_SOUND_MODE F) 1.

Definition SOUND_MODES : list string :=
  [EQ_PRESET_FLAT; EQ_PRESET_VOICE; EQ_PRESET_CUSTOM].

Definition SOUND_MODE_MAPPING : list (string * string) :=
  [ (EQ_PRESET_FLAT, "Flat");
    (EQ_PRESET_VOICE, "Voice");
    (EQ_PRESET_CUSTOM, "Custom");
    ("night_mode", "Night Mode") ].

Fixpoint assoc (k : string) (l : list (string * string)) : option string :=
  match l with
  | [] => None
  | (k', v) :: r => if (k' =? k)%string then Some v else assoc k r
  end.

(** [coordinator.async_request_refresh()] *)
Definition async_request_refresh : M trace unit :=
  fun t => (Ok tt, (t ++ [Refresh])%list).

(** *** DevialetDataUpdateCoordinator *)

Section Coordinator.

Variable dev : device.


End Coordinator.

(** *** DevialetMediaPlayer

    The attributes of the entity that its methods read and write:
    [data] is [self.coordinator.data], [None] until a snapshot is
    published. *)
Record entity : Type := mkEntity {
  data : value;
  _source_mapping : dict;
  _night_mode_available : bool
}.

Definition set_data (d : value) (self : entity) : entity :=
  mkEntity d (_source_mapping self) (_night_mode_available self).

(** [not data or not data.get(k)] *)
Definition absent (data : value) (k : string) : result bool :=
  if negb (truthy data) then Ok true
  else (v <~ Py.get data k VNone ;; Ok (negb (truthy v))).

(** [data and data.get(k)] as a condition *)
Definition present (data : value) (k : string) : result bool :=
  if truthy data then (v <~ Py.get data k VNone ;; Ok (truthy v))
  else Ok false.

Definition volume_level (self : entity) : result value :=
  a <~ absent (data self) "volume" ;;
  if a : bool then Ok VNone
  else
    volume_data <~ getitem (data self) "volume" ;;
    volume <~ Py.get volume_data "volume" VNone ;;
    match volume with
    | VNone => Ok VNone
    | _ => truediv volume (100 # 1)
    end.

Definition is_volume_muted (self : entity) : result value :=
  a <~ absent (data self) "playback" ;;
  if a : bool then Ok VNone
  else
    playback <~ getitem (data self) "playback" ;;
    mute_state <~ Py.get playback "muteState" VNone ;;
    Ok (VBool (eq_str mute_state "muted")).

Definition source_mapping : list (string * string) :=
  [ ("spotifyconnect", "Spotify Connect");
    ("airplay2", "AirPlay");
    ("upnp", "UPnP/DLNA");
    ("optical", "Optical") ].

Definition _format_source_name (source_type : string) : string :=
  match assoc (lower source_type) source_mapping with
  | Some name => name
  | None => source_type
  end.

(** The receiver of a [str] method. *)
Definition as_str (v : value) : result string :=
  match v with
  | VStr s => Ok s
  | _ => Raise AttributeError
  end.

Definition set_source_mapping (k : string) (v : value) : M entity unit :=
  fun self =>
    (Ok tt,
     mkEntity (data self) (dict_set k v (_source_mapping self))
       (_night_mode_available self)).

(** The body of [for source in source_list], with the local dict
    [source_types] as accumulator. *)
Fixpoint source_list_loop (l : list value) (source_types : dict)
    : M entity dict :=
  match l with
  | [] => ret source_types
  | source :: rest =>
      source_type <- lift (Py.get source "type" VNone) ;;
      keep <- lift (if truthy source_type then
                      (s <~ as_str source_type ;;
                       Ok (negb (existsb (String.eqb (lower s))
                                   ["bluetooth"; "raat"])))
                    else Ok false) ;;
      if keep : bool then
        s <- lift (as_str source_type) ;;
        let formatted_name := _format_source_name s in
        source_id <- lift (Py.get source "sourceId" VNone) ;;
        set_source_mapping formatted_name source_id ;;;
        source_list_loop rest (dict_set formatted_name (VBool true) source_types)
      else source_list_loop rest source_types
  end.

Definition source_list : M entity value :=
  fun self =>
    (a <- lift (absent (data self) "sources") ;;
     if a : bool then ret VNone
     else
       sources <- lift (getitem (data self) "sources") ;;
       source_list <- lift (Py.get sources "sources" (VList [])) ;;
       if truthy source_list then
         l <- lift (iter source_list) ;;
         source_types <- source_list_loop l [] ;;
         ret (VList (map VStr (keys source_types)))
       else ret VNone) self.

Definition _format_sound_mode (mode : string) : string :=
  match assoc mode SOUND_MODE_MAPPING with
  | Some name => name
  | None => mode
  end.

Definition set_night_mode_available (b : bool) : M entity unit :=
  fun self => (Ok tt, mkEntity (data self) (_source_mapping self) b).

Section Features.

Variable F : MediaPlayerEntityFeature.

(** [supported_features], first block: [# Check if night mode is
    available]. *)
Definition check_night_mode_available : M entity unit :=
  fun self =>
    (c <- lift (present (data self) "system_info") ;;
     if c : bool then
       system_info <- lift (getitem (data self) "system_info") ;;
       a <- lift (contains system_info "availableFeatures") ;;
       if a : bool then
         available <- lift (getitem system_info "availableFeatures") ;;
         b <- lift (contains available "nightMode") ;;
         if b : bool then set_night_mode_available true else ret tt
       else ret tt
     else ret tt) self.

(** [supported_features], second block: [# Add reboot support if firmware
    version is >= 2.16]. *)
Definition add_reboot_support (features : Z) : M entity Z :=
  fun self =>
    (c <- lift (present (data self) "device_info") ;;
     if c : bool then
       device_info <- lift (getitem (data self) "device_info") ;;
       release <- lift (Py.get device_info "release" (VDict [])) ;;
       firmware_version <- lift (Py.get release "canonicalVersion" (VStr "0.0.0")) ;;
       ge <- lift (ge_str firmware_version "2.16.0") ;;
       if ge : bool then ret (Z.lor features (SUPPORT_REBOOT F))
       else ret features
     else ret features) self.

Definition supported_features : M entity Z :=
  let features := SUPPORT_DEVIALET F in
  check_night_mode_available ;;;
  add_reboot_support features.

End Features.

(** [extra_state_attributes] fills [attrs] in four blocks, each headed by
    its comment in the source. *)

(** [# Add firmware version] *)
Definition add_firmware_version (d : value) (attrs : dict) : result dict :=
  c <~ present d "device_info" ;;
  if c : bool then
    device_info <~ getitem d "device_info" ;;
    has <~ contains device_info "release" ;;
    if has : bool then
      release <~ getitem device_info "release" ;;
      v <~ Py.get release "canonicalVersion" VNone ;;
      Ok (dict_set "firmware_version" v attrs)
    else Ok attrs
  else Ok attrs.

(** [# Add reboot support status] *)
Definition add_reboot_support_status (d : value) (attrs : dict) : result dict :=
  c <~ present d "device_info" ;;
  if c : bool then
    device_info <~ getitem d "device_info" ;;
    release <~ Py.get device_info "release" (VDict []) ;;
    firmware_version <~ Py.get release "canonicalVersion" (VStr "0.0.0") ;;
    ge <~ ge_str firmware_version "2.16.0" ;;
    Ok (dict_set "reboot_supported" (VBool ge) attrs)
  else Ok attrs.

(** [# Add EQ settings] *)
Definition add_eq_settings (d : value) (attrs : dict) : result dict :=
  c <~ present d "equalizer" ;;
  if c : bool then
    eq_data <~ getitem d "equalizer" ;;
    preset <~ Py.get eq_data "preset" (VStr EQ_PRESET_FLAT) ;;
    let attrs := dict_set "eq_preset" preset attrs in
    custom <~ Py.get eq_data "customEqualization" VNone ;;
    if truthy custom then
      custom <~ getitem eq_data "customEqualization" ;;
      low <~ Py.get custom "low" (VDict []) ;;
      low_gain <~ Py.get low "gain" (VFloat (0 # 1)) ;;
      let attrs := dict_set "eq_low" low_gain attrs in
      custom <~ getitem eq_data "customEqualization" ;;
      high <~ Py.get custom "high" (VDict []) ;;
      high_gain <~ Py.get high "gain" (VFloat (0 # 1)) ;;
      Ok (dict_set "eq_high" high_gain attrs)
    else Ok attrs
  else Ok attrs.

(** [# Add stream info (codec and lossless status)] *)
Definition add_stream_info (d : value) (attrs : dict) : result dict :=
  c <~ present d "playback" ;;
  if c : bool then
    playback <~ getitem d "playback" ;;
    has <~ contains playback "streamInfo" ;;
    attrs <~ (if has : bool then
                stream_info <~ getitem playback "streamInfo" ;;
                codec <~ Py.get stream_info "codec" VNone ;;
                let attrs := dict_set "audio_codec" codec attrs in
                lossless <~ Py.get stream_info "lossless" (VBool false) ;;
                let attrs := dict_set "audio_lossless" lossless attrs in
                supported <~ Py.get stream_info "supported" (VBool true) ;;
                Ok (dict_set "stream_supported" supported attrs)
              else Ok attrs) ;;
    has <~ contains playback "peerDeviceName" ;;
    if has : bool then
      peer <~ getitem playback "peerDeviceName" ;;
      if truthy peer then
        peer <~ getitem playback "peerDeviceName" ;;
        Ok (dict_set "source_device" peer attrs)
      else Ok attrs
    else Ok attrs
  else Ok attrs.

Definition extra_state_attributes (self : entity) : result value :=
  let attrs : dict := [] in
  attrs <~ add_firmware_version (data self) attrs ;;
  attrs <~ add_reboot_support_status (data self) attrs ;;
  attrs <~ add_eq_settings (data self) attrs ;;
  attrs <~ add_stream_info (data self) attrs ;;
  Ok (VDict attrs).

Definition sound_mode_list (self : entity) : value :=
  if negb (truthy (data self)) then VNone
  else
    let modes := map _format_sound_mode SOUND_MODES in
    let modes := if _night_mode_available self
                 then (modes ++ ["Night Mode"])%list else modes in
    VList (map VStr modes).

(** The [for mode, formatted in SOUND_MODE_MAPPING.items()] loop with its
    [break]: the first key whose label is the requested one. *)
Fixpoint reverse_lookup (sound_mode : string) (l : list (string * string))
    : value :=
  match l with
  | [] => VNone
  | (mode, formatted) :: r =>
      if (formatted =? sound_mode)%string then VStr mode
      else reverse_lookup sound_mode r
  end.

(** [MediaPlayerState], the members of the host's enumeration that the
    entity reports. *)
Inductive MediaPlayerState : Type := PLAYING | PAUSED | IDLE.

Definition state (self : entity) : result MediaPlayerState :=
  a <~ absent (data self) "playback" ;;
  if a : bool then Ok IDLE
  else
    playback <~ getitem (data self) "playback" ;;
    playing_state <~ Py.get playback "playingState" VNone ;;
    if eq_str playing_state "playing" then Ok PLAYING
    else if eq_str playing_state "paused" then Ok PAUSED
    else Ok IDLE.




Definition source (self : entity) : result value :=
  a <~ absent (data self) "playback" ;;
  if a : bool then Ok VNone
  else
    playback <~ getitem (data self) "playback" ;;
    source <~ Py.get playback "source" (VDict []) ;;
    if truthy source then
      source_type <~ Py.get source "type" VNone ;;
      if truthy source_type then
        s <~ as_str source_type ;;
        Ok (VStr (_format_source_name s))
      else Ok VNone
    else Ok VNone.

(** [SOUND_MODE_MAPPING.get(mode, mode)] for a [mode] read from the
    snapshot: a list or a dict cannot be a key. *)
Definition _format_sound_mode_value (mode : value) : result value :=
  match mode with
  | VStr s => Ok (VStr (_format_sound_mode s))
  | VList _ | VDict _ => Raise TypeError
  | _ => Ok mode
  end.

Definition sound_mode (self : entity) : result value :=
  if negb (truthy (data self)) then Ok VNone
  else
    c <~ (if _night_mode_available self
          then (v <~ Py.get (data self) "night_mode" VNone ;; Ok (truthy v))
          else Ok false) ;;
    on <~ (if c : bool then
             night_mode <~ getitem (data self) "night_mode" ;;
             v <~ Py.get night_mode "nightMode" VNone ;;
             Ok (eq_str v "on")
           else Ok false) ;;
    if on : bool then Ok (VStr "Night Mode")
    else
      e <~ Py.get (data self) "equalizer" VNone ;;
      if truthy e then
        eq_data <~ getitem (data self) "equalizer" ;;
        mode <~ Py.get eq_data "preset" (VStr EQ_PRESET_FLAT) ;;
        _format_sound_mode_value mode
      else Ok VNone.

Section Actions.

Variable dev : device.

Let job := DevialetAPI.async_add_executor_job dev.

Definition async_select_source (self : entity) (source : string)
    : M trace unit :=
  match lookup source (_source_mapping self) with
  | None => ret tt
  | Some source_id =>
      job "play_source" [source_id] ;;;
      async_request_refresh
  end.

Definition async_volume_up (self : entity) : M trace unit :=
  job "volume_up" [] ;;; async_request_refresh.

Definition async_volume_down (self : entity) : M trace unit :=
  job "volume_down" [] ;;; async_request_refresh.

(** [volume_percent] is [int(volume * 100)], computed by the caller's
    float arithmetic, which is not modelled. *)
Definition async_set_volume_level (self : entity) (volume_percent : Z)
    : M trace unit :=
  job "set_volume" [VInt volume_percent] ;;; async_request_refresh.

Definition async_mute_volume (self : entity) (mute : bool) : M trace unit :=
  (if mute then job "mute" [] else job "unmute" []) ;;;
  async_request_refresh.

Definition async_media_play (self : entity) : M trace unit :=
  job "play" [] ;;; async_request_refresh.

Definition async_media_pause (self : entity) : M trace unit :=
  job "pause" [] ;;; async_request_refresh.

Definition async_media_previous_track (self : entity) : M trace unit :=
  job "previous_track" [] ;;; async_request_refresh.

Definition async_media_next_track (self : entity) : M trace unit :=
  job "next_track" [] ;;; async_request_refresh.

Definition async_media_stop (self : entity) : M trace unit :=
  job "pause" [] ;;; async_request_refresh.

Definition async_select_sound_mode (self : entity) (sound_mode : string)
    : M trace unit :=
  if negb (truthy (data self)) then ret tt
  else if _night_mode_available self && (sound_mode =? "Night Mode")%string
  then job "set_night_mode" [VBool true] ;;; ret tt
  else
    (if existsb (String.eqb sound_mode) (map _format_sound_mode SOUND_MODES)
     then
       let internal_mode := reverse_lookup sound_mode SOUND_MODE_MAPPING in
       if truthy internal_mode then
         (if _night_mode_available self
          then job "set_night_mode" [VBool false] ;;; ret tt
          else ret tt) ;;;
         job "set_eq_preset" [internal_mode] ;;; ret tt
       else ret tt
     else ret tt) ;;;
    async_request_refresh.

Definition async_turn_on (self : entity) : M trace unit :=
  job "reboot_system" [] ;;; async_request_refresh.

End Actions.

End MediaPlayer.

(* ===================================================================== *)
(** ** __init__.py: the service handlers of [register_services] *)
(* ===================================================================== *)

Module Services.

(** [hass.data[DOMAIN]] holds one client per configured entry; each client
    talks to its own device.  A handler runs its job on every entry in
    turn. *)
Fixpoint for_each_entry (entries : list device) (name : string)
    (args : list value) : M trace unit :=
  match entries with
  | [] => ret tt
  | dev :: rest =>
      DevialetAPI.async_add_executor_job dev name args ;;;
      for_each_entry rest name args
  end.

Definition handle_set_volume entries (volume : value) :=
  for_each_entry entries "set_volume" [volume].
Definition handle_reboot_system entries :=
  for_each_entry entries "reboot_system" [].
Definition handle_volume_up entries := for_each_entry entries "volume_up" [].
Definition handle_volume_down entries := for_each_entry entries "volume_down" [].
Definition handle_play entries := for_each_entry entries "play" [].
Definition handle_pause entries := for_each_entry entries "pause" [].
Definition handle_mute entries := for_each_entry entries "mute" [].
Definition handle_unmute entries := for_each_entry entries "unmute" [].
Definition handle_next entries := for_each_entry entries "next_track" [].
Definition handle_previous entries := for_each_entry entries "previous_track" [].
Definition handle_set_night_mode entries (enabled : value) :=
  for_each_entry entries "set_night_mode" [enabled].
Definition handle_set_eq_preset entries (preset : value) :=
  for_each_entry entries "set_eq_preset" [preset].
Definition handle_set_custom_eq entries (low high : value) :=
  for_each_entry entries "set_custom_eq" [low; high].
Definition handle_power_off_system entries :=
  for_each_entry entries "power_off_system" [].

(** *** The handlers with the entries told apart

    [for entry_id, entry_data in hass.data[DOMAIN].items()]: an entry is
    its identifier and the device its client talks to.  A request does
    not say which host it goes to, so the log of a handler records every
    event together with the identifier of the entry whose client issued
    it.  A device still answers from the whole history. *)
Definition entry : Type := (string * device)%type.
Definition log : Type := list (string * event).

(** The job of one entry: what it adds to the history is recorded under
    the entry's identifier. *)
Definition at_entry {A} (entry_id : string) (job : M trace A) : M log A :=
  fun l =>
    let t := map snd l in
    let (r, t') := job t in
    (r, (l ++ map (pair entry_id) (skipn (length t) t'))%list).

Fixpoint for_each_entry_at (entries : list entry) (name : string)
    (args : list value) : M log unit :=
  match entries with
  | [] => ret tt
  | (entry_id, dev) :: rest =>
      at_entry entry_id (DevialetAPI.async_add_executor_job dev name args) ;;;
      for_each_entry_at rest name args
  end.

Definition handle_volume_up_at entries :=
  for_each_entry_at entries "volume_up" [].
Definition handle_volume_down_at entries :=
  for_each_entry_at entries "volume_down" [].
Definition handle_play_at entries := for_each_entry_at entries "play" [].
Definition handle_pause_at entries := for_each_entry_at entries "pause" [].
Definition handle_mute_at entries := for_each_entry_at entries "mute" [].
Definition handle_unmute_at entries := for_each_entry_at entries "unmute" [].
Definition handle_next_at entries :=
  for_each_entry_at entries "next_track" [].
Definition handle_previous_at entries :=
  for_each_entry_at entries "previous_track" [].
Definition handle_set_eq_preset_at entries (preset : value) :=
  for_each_entry_at entries "set_eq_preset" [preset].

End Services.

(* ===================================================================== *)
(** ** switch.py: the night-mode switch *)
(* ===================================================================== *)

Module Switch.

Definition is_on (data : value) : result value :=
  a <~ MediaPlayer.absent data "night_mode" ;;
  if a : bool then Ok VNone
  else
    night_mode <~ getitem data "night_mode" ;;
    state <~ Py.get night_mode "nightMode" VNone ;;
    Ok (VBool (eq_str state "on")).

Definition async_turn_on (dev : device) : M trace unit :=
  DevialetAPI.async_add_executor_job dev "set_night_mode" [VBool true] ;;;
  MediaPlayer.async_request_refresh.

Definition async_turn_off (dev : device) : M trace unit :=
  DevialetAPI.async_add_executor_job dev "set_night_mode" [VBool false] ;;;
  MediaPlayer.async_request_refresh.

(** [async_setup_entry]: whether the switch entity is added.
    [coordinator] is what [hass.data] holds for the entry: nothing, or a
    coordinator with its [data]. *)
Definition async_setup_entry (coordinator : option value) : result bool :=
  match coordinator with
  | None => Ok false
  | Some data =>
      if truthy data then
        system_info <~ Py.get data "system_info" (VDict []) ;;
        a <~ contains system_info "availableFeatures" ;;
        if a : bool then
          available <~ getitem system_info "availableFeatures" ;;
          contains available "nightMode"
        else Ok false
      else Ok false
  end.

End Switch.

(* ===================================================================== *)
(** ** sensor.py *)
(* ===================================================================== *)

Module Sensor.

(** [data and data.get(k)], as a value. *)
Definition and_get (data : value) (k : string) : result value :=
  if truthy data then Py.get data k VNone else Ok data.

(** [DevialetSensorBase._get_metadata_value] *)
Definition _get_metadata_value (data : value) (key : string) : result value :=
  playback <~ and_get data "playback" ;;
  if negb (truthy playback) then Ok VNone
  else
    metadata <~ Py.get playback "metadata" (VDict []) ;;
    Py.get metadata key (VStr "Unknown").

Module DevialetVolumeSensor.

Definition native_value (data : value) : result value :=
  volume_data <~ and_get data "volume" ;;
  if negb (truthy volume_data) then Ok VNone
  else Py.get volume_data "volume" VNone.

End DevialetVolumeSensor.

Module DevialetPlaybackSensor.

Definition native_value (data : value) : result value :=
  playback <~ and_get data "playback" ;;
  if negb (truthy playback) then Ok VNone
  else Py.get playback "playingState" VNone.

Definition extra_state_attributes (data : value) : result value :=
  playback <~ and_get data "playback" ;;
  if negb (truthy playback) then Ok (VDict [])
  else
    let attributes : dict := [] in
    has <~ contains playback "muteState" ;;
    attributes <~ (if has : bool then
                     v <~ getitem playback "muteState" ;;
                     Ok (dict_set "mute_state" v attributes)
                   else Ok attributes) ;;
    has <~ contains playback "source" ;;
    c <~ (if has : bool then
            v <~ getitem playback "source" ;; Ok (truthy v)
          else Ok false) ;;
    if c : bool then
      source <~ getitem playback "source" ;;
      v <~ Py.get source "type" VNone ;;
      Ok (VDict (dict_set "source_type" v attributes))
    else Ok (VDict attributes).

End DevialetPlaybackSensor.

Module DevialetArtistSensor.
Definition native_value (data : value) : result value :=
  _get_metadata_value data "artist".
End DevialetArtistSensor.

Module DevialetTrackSensor.
Definition native_value (data : value) : result value :=
  _get_metadata_value data "title".
End DevialetTrackSensor.

Module DevialetAlbumSensor.
Definition native_value (data : value) : result value :=
  _get_metadata_value data "album".
End DevialetAlbumSensor.

Module DevialetStreamInfoSensor.

(** [not playback or "streamInfo" not in playback] *)
Definition no_stream_info (playback : value) : result bool :=
  if negb (truthy playback) then Ok true
  else (has <~ contains playback "streamInfo" ;; Ok (negb has)).

Definition native_value (data : value) : result value :=
  playback <~ and_get data "playback" ;;
  none <~ no_stream_info playback ;;
  if none : bool then Ok VNone
  else
    stream_info <~ getitem playback "streamInfo" ;;
    c <~ Py.get stream_info "codec" (VStr "") ;;
    codec <~ str_lower c ;;
    if negb (truthy (VStr codec)) then Ok VNone
    else
      lossless <~ Py.get stream_info "lossless" (VBool false) ;;
      if truthy lossless then Ok (VStr (codec ++ " (Lossless)"))
      else Ok (VStr codec).

Definition extra_state_attributes (data : value) : result value :=
  playback <~ and_get data "playback" ;;
  none <~ no_stream_info playback ;;
  if none : bool then Ok (VDict [])
  else
    stream_info <~ getitem playback "streamInfo" ;;
    c <~ Py.get stream_info "codec" VNone ;;
    if negb (truthy c) then Ok (VDict [])
    else
      c <~ Py.get stream_info "codec" (VStr "") ;;
      codec <~ str_lower c ;;
      lossless <~ Py.get stream_info "lossless" (VBool false) ;;
      supported <~ Py.get stream_info "supported" (VBool true) ;;
      Ok (VDict [("codec", VStr codec); ("lossless", lossless);
                 ("supported", supported)]).

End DevialetStreamInfoSensor.

End Sensor.

(* ===================================================================== *)
(** ** config_flow.py *)
(* ===================================================================== *)

Module ConfigFlow.

(** [CONF_HOST] of the host platform's constants. *)
Definition CONF_HOST : string := "host".

(** What [validate_input] can raise: [CannotConnect], or an exception of
    Python out of reading the input, out of the client or out of reading
    the device info. *)
Inductive flow_exn : Type :=
| CannotConnect
| Python (e : exn).

(** The two ways a step ends. *)
Inductive FlowResult : Type :=
| CreateEntry (title : value) (data : value)
| ShowForm (errors : dict).

Section Flow.

(** The device that answers at a host: what [DevialetAPI(host)] talks
    to. *)
Variable network : value -> device.

(** Whether [urljoin] rejects the base URL [f"http://{host}"], as it
    does for a host with an unmatched bracket: every call of the client
    of such a host raises [ValueError] inside the [try] of [get], where
    only [RequestException] is caught, before anything is sent. *)
Variable url_rejected : value -> bool.

(** The host's [async_set_unique_id] followed by
    [_abort_if_unique_id_configured]: whether it raises for a given
    device id.  What it raises is an [Exception] of the host. *)
Variable unique_id_configured : value -> bool.

Definition validate_input (data : value)
    : trace -> (flow_exn + value) * trace :=
  fun t =>
    match getitem data CONF_HOST with
    | Raise e => (inl (Python e), t)
    | Ok host =>
        if url_rejected host then (inl (Python ValueError), t)
        else
        match DevialetAPI.async_add_executor_job (network host)
                "get_device_info" [] t with
        | (Raise e, t') => (inl (Python e), t')
        | (Ok device_info, t') =>
            if negb (truthy device_info) then (inl CannotConnect, t')
            else
              match Py.get device_info "model" (VStr "Devialet Speaker"),
                    Py.get device_info "deviceId" (VStr "unknown") with
              | Ok title, Ok device_id =>
                  (inr (VDict [("title", title); ("device_id", device_id)]),
                   t')
              | Raise e, _ => (inl (Python e), t')
              | _, Raise e => (inl (Python e), t')
              end
        end
    end.

Definition async_step_user (user_input : option value)
    : trace -> FlowResult * trace :=
  fun t =>
    let errors : dict := [] in
    match user_input with
    | None => (ShowForm errors, t)
    | Some input =>
        match validate_input input t with
        | (inr info, t') =>
            match getitem info "device_id", getitem info "title" with
            | Ok device_id, Ok title =>
                if unique_id_configured device_id
                then (ShowForm (dict_set "base" (VStr "unknown") errors), t')
                else (CreateEntry title input, t')
            | _, _ => (ShowForm (dict_set "base" (VStr "unknown") errors), t')
            end
        | (inl CannotConnect, t') =>
            (ShowForm (dict_set "base" (VStr "cannot_connect") errors), t')
        | (inl _, t') =>
            (ShowForm (dict_set "base" (VStr "unknown") errors), t')
        end
    end.

End Flow.

End ConfigFlow.

(* ===================================================================== *)
(** ** The vocabulary of the specification

    These definitions follow the words of the specification, not the
    code; the theorems below compare the code with them. *)
(* ===================================================================== *)

Module Spec.

(** The error taxonomy of the client, and the one successful reply: a
    200 response whose body decodes to a mapping without an [error] key.
    A body that decodes to something that is not a mapping has no class
    of its own in the specification. *)
Inductive reply_class : Type :=
| TransportFailure
| ProtocolFailure
| DecodeFailure
| VendorFailure
| Mapping (d : dict)
| NotAMapping (v : value).

Definition classify (o : outcome) : reply_class :=
  match o with
  | Failed => TransportFailure
  | Responded r =>
      if status_code r =? 200 then
        match body r with
        | None => DecodeFailure
        | Some (VDict d) =>
            match lookup "error" d with
            | Some _ => VendorFailure
            | None => Mapping d
            end
        | Some v => NotAMapping v
        end
      else ProtocolFailure
  end.

(** What a call yields for each class: absent for the four failures, the
    decoded mapping for a success.  Nothing is specified otherwise. *)
Definition specified_result (c : reply_class) : option value :=
  match c with
  | TransportFailure | ProtocolFailure | DecodeFailure | VendorFailure =>
      Some VNone
  | Mapping d => Some (VDict d)
  | NotAMapping _ => None
  end.

(** The claim read literally: every 200 response with valid JSON and no
    [error] key yields the decoded value, every other reply yields
    absent, and nothing is raised. *)
Definition client_as_specified (o : outcome) : result value :=
  match classify o with
  | Mapping d => Ok (VDict d)
  | NotAMapping v => Ok v
  | _ => Ok VNone
  end.

(** A computation returns: it does not raise. *)
Definition returns {S A} (m : M S A) (s : S) : Prop :=
  exists a, fst (m s) = Ok a.









(** The requests among the events of a trace: the commands and queries
    sent to the device. *)
Fixpoint requests (t : trace) : list request :=
  match t with
  | [] => []
  | Http rq :: r => rq :: requests r
  | Refresh :: r => requests r
  end.

Fixpoint refreshes (t : trace) : nat :=
  match t with
  | [] => O
  | Refresh :: r => S (refreshes r)
  | Http _ :: r => refreshes r
  end.

(** [clamp(v, lo, hi)] *)
Definition clamp (v lo hi : Z) : Z := Z.max lo (Z.min hi v).

(** The volume fraction as the claim words it: [volume / 100] clamped to
    the unit interval. *)
Definition clamped_fraction (volume : Z) : Q :=
  Qmax (0 # 1) (Qmin (1 # 1) (inject_Z volume / (100 # 1))).

(** A level read from the integer volume [n] is the fraction as it is,
    up to the rounding of the division: it is within [2^-50] of
    [n / 100], and it lies in the unit interval exactly when [n] lies
    between 0 and 100. *)
Definition is_unclamped_fraction (n : Z) (q : Q) : Prop :=
  Qle (Qabs (q - inject_Z n / (100 # 1))) (1 # 1125899906842624)
  /\ ((0 <= n <= 100) <-> (Qle (0 # 1) q /\ Qle q (1 # 1))).

(** The same as a test, on what reading the level returns. *)
Definition reads_unclamped_fraction (n : Z) (r : result value) : bool :=
  match r with
  | Ok (VFloat q) =>
      Qle_bool (Qabs (q - inject_Z n / (100 # 1))) (1 # 1125899906842624)
      && Bool.eqb ((0 <=? n) && (n <=? 100))
           (Qle_bool (0 # 1) q && Qle_bool q (1 # 1))
  | _ => false
  end.

(** The integers from [lo] to [hi]. *)
Definition integers (lo hi : Z) : list Z :=
  map (fun i => lo + Z.of_nat i) (seq 0 (Z.to_nat (hi - lo + 1))).

Definition set_volume_request (v : Z) : request :=
  mkRequest POST API_VOLUME (Some (VDict [("volume", VInt (clamp v 0 100))])).

Definition night_mode_request (on : bool) : request :=
  mkRequest POST API_NIGHT_MODE
    (Some (VDict [("nightMode", VStr (if on then "on" else "off"))])).

Definition eq_preset_request (preset : string) : request :=
  mkRequest POST API_EQUALIZER (Some (VDict [("preset", VStr preset)])).

(** A field of the snapshot is absent: there is no snapshot, or the key
    is missing or bound to [None]. *)
Definition field_absent (data : value) (k : string) : Prop :=
  data = VNone \/
  exists d, data = VDict d /\ (lookup k d = None \/ lookup k d = Some VNone).

(** Mute as the claim words it: unknown when the playback field is
    absent, otherwise whether [muteState] is ["muted"], a missing
    [muteState] counting as not muted. *)
Definition mute_as_specified (data : value) : value :=
  match data with
  | VDict d =>
      match lookup "playback" d with
      | Some (VDict playback) =>
          VBool (match lookup "muteState" playback with
                 | Some v => eq_str v "muted"
                 | None => false
                 end)
      | _ => VNone
      end
  | _ => VNone
  end.

(** The firmware version string of a device-info mapping:
    [release.canonicalVersion], ["0.0.0"] when it is missing.  There is
    none when [release] is not a mapping or the version is not a
    string. *)
Definition firmware_version (device_info : dict) : option string :=
  match lookup "release" device_info with
  | None => Some "0.0.0"
  | Some (VDict release) =>
      match lookup "canonicalVersion" release with
      | None => Some "0.0.0"
      | Some (VStr s) => Some s
      | Some _ => None
      end
  | Some _ => None
  end.

(** [a >= b] in the lexicographic order of strings. *)
Definition lex_ge (a b : string) : bool := String.leb b a.

(** A flag is among the features. *)
Definition has_flag (features flag : Z) : bool :=
  Z.land features flag =? flag.

(** Whether the snapshot lists night mode among the available features
    of the system.  There is no answer when the system-info field is
    neither absent nor a mapping, or its [availableFeatures] is not a
    list. *)
Definition night_mode_listed (snapshot : dict) : option bool :=
  match lookup "system_info" snapshot with
  | None | Some VNone => Some false
  | Some (VDict system_info) =>
      match lookup "availableFeatures" system_info with
      | None => Some false
      | Some (VList l) => Some (existsb (fun x => eq_str x "nightMode") l)
      | Some _ => None
      end
  | Some _ => None
  end.

(** The sound-mode list for a given availability of night mode. *)
Definition sound_modes (night_mode : bool) : list string :=
  (["Flat"; "Voice"; "Custom"]
     ++ if night_mode then ["Night Mode"] else [])%list.

(** *** The source list, in the words of the specification *)

(** The fixed exclusion set: two wireless protocol types. *)
Definition excluded_types : list string := ["bluetooth"; "raat"].

(** Case-insensitive comparison.  Two characters are the same letter
    when they are equal, or when one is an upper-case letter of ASCII and
    the other is the lower-case letter, 32 code points above it; two
    strings are the same word when they are the same letter position by
    position. *)
Definition is_upper (c : ascii) : bool :=
  ((65 <=? N_of_ascii c) && (N_of_ascii c <=? 90))%N.

Definition same_letter (a b : ascii) : bool :=
  (a =? b)%char
  || (is_upper a && (N_of_ascii b =? N_of_ascii a + 32)%N)
  || (is_upper b && (N_of_ascii a =? N_of_ascii b + 32)%N).

Fixpoint same_word (s w : string) : bool :=
  match s, w with
  | EmptyString, EmptyString => true
  | String a s', String b w' => same_letter a b && same_word s' w'
  | _, _ => false
  end.

Definition excluded (raw_type : string) : bool :=
  existsb (same_word raw_type) excluded_types.

(** The fixed, case-insensitive table of display labels; an unknown type
    is passed through unchanged. *)
Definition label_table : list (string * string) :=
  [ ("spotifyconnect", "Spotify Connect");
    ("airplay2", "AirPlay");
    ("upnp", "UPnP/DLNA");
    ("optical", "Optical") ].

Definition display_label (raw_type : string) : string :=
  match find (fun p => same_word raw_type (fst p)) label_table with
  | Some p => snd p
  | None => raw_type
  end.

(** Every character, for proofs by cases on a character. *)
Definition all_ascii : list ascii := map ascii_of_nat (seq 0 256).

(** The type of a raw entry, when it has one. *)
Definition raw_type (entry : dict) : option string :=
  match lookup "type" entry with
  | Some (VStr s) => if (s =? "")%string then None else Some s
  | _ => None
  end.

(** An entry of the raw list is a mapping whose [type], if any, is a
    string or a falsy value. *)
Definition well_typed_source (entry : dict) : Prop :=
  match lookup "type" entry with
  | None | Some (VStr _) => True
  | Some v => truthy v = false
  end.

(** The label and identifier under which an entry is exposed; none for an
    entry without a type or with an excluded type. *)
Definition exposed_as (entry : dict) : option (string * value) :=
  match raw_type entry with
  | Some t =>
      if excluded t then None
      else Some (display_label t,
                 match lookup "sourceId" entry with
                 | Some id => id
                 | None => VNone
                 end)
  | None => None
  end.

Fixpoint exposed (raw : list dict) : list (string * value) :=
  match raw with
  | [] => []
  | entry :: rest =>
      match exposed_as entry with
      | Some p => p :: exposed rest
      | None => exposed rest
      end
  end.

(** Each label once, in the order of first appearance. *)
Fixpoint first_occurrences (l : list string) : list string :=
  match l with
  | [] => []
  | x :: r => x :: filter (fun y => negb (y =? x)%string) (first_occurrences r)
  end.

Definition labels (raw : list dict) : list string :=
  first_occurrences (map fst (exposed raw)).

(** The identifier written last under a label. *)
Fixpoint last_written (label : string) (pairs : list (string * value))
    : option value :=
  match pairs with
  | [] => None
  | (l, id) :: r =>
      match last_written label r with
      | Some x => Some x
      | None => if (l =? label)%string then Some id else None
      end
  end.

(** Membership in a list of keys. *)
Definition mem (k : string) (ks : list string) : bool :=
  existsb (String.eqb k) ks.

End Spec.

Import Spec.

(* ===================================================================== *)
(** ** Vocabulary of the further properties *)
(* ===================================================================== *)

Module Props.

(** A computation adds at most one event to the trace, and that event is
    a request. *)
Definition at_most_one_request {A} (m : M trace A) : Prop :=
  forall t : trace,
    snd (m t) = t \/ exists rq, snd (m t) = (t ++ [Http rq])%list.

(** A number lies between 0 and 100. *)
Definition in_volume_range (q : Q) : Prop :=
  Qle (0 # 1) q /\ Qle q (100 # 1).

(** The valid equalizer presets. *)
Definition valid_preset (preset : value) : bool :=
  existsb (eq_str preset) [EQ_PRESET_FLAT; EQ_PRESET_VOICE; EQ_PRESET_CUSTOM].

(** A device answers a request at every point of every history with a
    reply on which the client returns. *)
Definition answers (dev : device) (rq : request) : Prop :=
  forall t : trace, returns (DevialetAPI.send dev rq) t.

(** A command without parameters: a POST of the empty object. *)
Definition command (e : string) : request :=
  mkRequest POST e (Some (VDict [])).

(** The services without parameters, each with the endpoint of its
    handler's client method. *)
Definition simple_services
    : list ((list Services.entry -> M Services.log unit) * string) :=
  [ (Services.handle_volume_up_at, API_VOLUME_UP);
    (Services.handle_volume_down_at, API_VOLUME_DOWN);
    (Services.handle_play_at, API_PLAY);
    (Services.handle_pause_at, API_PAUSE);
    (Services.handle_mute_at, API_MUTE);
    (Services.handle_unmute_at, API_UNMUTE);
    (Services.handle_next_at, API_NEXT);
    (Services.handle_previous_at, API_PREVIOUS) ].

(** The log of one request put to each entry in turn. *)
Definition once_per_entry (entries : list Services.entry) (rq : request)
    : Services.log :=
  map (fun en => (fst en, Http rq)) entries.

(** The history that the devices see: the log without the identifiers. *)
Definition history (l : Services.log) : trace := map snd l.

(** The actions of the media player without parameters, each with the
    endpoint of its client method. *)
Definition simple_actions
    : list ((device -> MediaPlayer.entity -> M trace unit) * string) :=
  [ (MediaPlayer.async_volume_up, API_VOLUME_UP);
    (MediaPlayer.async_volume_down, API_VOLUME_DOWN);
    (MediaPlayer.async_media_play, API_PLAY);
    (MediaPlayer.async_media_pause, API_PAUSE);
    (MediaPlayer.async_media_stop, API_PAUSE);
    (MediaPlayer.async_media_previous_track, API_PREVIOUS);
    (MediaPlayer.async_media_next_track, API_NEXT);
    (fun dev self => MediaPlayer.async_mute_volume dev self true, API_MUTE);
    (fun dev self => MediaPlayer.async_mute_volume dev self false, API_UNMUTE) ].

(** How the media player reads a playing state. *)
Definition state_of (playing_state : value) : MediaPlayer.MediaPlayerState :=
  if eq_str playing_state "playing" then MediaPlayer.PLAYING
  else if eq_str playing_state "paused" then MediaPlayer.PAUSED
  else MediaPlayer.IDLE.



End Props.

Import Props.

(* ===================================================================== *)
(** ** Sample devices and snapshots *)
(* ===================================================================== *)

(** A device that always answers 200 with the same decoded body. *)
Definition always_replies (v : value) : device :=
  fun _ _ => Responded (mkResponse 200 (Some v)).


(** The entity after the coordinator published [snapshot]. *)
Definition observing (snapshot : dict) : MediaPlayer.entity :=
  MediaPlayer.mkEntity (VDict snapshot) [] false.

(** The flag enumeration with the values the host platform gives its
    members. *)
Definition host_features : MediaPlayer.MediaPlayerEntityFeature :=
  MediaPlayer.mkFeature 1024 4 8 16384 1 4096 32 16 2048 65536 131072 128.

(** Two snapshots that differ in whether the system lists night mode
    among its available features. *)
Definition snapshot_with_night_mode : dict :=
  [("system_info", VDict [("availableFeatures", VList [VStr "nightMode"])])].

Definition snapshot_without_night_mode : dict :=
  [("system_info", VDict [("availableFeatures", VList [])])].

(** A snapshot whose device reports the firmware version [v]. *)
Definition snapshot_with_firmware (v : string) : dict :=
  [("device_info", VDict [("release", VDict [("canonicalVersion", VStr v)])])].

(** A snapshot whose source list is [raw], and a raw list of two
    sources. *)
Definition snapshot_with_sources (raw : list dict) : dict :=
  [("sources", VDict [("sources", VList (map VDict raw))])].

Definition spotify_and_bluetooth : list dict :=
  [ [("sourceId", VStr "a"); ("type", VStr "spotifyconnect")];
    [("sourceId", VStr "b"); ("type", VStr "bluetooth")] ].

(** A raw list with types in mixed case, an excluded type in upper case,
    an unknown type, an entry without a type, and two entries under the
    same label. *)
Definition mixed_case_sources : list dict :=
  [ [("sourceId", VStr "1"); ("type", VStr "AirPlay2")];
    [("sourceId", VStr "2"); ("type", VStr "RAAT")];
    [("sourceId", VStr "3"); ("type", VStr "Phono")];
    [("sourceId", VStr "4"); ("type", VStr "airplay2")];
    [("sourceId", VStr "5")];
    [("sourceId", VStr "6"); ("type", VStr "BlueTooth")];
    [("sourceId", VStr "7"); ("type", VStr "OPTICAL")] ].

(* ===================================================================== *)
(** ** The client *)
(* ===================================================================== *)

Section ClientFacts.

Variable dev : device.

(** One attempt always issues exactly its request, whatever comes back. *)
Lemma send_trace (rq : request) (t : trace) :
  snd (DevialetAPI.send dev rq t) = (t ++ [Http rq])%list.
Proof.
  unfold DevialetAPI.send. destruct (dev t rq); reflexivity.
Qed.

(** On every reply that the specification classifies, the call returns
    what the specification says. *)
Lemma send_specified (rq : request) (t : trace) (v : value) :
  specified_result (classify (dev t rq)) = Some v ->
  DevialetAPI.send dev rq t = (Ok v, (t ++ [Http rq])%list).
Proof.
  unfold DevialetAPI.send, classify.
  destruct (dev t rq) as [|r]; simpl.
  - intros [= <-]. reflexivity.
  - unfold DevialetAPI._handle_response.
    destruct (status_code r =? 200); simpl.
    + destruct (body r) as [b|]; simpl.
      * destruct b; simpl; try discriminate.
        destruct (lookup "error" d) eqn:E; simpl; intros [= <-]; reflexivity.
      * intros [= <-]. reflexivity.
    + intros [= <-]. reflexivity.
Qed.

Lemma send_returns (rq : request) (t : trace) :
  specified_result (classify (dev t rq)) <> None ->
  returns (DevialetAPI.send dev rq) t.
Proof.
  intros H. destruct (specified_result (classify (dev t rq))) as [v|] eqn:E.
  - exists v. rewrite (send_specified _ _ _ E). reflexivity.
  - contradiction.
Qed.

End ClientFacts.

(** C1, as amended.  For every call through [get] or [post], on every
    device and after every history: when the reply is a transport
    failure, a status other than 200, a body that does not parse, or a
    mapping with an [error] key, the call returns [None]; when it is a
    200 response whose body decodes to a mapping without an [error] key,
    the call returns that mapping.  In each of these cases nothing is
    raised and exactly the one request was issued. *)
Theorem client_get_post_outcomes (dev : device) (t : trace) (e : string)
    (data : option value) (v : value) :
  (specified_result (classify (dev t (mkRequest GET e None))) = Some v ->
   DevialetAPI.get dev e t = (Ok v, (t ++ [Http (mkRequest GET e None)])%list))
  /\
  (let rq := mkRequest POST e
               (Some (match data with Some d => d | None => VDict [] end)) in
   specified_result (classify (dev t rq)) = Some v ->
   DevialetAPI.post dev e data t = (Ok v, (t ++ [Http rq])%list)).
Proof.
  split.
  - apply send_specified.
  - cbv zeta. apply send_specified.
Qed.

(** The five classified replies, each at a concrete device. *)
Lemma client_get_post_outcomes_witness :
  let ok := VDict [("volume", VInt 57)] in
  let err := VDict [("error", VDict [("code", VInt 1)])] in
  fst (DevialetAPI.get (fun _ _ => Failed) API_VOLUME []) = Ok VNone
  /\ fst (DevialetAPI.get (fun _ _ => Responded (mkResponse 500 None))
            API_VOLUME []) = Ok VNone
  /\ fst (DevialetAPI.get (fun _ _ => Responded (mkResponse 200 None))
            API_VOLUME []) = Ok VNone
  /\ fst (DevialetAPI.post (always_replies err) API_MUTE None []) = Ok VNone
  /\ fst (DevialetAPI.get (always_replies ok) API_VOLUME []) = Ok ok.
Proof.
  cbv zeta.
  refine (conj _ (conj _ (conj _ (conj _ _)))).
  - rewrite (proj1 (client_get_post_outcomes (fun _ _ => Failed) []
                      API_VOLUME None VNone) eq_refl).
    reflexivity.
  - rewrite (proj1 (client_get_post_outcomes
                      (fun _ _ => Responded (mkResponse 500 None)) []
                      API_VOLUME None VNone) eq_refl).
    reflexivity.
  - rewrite (proj1 (client_get_post_outcomes
                      (fun _ _ => Responded (mkResponse 200 None)) []
                      API_VOLUME None VNone) eq_refl).
    reflexivity.
  - rewrite (proj2 (client_get_post_outcomes
                      (always_replies
                         (VDict [("error", VDict [("code", VInt 1)])])) []
                      API_MUTE None VNone) eq_refl).
    reflexivity.
  - rewrite (proj1 (client_get_post_outcomes
                      (always_replies (VDict [("volume", VInt 57)])) []
                      API_VOLUME None (VDict [("volume", VInt 57)])) eq_refl).
    reflexivity.
Defined.

(** C1, as stated, fails: a 200 response whose body is the valid JSON
    document [5] has no [error] key, so the claim promises the decoded
    value and no exception; the membership test ["error" in data] raises
    [TypeError], which neither [except] clause catches. *)
Lemma client_raises_on_scalar_body :
  client_as_specified (always_replies (VInt 5) [] (mkRequest GET API_VOLUME None))
    = Ok (VInt 5)
  /\ fst (DevialetAPI.get (always_replies (VInt 5)) API_VOLUME [])
    = Raise TypeError.
Proof. split; reflexivity. Qed.

(** The same happens for the body [null]; a body that is a list is
    returned as it is. *)
Example client_on_other_bodies :
  fst (DevialetAPI.get (always_replies VNone) API_VOLUME []) = Raise TypeError
  /\ fst (DevialetAPI.get (always_replies (VList [VInt 1])) API_VOLUME [])
     = Ok (VList [VInt 1]).
Proof. split; reflexivity. Qed.

(* ===================================================================== *)
(** ** Volume *)
(* ===================================================================== *)

Lemma min_100_int (v : Z) :
  Py.min (VInt 100) (VInt v) = Ok (VInt (Z.min 100 v)).
Proof.
  unfold Py.min, Qltb, Qle_bool; simpl. rewrite Z.mul_1_r.
  destruct (Z.leb_spec 100 v); simpl.
  - rewrite Z.min_l by lia. reflexivity.
  - rewrite Z.min_r by lia. reflexivity.
Qed.

Lemma max_0_int (v : Z) :
  Py.max (VInt 0) (VInt v) = Ok (VInt (Z.max 0 v)).
Proof.
  unfold Py.max, Qltb, Qle_bool; simpl. rewrite Z.mul_1_r.
  destruct (Z.leb_spec v 0); simpl.
  - rewrite Z.max_l by lia. reflexivity.
  - rewrite Z.max_r by lia. reflexivity.
Qed.

(** Whatever the device answers, [set_volume] issues exactly one request:
    the POST of the clamped volume. *)
Lemma set_volume_sends_clamped (dev : device) (t : trace) (v : Z) :
  snd (DevialetAPI.set_volume dev (VInt v) t)
  = (t ++ [Http (set_volume_request v)])%list.
Proof.
  unfold DevialetAPI.set_volume, bind, lift.
  rewrite min_100_int, max_0_int.
  apply send_trace.
Qed.

Lemma lookup_some_truthy (k : string) (d : dict) (v : value) :
  lookup k d = Some v -> truthy (VDict d) = true.
Proof. destruct d; [discriminate | reflexivity]. Qed.

Lemma absent_of_field_absent (data : value) (k : string) :
  field_absent data k -> MediaPlayer.absent data k = Ok true.
Proof.
  intros [-> | [d [-> H]]]; [reflexivity|].
  unfold MediaPlayer.absent.
  destruct (truthy (VDict d)); simpl; [|reflexivity].
  destruct H as [-> | ->]; reflexivity.
Qed.

Lemma absent_of_present_mapping (d : dict) (k : string) (v : value) :
  lookup k d = Some v -> truthy v = true ->
  MediaPlayer.absent (VDict d) k = Ok false.
Proof.
  intros H T. unfold MediaPlayer.absent.
  rewrite (lookup_some_truthy _ _ _ H). simpl. rewrite H, T. reflexivity.
Qed.

Lemma integers_in (lo hi n : Z) : lo <= n <= hi -> In n (integers lo hi).
Proof.
  intros H. unfold integers. apply in_map_iff.
  exists (Z.to_nat (n - lo)). split; [lia|].
  apply in_seq. lia.
Qed.

Lemma reads_unclamped_fraction_spec (n : Z) (r : result value) :
  reads_unclamped_fraction n r = true ->
  exists q : Q, r = Ok (VFloat q) /\ is_unclamped_fraction n q.
Proof.
  unfold reads_unclamped_fraction, is_unclamped_fraction.
  destruct r as [[ | | |q| | | ]|]; try discriminate.
  intros H. apply andb_true_iff in H. destruct H as [H1 H2].
  exists q. split; [reflexivity|]. split; [apply Qle_bool_iff; exact H1|].
  apply Bool.eqb_prop in H2. split.
  - intros R.
    assert (B : (0 <=? n) && (n <=? 100) = true)
      by (apply andb_true_iff; split; apply Z.leb_le; lia).
    rewrite B in H2. symmetry in H2. apply andb_true_iff in H2.
    destruct H2 as [A C]. split; apply Qle_bool_iff; assumption.
  - intros [A C]. apply Qle_bool_iff in A. apply Qle_bool_iff in C.
    rewrite A, C in H2. apply andb_true_iff in H2.
    destruct H2 as [L U]. apply Z.leb_le in L. apply Z.leb_le in U. lia.
Qed.

(** The float quotients of the integers from -1000 to 1000 by 100, one by
    one. *)
Lemma int_truediv_unclamped :
  forallb (fun n => reads_unclamped_fraction n (int_truediv n (100 # 1)))
    (integers (-1000) 1000) = true.
Proof. vm_compute. reflexivity. Qed.

Lemma volume_level_of_int (self : MediaPlayer.entity) (d vd : dict) (n : Z) :
  MediaPlayer.data self = VDict d ->
  lookup "volume" d = Some (VDict vd) ->
  lookup "volume" vd = Some (VInt n) ->
  MediaPlayer.volume_level self = int_truediv n (100 # 1).
Proof.
  intros Hd Hv Hn. unfold MediaPlayer.volume_level. rewrite Hd.
  rewrite (absent_of_present_mapping d "volume" (VDict vd) Hv
             (lookup_some_truthy _ _ _ Hn)).
  cbn [rbind getitem]. rewrite Hv. cbn [rbind Py.get]. rewrite Hn.
  reflexivity.
Qed.

(** C3, as amended.  For every integer [v], [set_volume] sends the POST
    body [{"volume": clamp(v, 0, 100)}].  For every entity, the volume
    level is unknown ([None]) when the volume field is absent; when the
    field is a mapping whose [volume] is the integer [n], the level is the
    float quotient [n / 100.0] as it is, with no clamping, and reading it
    raises [OverflowError] when [n] is too large for a float; for [n]
    from -1000 to 1000 the level is within [2^-50] of [n / 100] and lies
    in the unit interval exactly when [0 <= n <= 100]. *)
Theorem volume_clamped_when_sent_as_is_when_read :
  (forall (dev : device) (t : trace) (v : Z),
      snd (DevialetAPI.set_volume dev (VInt v) t)
      = (t ++ [Http (set_volume_request v)])%list)
  /\
  (forall self : MediaPlayer.entity,
      field_absent (MediaPlayer.data self) "volume" ->
      MediaPlayer.volume_level self = Ok VNone)
  /\
  (forall (self : MediaPlayer.entity) (d vd : dict) (n : Z),
      MediaPlayer.data self = VDict d ->
      lookup "volume" d = Some (VDict vd) ->
      lookup "volume" vd = Some (VInt n) ->
      MediaPlayer.volume_level self = int_truediv n (100 # 1)
      /\ (forall s : bool,
             float_of_int n = S754_infinity s ->
             MediaPlayer.volume_level self = Raise OverflowError)
      /\ (-1000 <= n <= 1000 ->
          exists q : Q,
            MediaPlayer.volume_level self = Ok (VFloat q)
            /\ is_unclamped_fraction n q)).
Proof.
  split; [exact set_volume_sends_clamped | split].
  - intros self H. unfold MediaPlayer.volume_level.
    rewrite (absent_of_field_absent _ _ H). reflexivity.
  - intros self d vd n Hd Hv Hn.
    rewrite (volume_level_of_int self d vd n Hd Hv Hn).
    refine (conj eq_refl (conj _ _)).
    + intros s E. unfold int_truediv. rewrite E. reflexivity.
    + intros R. apply reads_unclamped_fraction_spec.
      pose proof int_truediv_unclamped as F.
      rewrite forallb_forall in F. apply F. apply integers_in. exact R.
Qed.

(** 150 is sent as 100 and -5 as 0; an absent field reads as unknown; the
    field 57 reads as the float 0.57; the field 10^400 cannot be read. *)
Lemma volume_clamped_when_sent_as_is_when_read_witness :
  snd (DevialetAPI.set_volume (always_replies (VDict [])) (VInt 150) [])
  = [Http (mkRequest POST API_VOLUME (Some (VDict [("volume", VInt 100)])))]
  /\ snd (DevialetAPI.set_volume (always_replies (VDict [])) (VInt (-5)) [])
  = [Http (mkRequest POST API_VOLUME (Some (VDict [("volume", VInt 0)])))]
  /\ MediaPlayer.volume_level (observing [("volume", VNone)]) = Ok VNone
  /\ MediaPlayer.volume_level
       (observing [("volume", VDict [("volume", VInt 57)])])
     = Ok (VFloat (5134103575202365 # 9007199254740992))
  /\ MediaPlayer.volume_level
       (observing [("volume", VDict [("volume", VInt (10 ^ 400))])])
     = Raise OverflowError.
Proof.
  destruct volume_clamped_when_sent_as_is_when_read as [S [A P]].
  refine (conj _ (conj _ (conj _ (conj _ _)))).
  - exact (S (always_replies (VDict [])) [] 150).
  - exact (S (always_replies (VDict [])) [] (-5)).
  - apply A. right. exists [("volume", VNone)]. split; [reflexivity|].
    right. reflexivity.
  - exact (proj1 (P (observing [("volume", VDict [("volume", VInt 57)])])
                    [("volume", VDict [("volume", VInt 57)])]
                    [("volume", VInt 57)] 57 eq_refl eq_refl eq_refl)).
  - exact (proj1 (proj2 (P (observing
                              [("volume", VDict [("volume", VInt (10 ^ 400))])])
                           [("volume", VDict [("volume", VInt (10 ^ 400))])]
                           [("volume", VInt (10 ^ 400))] (10 ^ 400)
                           eq_refl eq_refl eq_refl))
             false eq_refl).
Defined.

(** C3, as stated, fails on the reading side: with the volume field at
    150 the level exposed is the float 1.5, which is not the clamped
    fraction 1. *)
Lemma volume_level_is_not_clamped :
  MediaPlayer.volume_level
    (observing [("volume", VDict [("volume", VInt 150)])])
  = Ok (VFloat (3 # 2))
  /\ Qeq_bool (clamped_fraction 150) (1 # 1) = true
  /\ Qeq_bool (3 # 2) (clamped_fraction 150) = false.
Proof. repeat split. Qed.

(* ===================================================================== *)
(** ** Mute *)
(* ===================================================================== *)

Lemma eq_str_true (v : value) (s : string) :
  eq_str v s = true <-> v = VStr s.
Proof.
  destruct v; simpl; try (split; [discriminate | intros [=]]).
  rewrite String.eqb_eq. split; [intros -> | intros [= ->]]; reflexivity.
Qed.

Lemma absent_of_empty_mapping (d : dict) (k : string) :
  lookup k d = Some (VDict []) -> MediaPlayer.absent (VDict d) k = Ok true.
Proof.
  intros H. unfold MediaPlayer.absent.
  rewrite (lookup_some_truthy _ _ _ H). simpl. rewrite H. reflexivity.
Qed.

(** C10, as amended.  For every entity: the mute state is unknown
    ([None]) when the playback field is absent, and also when it is the
    empty mapping; when it is a mapping with at least one key, the result
    is a boolean, true exactly when [muteState] is ["muted"], so false
    when the key is missing. *)
Theorem mute_projection (self : MediaPlayer.entity) :
  (field_absent (MediaPlayer.data self) "playback" ->
   MediaPlayer.is_volume_muted self = Ok VNone)
  /\
  (forall d : dict,
      MediaPlayer.data self = VDict d ->
      lookup "playback" d = Some (VDict []) ->
      MediaPlayer.is_volume_muted self = Ok VNone)
  /\
  (forall (d playback : dict),
      MediaPlayer.data self = VDict d ->
      lookup "playback" d = Some (VDict playback) ->
      playback <> [] ->
      exists muted : bool,
        MediaPlayer.is_volume_muted self = Ok (VBool muted)
        /\ (muted = true <-> lookup "muteState" playback = Some (VStr "muted"))
        /\ (lookup "muteState" playback = None -> muted = false)).
Proof.
  refine (conj _ (conj _ _)).
  - intros H. unfold MediaPlayer.is_volume_muted.
    rewrite (absent_of_field_absent _ _ H). reflexivity.
  - intros d Hd Hp. unfold MediaPlayer.is_volume_muted.
    rewrite Hd, (absent_of_empty_mapping _ _ Hp). reflexivity.
  - intros d playback Hd Hp Hne.
    assert (T : truthy (VDict playback) = true)
      by (destruct playback; [contradiction | reflexivity]).
    unfold MediaPlayer.is_volume_muted.
    rewrite Hd, (absent_of_present_mapping d "playback" _ Hp T).
    simpl. rewrite Hp. simpl.
    destruct (lookup "muteState" playback) as [m|] eqn:E.
    + exists (eq_str m "muted"). split; [reflexivity | split].
      * rewrite eq_str_true. split; [intros -> | intros [= ->]]; reflexivity.
      * discriminate.
    + exists false. split; [reflexivity | split].
      * split; discriminate.
      * reflexivity.
Qed.

Lemma mute_projection_witness :
  MediaPlayer.is_volume_muted (observing [("playback", VNone)]) = Ok VNone
  /\ (exists muted : bool,
         MediaPlayer.is_volume_muted
           (observing [("playback", VDict [("muteState", VStr "muted")])])
         = Ok (VBool muted)
         /\ muted = true)
  /\ (exists muted : bool,
         MediaPlayer.is_volume_muted
           (observing [("playback", VDict [("playingState", VStr "playing")])])
         = Ok (VBool muted)
         /\ muted = false).
Proof.
  refine (conj _ (conj _ _)).
  - apply (proj1 (mute_projection (observing [("playback", VNone)]))).
    right. exists [("playback", VNone)]. split; [reflexivity|].
    right. reflexivity.
  - destruct (proj2 (proj2 (mute_projection
        (observing [("playback", VDict [("muteState", VStr "muted")])])))
        [("playback", VDict [("muteState", VStr "muted")])]
        [("muteState", VStr "muted")] eq_refl eq_refl
        ltac:(discriminate)) as [m [E [I _]]].
    exists m. split; [exact E | apply I; reflexivity].
  - destruct (proj2 (proj2 (mute_projection
        (observing [("playback", VDict [("playingState", VStr "playing")])])))
        [("playback", VDict [("playingState", VStr "playing")])]
        [("playingState", VStr "playing")] eq_refl eq_refl
        ltac:(discriminate)) as [m [E [_ N]]].
    exists m. split; [exact E | apply N; reflexivity].
Defined.

(** C10, as stated, fails: a playback field that is present as the empty
    mapping lacks the [muteState] key, so the claim says not muted; the
    guard [not data.get("playback")] takes the empty mapping for absent
    and the result is unknown. *)
Lemma mute_unknown_on_empty_playback :
  mute_as_specified (VDict [("playback", VDict [])]) = VBool false
  /\ MediaPlayer.is_volume_muted (observing [("playback", VDict [])])
     = Ok VNone.
Proof. split; reflexivity. Qed.

(* ===================================================================== *)
(** ** Commands *)
(* ===================================================================== *)

Lemma requests_app (t u : trace) :
  requests (t ++ u)%list = (requests t ++ requests u)%list.
Proof.
  induction t as [|[rq|] t IH]; simpl; [reflexivity | |]; rewrite IH; reflexivity.
Qed.

Lemma refreshes_app (t u : trace) :
  refreshes (t ++ u)%list = (refreshes t + refreshes u)%nat.
Proof.
  induction t as [|[rq|] t IH]; simpl; [reflexivity | |]; rewrite IH; reflexivity.
Qed.

Section JobFacts.

Variable dev : device.

Lemma job_set_night_mode (b : bool) :
  DevialetAPI.async_add_executor_job dev "set_night_mode" [VBool b]
  = DevialetAPI.send dev (night_mode_request b).
Proof. destruct b; reflexivity. Qed.

Lemma job_mute (mute : bool) :
  (if mute then DevialetAPI.async_add_executor_job dev "mute" []
   else DevialetAPI.async_add_executor_job dev "unmute" [])
  = DevialetAPI.send dev
      (mkRequest POST (if mute then API_MUTE else API_UNMUTE) (Some (VDict []))).
Proof. destruct mute; reflexivity. Qed.

Lemma job_set_eq_preset_flat :
  DevialetAPI.async_add_executor_job dev "set_eq_preset" [VStr "flat"]
  = DevialetAPI.send dev (eq_preset_request "flat").
Proof. reflexivity. Qed.

(** A name that the client class does not define cannot be called: the
    attribute lookup raises before anything is sent. *)
Lemma job_unknown_attribute (name : string) (args : list value) (t : trace) :
  DevialetAPI.find_method name (DevialetAPI.methods dev) = None ->
  prefix "__" name = false ->
  DevialetAPI.async_add_executor_job dev name args t = (Raise AttributeError, t).
Proof.
  intros H U. unfold DevialetAPI.async_add_executor_job, DevialetAPI.getattr,
    bind, lift.
  rewrite H, U. reflexivity.
Qed.

(** A job followed by the refresh request: the refresh is requested when
    the job returns and skipped when it raises. *)
Lemma then_refresh {A} (m : M trace A) (t : trace) :
  (m ;;; MediaPlayer.async_request_refresh) t
  = match m t with
    | (Ok _, t') => (Ok tt, (t' ++ [Refresh])%list)
    | (Raise e, t') => (Raise e, t')
    end.
Proof.
  unfold bind, MediaPlayer.async_request_refresh.
  destruct (m t) as [[a|e] t']; reflexivity.
Qed.

End JobFacts.

(** C9: the code at the failing input.  With at least one configured
    entry, the power-off handler and the reboot handler raise
    [AttributeError] at the attribute lookup on the client and issue no
    request; so does the entity's [async_turn_on].  The client class has
    no method of either name. *)
Theorem power_off_and_reboot_are_not_client_methods
    (dev : device) (rest : list device) (self : MediaPlayer.entity)
    (t : trace) :
  DevialetAPI.find_method "power_off_system" (DevialetAPI.methods dev) = None
  /\ DevialetAPI.find_method "reboot_system" (DevialetAPI.methods dev) = None
  /\ Services.handle_power_off_system (dev :: rest) t = (Raise AttributeError, t)
  /\ Services.handle_reboot_system (dev :: rest) t = (Raise AttributeError, t)
  /\ MediaPlayer.async_turn_on dev self t = (Raise AttributeError, t).
Proof.
  refine (conj eq_refl (conj eq_refl (conj _ (conj _ _)))).
  - unfold Services.handle_power_off_system; simpl. unfold bind at 1.
    rewrite job_unknown_attribute by reflexivity. reflexivity.
  - unfold Services.handle_reboot_system; simpl. unfold bind at 1.
    rewrite job_unknown_attribute by reflexivity. reflexivity.
  - unfold MediaPlayer.async_turn_on. rewrite then_refresh.
    rewrite job_unknown_attribute by reflexivity. reflexivity.
Qed.

(** What a single command followed by the refresh request leaves in the
    trace. *)
Lemma command_then_refresh (dev : device) (rq : request) (t : trace) :
  snd ((DevialetAPI.send dev rq ;;; MediaPlayer.async_request_refresh) t)
  = match fst (DevialetAPI.send dev rq t) with
    | Ok _ => (t ++ [Http rq; Refresh])%list
    | Raise _ => (t ++ [Http rq])%list
    end.
Proof.
  rewrite then_refresh.
  pose proof (send_trace dev rq t) as H.
  destruct (DevialetAPI.send dev rq t) as [[a|e] t'];
    simpl in *; subst t'; [rewrite <- app_assoc|]; reflexivity.
Qed.

(** C8: the code at the failing input.  On an entity that holds a
    snapshot and has night mode available, selecting "Night Mode" sends
    the night-mode-on command and finishes without a refresh request,
    whatever the device answers.  The sibling paths do request it
    whenever their command returns: muting or unmuting, and the switch,
    which sends the very same night-mode-on command. *)
Theorem night_mode_selection_requests_no_refresh
    (dev : device) (t : trace) (k : string) (v : value)
    (snapshot mapping : dict) :
  snd (MediaPlayer.async_select_sound_mode dev
         (MediaPlayer.mkEntity (VDict ((k, v) :: snapshot)) mapping true)
         "Night Mode" t)
  = (t ++ [Http (night_mode_request true)])%list
  /\
  refreshes
    (snd (MediaPlayer.async_select_sound_mode dev
            (MediaPlayer.mkEntity (VDict ((k, v) :: snapshot)) mapping true)
            "Night Mode" t))
  = refreshes t
  /\
  snd (Switch.async_turn_on dev t)
  = match fst (DevialetAPI.send dev (night_mode_request true) t) with
    | Ok _ => (t ++ [Http (night_mode_request true); Refresh])%list
    | Raise _ => (t ++ [Http (night_mode_request true)])%list
    end
  /\
  (forall (self : MediaPlayer.entity) (mute : bool),
      snd (MediaPlayer.async_mute_volume dev self mute t)
      = match fst (DevialetAPI.send dev
                     (mkRequest POST (if mute then API_MUTE else API_UNMUTE)
                        (Some (VDict []))) t) with
        | Ok _ =>
            (t ++ [Http (mkRequest POST (if mute then API_MUTE else API_UNMUTE)
                           (Some (VDict [])));
                   Refresh])%list
        | Raise _ =>
            (t ++ [Http (mkRequest POST (if mute then API_MUTE else API_UNMUTE)
                           (Some (VDict [])))])%list
        end).
Proof.
  assert (N : snd (MediaPlayer.async_select_sound_mode dev
                     (MediaPlayer.mkEntity (VDict ((k, v) :: snapshot))
                        mapping true)
                     "Night Mode" t)
              = (t ++ [Http (night_mode_request true)])%list).
  { unfold MediaPlayer.async_select_sound_mode; simpl.
    rewrite job_set_night_mode. unfold bind, ret.
    pose proof (send_trace dev (night_mode_request true) t) as H.
    destruct (DevialetAPI.send dev (night_mode_request true) t) as [[a|e] t'];
      simpl in *; exact H. }
  refine (conj N (conj _ (conj _ _))).
  - rewrite N, refreshes_app. simpl. apply Nat.add_0_r.
  - unfold Switch.async_turn_on. rewrite job_set_night_mode.
    apply command_then_refresh.
  - intros self mute. unfold MediaPlayer.async_mute_volume.
    rewrite job_mute. apply command_then_refresh.
Qed.

(* ===================================================================== *)
(** ** Selecting a sound mode *)
(* ===================================================================== *)

Lemma existsb_eqb_false (s : string) (l : list string) :
  ~ In s l -> existsb (String.eqb s) l = false.
Proof.
  induction l as [|x l IH]; simpl; [reflexivity|].
  intros H. destruct (String.eqb_spec s x) as [->|_]; simpl.
  - exfalso. apply H. left. reflexivity.
  - apply IH. intros I. apply H. right. exact I.
Qed.

(** C4, as amended.  On an entity that holds a snapshot:
    selecting "Night Mode" when night mode is available sends exactly one
    request, night mode on; selecting "Flat" when night mode is available
    sends night mode off and then, when that call returned, the flat
    preset, and nothing more when that call raised; selecting "Flat" when
    night mode is unavailable sends the flat preset only.  With or
    without a snapshot, selecting a label that is neither "Night Mode" nor
    one of the three preset labels sends nothing. *)
Theorem sound_mode_selection_commands
    (dev : device) (self : MediaPlayer.entity) (t : trace) :
  (truthy (MediaPlayer.data self) = true ->
   (MediaPlayer._night_mode_available self = true ->
    requests (snd (MediaPlayer.async_select_sound_mode dev self "Night Mode" t))
    = (requests t ++ [night_mode_request true])%list)
   /\
   (MediaPlayer._night_mode_available self = true ->
    requests (snd (MediaPlayer.async_select_sound_mode dev self "Flat" t))
    = (requests t
         ++ night_mode_request false
            :: match fst (DevialetAPI.send dev (night_mode_request false) t) with
               | Ok _ => [eq_preset_request "flat"]
               | Raise _ => []
               end)%list)
   /\
   (MediaPlayer._night_mode_available self = false ->
    requests (snd (MediaPlayer.async_select_sound_mode dev self "Flat" t))
    = (requests t ++ [eq_preset_request "flat"])%list))
  /\
  (forall label : string,
      label <> "Night Mode" ->
      ~ In label (map MediaPlayer._format_sound_mode MediaPlayer.SOUND_MODES) ->
      requests (snd (MediaPlayer.async_select_sound_mode dev self label t))
      = requests t).
Proof.
  split.
  - intros T. refine (conj _ (conj _ _)).
    + intros A. unfold MediaPlayer.async_select_sound_mode.
      rewrite T, A. simpl. rewrite job_set_night_mode. unfold bind, ret.
      pose proof (send_trace dev (night_mode_request true) t) as H.
      destruct (DevialetAPI.send dev (night_mode_request true) t) as [[a|e] t'];
        simpl in *; subst t'; rewrite requests_app; reflexivity.
    + intros A. unfold MediaPlayer.async_select_sound_mode.
      rewrite T, A. simpl. rewrite then_refresh.
      rewrite job_set_night_mode, job_set_eq_preset_flat. unfold bind, ret.
      pose proof (send_trace dev (night_mode_request false) t) as H.
      destruct (DevialetAPI.send dev (night_mode_request false) t)
        as [[a'|e] t']; simpl in *; subst t';
        [| rewrite requests_app; reflexivity].
      pose proof (send_trace dev (eq_preset_request "flat")
                    (t ++ [Http (night_mode_request false)])%list) as H'.
      destruct (DevialetAPI.send dev (eq_preset_request "flat")
                  (t ++ [Http (night_mode_request false)])%list)
        as [[a''|e] t']; simpl in *; subst t';
        rewrite ?requests_app; simpl; rewrite ?app_nil_r, <- ?app_assoc;
        reflexivity.
    + intros A. unfold MediaPlayer.async_select_sound_mode.
      rewrite T, A. simpl. rewrite then_refresh.
      rewrite job_set_eq_preset_flat. unfold bind, ret.
      pose proof (send_trace dev (eq_preset_request "flat") t) as H.
      destruct (DevialetAPI.send dev (eq_preset_request "flat") t)
        as [[a|e] t']; simpl in *; subst t';
        rewrite ?requests_app; simpl; rewrite ?app_nil_r; reflexivity.
  - intros label N I. unfold MediaPlayer.async_select_sound_mode.
    destruct (truthy (MediaPlayer.data self)); cbn [negb]; [|reflexivity].
    destruct (String.eqb_spec label "Night Mode") as [E|_]; [contradiction|].
    rewrite andb_false_r, (existsb_eqb_false _ _ I). cbv beta iota.
    rewrite then_refresh. unfold ret. cbv beta iota. unfold snd.
    rewrite requests_app. simpl. apply app_nil_r.
Qed.

Lemma sound_mode_selection_commands_witness :
  requests (snd (MediaPlayer.async_select_sound_mode (always_replies (VDict []))
                   (MediaPlayer.mkEntity (VDict [("equalizer", VNone)]) [] true)
                   "Night Mode" []))
  = [night_mode_request true]
  /\ requests (snd (MediaPlayer.async_select_sound_mode (always_replies (VDict []))
                      (MediaPlayer.mkEntity (VDict [("equalizer", VNone)]) [] true)
                      "Flat" []))
     = [night_mode_request false; eq_preset_request "flat"]
  /\ requests (snd (MediaPlayer.async_select_sound_mode (always_replies (VDict []))
                      (MediaPlayer.mkEntity (VDict [("equalizer", VNone)]) [] false)
                      "Flat" []))
     = [eq_preset_request "flat"]
  /\ requests (snd (MediaPlayer.async_select_sound_mode (always_replies (VDict []))
                      (MediaPlayer.mkEntity (VDict [("equalizer", VNone)]) [] true)
                      "Loud" []))
     = [].
Proof.
  pose proof (sound_mode_selection_commands (always_replies (VDict []))
                (MediaPlayer.mkEntity (VDict [("equalizer", VNone)]) [] true) [])
    as [Ha Hu].
  pose proof (sound_mode_selection_commands (always_replies (VDict []))
                (MediaPlayer.mkEntity (VDict [("equalizer", VNone)]) [] false) [])
    as [Hb _].
  destruct (Ha eq_refl) as [H1 [H2 _]].
  destruct (Hb eq_refl) as [_ [_ H3]].
  refine (conj _ (conj _ (conj _ _))).
  - exact (H1 eq_refl).
  - exact (H2 eq_refl).
  - exact (H3 eq_refl).
  - apply Hu.
    + discriminate.
    + simpl. intros [H|[H|[H|[]]]]; discriminate.
Defined.

(** C4, as stated, fails where the night-mode-off call raises: a device
    that answers with the body [5] is sent that one command and never
    the preset. *)
Lemma sound_mode_flat_stops_when_night_mode_off_raises :
  MediaPlayer.async_select_sound_mode (always_replies (VInt 5))
    (MediaPlayer.mkEntity (VDict [("equalizer", VNone)]) [] true) "Flat" []
  = (Raise TypeError, [Http (night_mode_request false)]).
Proof. reflexivity. Qed.

(* ===================================================================== *)
(** ** The fetch cycle *)
(* ===================================================================== *)

Section FetchFacts.

Variable dev : device.

Lemma job_get_device_info :
  DevialetAPI.async_add_executor_job dev "get_device_info" []
  = DevialetAPI.send dev (mkRequest GET API_DEVICES_CURRENT None).
Proof. reflexivity. Qed.








End FetchFacts.





(* ===================================================================== *)
(** ** Capability flags *)
(* ===================================================================== *)

Lemma truthy_dict_cons (p : string * value) (d : dict) :
  truthy (VDict (p :: d)) = true.
Proof. reflexivity. Qed.

Lemma present_mapping (d : dict) (k : string) :
  MediaPlayer.present (VDict d) k
  = Ok (match lookup k d with Some v => truthy v | None => false end).
Proof.
  unfold MediaPlayer.present. destruct d as [|p d]; [reflexivity|].
  rewrite truthy_dict_cons. unfold Py.get, rbind.
  destruct (lookup k (p :: d)); reflexivity.
Qed.

Section FeatureFacts.

Variable F : MediaPlayer.MediaPlayerEntityFeature.

(** The first block only ever raises the flag. *)
Lemma check_night_mode_available_latches (self : MediaPlayer.entity)
    (d : dict) (nm : bool) :
  MediaPlayer.data self = VDict d ->
  night_mode_listed d = Some nm ->
  MediaPlayer.check_night_mode_available self
  = (Ok tt,
     MediaPlayer.mkEntity (MediaPlayer.data self)
       (MediaPlayer._source_mapping self)
       (MediaPlayer._night_mode_available self || nm)).
Proof.
  destruct self as [dt sm fl]; simpl. intros -> H.
  unfold MediaPlayer.check_night_mode_available, bind, lift; simpl.
  rewrite present_mapping. unfold night_mode_listed in H.
  destruct (lookup "system_info" d) as [si|] eqn:L.
  2:{ injection H as <-. rewrite orb_false_r. reflexivity. }
  destruct si as [ | | | | | |si]; try discriminate.
  { injection H as <-. simpl. rewrite orb_false_r. reflexivity. }
  destruct si as [|p si].
  { simpl in H. injection H as <-. simpl. rewrite orb_false_r. reflexivity. }
  rewrite truthy_dict_cons.
  unfold contains at 1, getitem at 1.
  destruct (lookup "availableFeatures" (p :: si)) as [av|].
  2:{ injection H as <-. unfold ret. rewrite orb_false_r. reflexivity. }
  destruct av; try discriminate. injection H as <-.
  unfold contains.
  destruct (existsb (fun x : value => eq_str x "nightMode") l).
  - unfold MediaPlayer.set_night_mode_available; simpl.
    rewrite orb_true_r. reflexivity.
  - unfold ret. rewrite orb_false_r. reflexivity.
Qed.

(** The second block leaves the entity as it is, whether it returns or
    raises. *)
Lemma add_reboot_support_state (features : Z) (self : MediaPlayer.entity) :
  snd (MediaPlayer.add_reboot_support F features self) = self.
Proof.
  unfold MediaPlayer.add_reboot_support, bind, lift, ret.
  repeat match goal with
         | |- context [match ?x with _ => _ end] =>
             destruct x; simpl; try reflexivity
         end.
Qed.

(** With a device-info mapping whose firmware version is a string, the
    second block returns, and adds the reboot flag exactly when the
    version is lexicographically at least ["2.16.0"]. *)
Lemma add_reboot_support_value (features : Z) (self : MediaPlayer.entity)
    (d device_info : dict) (v : string) :
  MediaPlayer.data self = VDict d ->
  lookup "device_info" d = Some (VDict device_info) ->
  firmware_version device_info = Some v ->
  fst (MediaPlayer.add_reboot_support F features self)
  = Ok (if lex_ge v "2.16.0"
        then Z.lor features (MediaPlayer.SUPPORT_REBOOT F)
        else features).
Proof.
  destruct self as [dt sm fl]; simpl. intros -> L V.
  unfold MediaPlayer.add_reboot_support, bind, lift; simpl.
  rewrite present_mapping, L.
  destruct device_info as [|p di].
  { simpl in V. injection V as <-. reflexivity. }
  rewrite truthy_dict_cons.
  unfold Py.get at 1. unfold firmware_version in V.
  destruct (lookup "release" (p :: di)) as [rel|].
  2:{ injection V as <-. reflexivity. }
  destruct rel as [ | | | | | |rel]; try discriminate.
  unfold Py.get.
  destruct (lookup "canonicalVersion" rel) as [cv|].
  2:{ injection V as <-. reflexivity. }
  destruct cv; try discriminate. injection V as <-.
  unfold ge_str, lex_ge, ret.
  destruct (String.leb "2.16.0" s); reflexivity.
Qed.

End FeatureFacts.

Lemma supported_features_state (F : MediaPlayer.MediaPlayerEntityFeature)
    (self : MediaPlayer.entity) (d : dict) (nm : bool) :
  MediaPlayer.data self = VDict d ->
  night_mode_listed d = Some nm ->
  snd (MediaPlayer.supported_features F self)
  = MediaPlayer.mkEntity (VDict d) (MediaPlayer._source_mapping self)
      (MediaPlayer._night_mode_available self || nm).
Proof.
  intros D N. unfold MediaPlayer.supported_features, bind.
  rewrite (check_night_mode_available_latches self d nm D N), D.
  apply add_reboot_support_state.
Qed.

Lemma sound_mode_list_of_flag (self : MediaPlayer.entity) :
  truthy (MediaPlayer.data self) = true ->
  MediaPlayer.sound_mode_list self
  = VList (map VStr (sound_modes (MediaPlayer._night_mode_available self))).
Proof.
  intros T. unfold MediaPlayer.sound_mode_list. rewrite T.
  destruct (MediaPlayer._night_mode_available self); reflexivity.
Qed.

(** C7, as amended.  When [supported_features] is read on a snapshot, the
    night-mode availability flag holds afterwards exactly when it held
    before or the snapshot lists night mode among the available features:
    it is raised by a snapshot that has the feature and never lowered by
    one that lacks it.  The sound-mode list is the three preset labels
    with "Night Mode" appended exactly when the flag holds. *)
Theorem night_mode_flag_latches (F : MediaPlayer.MediaPlayerEntityFeature)
    (self : MediaPlayer.entity) (d : dict) (nm : bool) :
  MediaPlayer.data self = VDict d ->
  night_mode_listed d = Some nm ->
  MediaPlayer._night_mode_available (snd (MediaPlayer.supported_features F self))
  = MediaPlayer._night_mode_available self || nm
  /\
  (d <> [] ->
   MediaPlayer.sound_mode_list self
   = VList (map VStr (sound_modes (MediaPlayer._night_mode_available self)))
   /\
   MediaPlayer.sound_mode_list (snd (MediaPlayer.supported_features F self))
   = VList (map VStr
              (sound_modes (MediaPlayer._night_mode_available self || nm)))).
Proof.
  intros D N. rewrite (supported_features_state F self d nm D N).
  split; [reflexivity|].
  intros NE.
  assert (T : truthy (VDict d) = true)
    by (destruct d; [contradiction | reflexivity]).
  split.
  - apply sound_mode_list_of_flag. rewrite D. exact T.
  - apply sound_mode_list_of_flag. exact T.
Qed.

(** A snapshot with the feature raises the flag and "Night Mode" joins
    the list. *)
Lemma night_mode_flag_latches_witness :
  MediaPlayer._night_mode_available
    (snd (MediaPlayer.supported_features host_features
            (observing snapshot_with_night_mode)))
  = true
  /\ MediaPlayer.sound_mode_list
       (snd (MediaPlayer.supported_features host_features
               (observing snapshot_with_night_mode)))
     = VList [VStr "Flat"; VStr "Voice"; VStr "Custom"; VStr "Night Mode"]
  /\ MediaPlayer.sound_mode_list (observing snapshot_without_night_mode)
     = VList [VStr "Flat"; VStr "Voice"; VStr "Custom"].
Proof.
  pose proof (night_mode_flag_latches host_features
                (observing snapshot_with_night_mode)
                snapshot_with_night_mode true eq_refl eq_refl) as [H1 H2].
  pose proof (night_mode_flag_latches host_features
                (observing snapshot_without_night_mode)
                snapshot_without_night_mode false eq_refl eq_refl) as [_ H3].
  refine (conj H1 (conj _ _)).
  - exact (proj2 (H2 ltac:(discriminate))).
  - exact (proj1 (H3 ltac:(discriminate))).
Defined.

(** C7, as stated, fails: the flag is read on a snapshot that lists night
    mode, then on a later snapshot that does not; the later snapshot
    lacks the feature, yet the flag still holds and "Night Mode" is still
    in the list. *)
Lemma night_mode_flag_is_not_lowered :
  night_mode_listed snapshot_without_night_mode = Some false
  /\ MediaPlayer._night_mode_available
       (snd (MediaPlayer.supported_features host_features
               (MediaPlayer.set_data (VDict snapshot_without_night_mode)
                  (snd (MediaPlayer.supported_features host_features
                          (observing snapshot_with_night_mode))))))
     = true
  /\ MediaPlayer.sound_mode_list
       (snd (MediaPlayer.supported_features host_features
               (MediaPlayer.set_data (VDict snapshot_without_night_mode)
                  (snd (MediaPlayer.supported_features host_features
                          (observing snapshot_with_night_mode))))))
     = VList [VStr "Flat"; VStr "Voice"; VStr "Custom"; VStr "Night Mode"].
Proof. refine (conj eq_refl (conj eq_refl eq_refl)). Qed.

(* ===================================================================== *)
(** ** Reboot support *)
(* ===================================================================== *)

(** The order on strings compares the first characters and, when they are
    equal, the rest: it is the lexicographic order. *)
Lemma lex_ge_cons (a b : ascii) (s u : string) :
  lex_ge (String a s) (String b u)
  = match Ascii.compare b a with
    | Lt => true
    | Eq => lex_ge s u
    | Gt => false
    end.
Proof.
  unfold lex_ge, String.leb. simpl. destruct (Ascii.compare b a); reflexivity.
Qed.

Lemma lookup_dict_set_ne (k k' : string) (v : value) (d : dict) :
  k' <> k -> lookup k (dict_set k' v d) = lookup k d.
Proof.
  intros N. induction d as [|[k0 v0] d IH]; simpl.
  - destruct (String.eqb_spec k' k); [contradiction | reflexivity].
  - destruct (String.eqb_spec k0 k') as [->|N0]; simpl.
    + destruct (String.eqb_spec k' k); [contradiction | reflexivity].
    + destruct (String.eqb_spec k0 k); [reflexivity | exact IH].
Qed.

Lemma lookup_dict_set_eq (k : string) (v : value) (d : dict) :
  lookup k (dict_set k v d) = Some v.
Proof.
  induction d as [|[k0 v0] d IH]; simpl.
  - rewrite String.eqb_refl. reflexivity.
  - destruct (String.eqb_spec k0 k) as [->|N0]; simpl.
    + rewrite String.eqb_refl. reflexivity.
    + destruct (String.eqb_spec k0 k); [contradiction | exact IH].
Qed.

(** Case analysis on every step of a block that returned. *)
Ltac returned :=
  repeat match goal with
         | H : context [match ?x with _ => _ end] |- _ =>
             destruct x eqn:?; simpl in H; try discriminate H
         | H : Ok _ = Ok _ |- _ => injection H as H; subst
         | H : Raise _ = Ok _ |- _ => discriminate H
         end.

Ltac other_key :=
  rewrite ?lookup_dict_set_ne by discriminate; reflexivity.

Lemma add_firmware_version_other (d : value) (attrs attrs' : dict) :
  MediaPlayer.add_firmware_version d attrs = Ok attrs' ->
  lookup "reboot_supported" attrs' = lookup "reboot_supported" attrs.
Proof.
  unfold MediaPlayer.add_firmware_version, rbind. intros H.
  returned; other_key.
Qed.

Lemma add_eq_settings_other (d : value) (attrs attrs' : dict) :
  MediaPlayer.add_eq_settings d attrs = Ok attrs' ->
  lookup "reboot_supported" attrs' = lookup "reboot_supported" attrs.
Proof.
  unfold MediaPlayer.add_eq_settings, rbind. intros H.
  returned; other_key.
Qed.

Lemma add_stream_info_other (d : value) (attrs attrs' : dict) :
  MediaPlayer.add_stream_info d attrs = Ok attrs' ->
  lookup "reboot_supported" attrs' = lookup "reboot_supported" attrs.
Proof.
  unfold MediaPlayer.add_stream_info, rbind. intros H.
  returned; other_key.
Qed.

Lemma add_reboot_support_status_value (d device_info attrs : dict) (v : string) :
  lookup "device_info" d = Some (VDict device_info) ->
  firmware_version device_info = Some v ->
  MediaPlayer.add_reboot_support_status (VDict d) attrs
  = Ok (match device_info with
        | [] => attrs
        | _ => dict_set "reboot_supported" (VBool (lex_ge v "2.16.0")) attrs
        end).
Proof.
  intros L V. unfold MediaPlayer.add_reboot_support_status.
  rewrite present_mapping, L. destruct device_info as [|p di]; [reflexivity|].
  rewrite truthy_dict_cons. unfold rbind, getitem. rewrite L.
  unfold Py.get at 1. unfold firmware_version in V.
  destruct (lookup "release" (p :: di)) as [rel|].
  2:{ injection V as <-. reflexivity. }
  destruct rel as [ | | | | | |rel]; try discriminate.
  unfold Py.get.
  destruct (lookup "canonicalVersion" rel) as [cv|].
  2:{ injection V as <-. reflexivity. }
  destruct cv; try discriminate. injection V as <-. reflexivity.
Qed.

Lemma has_flag_added (features flag : Z) :
  has_flag (Z.lor features flag) flag = true.
Proof.
  unfold has_flag. apply Z.eqb_eq.
  rewrite Z.land_lor_distr_l, Z.land_diag.
  apply Z.bits_inj'. intros n Hn.
  rewrite Z.lor_spec, Z.land_spec.
  destruct (Z.testbit features n), (Z.testbit flag n); reflexivity.
Qed.

(** C6, as amended.  For every entity whose snapshot contains device
    info with a firmware version string [v] (["0.0.0"] when missing) and
    whose system-info field is absent or a mapping whose
    [availableFeatures], if any, is a list: reading the supported
    features returns, and the reboot flag is among them exactly when [v]
    is lexicographically at least ["2.16.0"]; and whenever the extra
    state attributes are read without an exception, [reboot_supported] is
    reported true exactly under the same condition.  The comparison is
    the one of strings, character by character.  (The reboot flag is a
    flag of its own in the host's enumeration, not one of the base
    features.) *)
Theorem reboot_support_is_string_comparison
    (F : MediaPlayer.MediaPlayerEntityFeature) (self : MediaPlayer.entity)
    (d device_info : dict) (v : string) (nm : bool) :
  MediaPlayer.data self = VDict d ->
  lookup "device_info" d = Some (VDict device_info) ->
  firmware_version device_info = Some v ->
  night_mode_listed d = Some nm ->
  has_flag (MediaPlayer.SUPPORT_DEVIALET F) (MediaPlayer.SUPPORT_REBOOT F)
  = false ->
  (exists features : Z,
      fst (MediaPlayer.supported_features F self) = Ok features
      /\ (has_flag features (MediaPlayer.SUPPORT_REBOOT F) = true
          <-> lex_ge v "2.16.0" = true))
  /\
  (forall attrs : dict,
      MediaPlayer.extra_state_attributes self = Ok (VDict attrs) ->
      (lookup "reboot_supported" attrs = Some (VBool true)
       <-> lex_ge v "2.16.0" = true)).
Proof.
  intros D L V N B. split.
  - exists (if lex_ge v "2.16.0"
            then Z.lor (MediaPlayer.SUPPORT_DEVIALET F)
                   (MediaPlayer.SUPPORT_REBOOT F)
            else MediaPlayer.SUPPORT_DEVIALET F).
    split.
    + unfold MediaPlayer.supported_features, bind.
      rewrite (check_night_mode_available_latches self d nm D N).
      apply add_reboot_support_value with (d := d) (device_info := device_info);
        [rewrite D; reflexivity | exact L | exact V].
    + destruct (lex_ge v "2.16.0").
      * rewrite has_flag_added. split; reflexivity.
      * rewrite B. split; discriminate.
  - intros attrs E. unfold MediaPlayer.extra_state_attributes in E.
    rewrite D in E. unfold rbind in E.
    destruct (MediaPlayer.add_firmware_version (VDict d) []) as [a1|] eqn:E1;
      [|discriminate].
    rewrite (add_reboot_support_status_value d device_info a1 v L V) in E.
    destruct (MediaPlayer.add_eq_settings (VDict d) _) as [a3|] eqn:E3;
      [|discriminate].
    destruct (MediaPlayer.add_stream_info (VDict d) a3) as [a4|] eqn:E4;
      [|discriminate].
    injection E as <-.
    rewrite (add_stream_info_other _ _ _ E4), (add_eq_settings_other _ _ _ E3).
    destruct device_info as [|p di].
    + rewrite (add_firmware_version_other _ _ _ E1). simpl in V.
      injection V as <-. split; discriminate.
    + rewrite lookup_dict_set_eq.
      split; [intros [= ->] | intros ->]; reflexivity.
Qed.

(** Version "2.9.0" is reported as supported, by the flag and by the
    attribute. *)
Lemma reboot_support_is_string_comparison_witness :
  (exists features : Z,
      fst (MediaPlayer.supported_features host_features
             (observing (snapshot_with_firmware "2.9.0"))) = Ok features
      /\ has_flag features (MediaPlayer.SUPPORT_REBOOT host_features) = true)
  /\ MediaPlayer.extra_state_attributes
       (observing (snapshot_with_firmware "2.9.0"))
     = Ok (VDict [("firmware_version", VStr "2.9.0");
                  ("reboot_supported", VBool true)])
  /\ lookup "reboot_supported"
       [("firmware_version", VStr "2.9.0"); ("reboot_supported", VBool true)]
     = Some (VBool true).
Proof.
  destruct (reboot_support_is_string_comparison host_features
              (observing (snapshot_with_firmware "2.9.0"))
              (snapshot_with_firmware "2.9.0")
              [("release", VDict [("canonicalVersion", VStr "2.9.0")])]
              "2.9.0" false eq_refl eq_refl eq_refl eq_refl eq_refl)
    as [[features [E I]] A].
  refine (conj _ (conj eq_refl _)).
  - exists features. split; [exact E | apply I; reflexivity].
  - apply (A _ eq_refl). reflexivity.
Defined.

(** C6, as stated, fails on a snapshot whose system information is
    ill-shaped: with [availableFeatures] null, reading the supported
    features raises in the night-mode block, before the firmware version
    is looked at, so no reboot flag is reported for version "2.17.0". *)
Lemma reboot_flag_is_not_reported_on_null_features :
  fst (MediaPlayer.supported_features host_features
         (observing
            [("device_info",
              VDict [("release", VDict [("canonicalVersion", VStr "2.17.0")])]);
             ("system_info", VDict [("availableFeatures", VNone)])]))
  = Raise TypeError
  /\ lex_ge "2.17.0" "2.16.0" = true.
Proof. split; reflexivity. Qed.

(** The order is not the order of versions: "10.0.0" is a later version
    than "2.16.0" and compares below it, "2.9.0" is an earlier one and
    compares above it. *)
Example string_order_is_not_version_order :
  lex_ge "2.16.0" "2.16.0" = true
  /\ lex_ge "2.9.0" "2.16.0" = true
  /\ lex_ge "10.0.0" "2.16.0" = false
  /\ lex_ge "0.0.0" "2.16.0" = false.
Proof. repeat split. Qed.

(* ===================================================================== *)
(** ** The source list *)
(* ===================================================================== *)

Lemma in_all_ascii (a : ascii) : In a all_ascii.
Proof.
  unfold all_ascii. apply in_map_iff. exists (nat_of_ascii a).
  split; [apply ascii_nat_embedding|].
  apply in_seq. pose proof (nat_ascii_bounded a). lia.
Qed.

(** Lowering a character and comparing it with a character that is not
    an upper-case letter is comparing the two up to case: checked on
    every pair of characters. *)
Lemma lower_ascii_same_letter_all :
  forallb (fun a =>
             forallb (fun b =>
                        is_upper b
                        || Bool.eqb (lower_ascii a =? b)%char (same_letter a b))
               all_ascii)
    all_ascii = true.
Proof. vm_compute. reflexivity. Qed.

Lemma lower_ascii_same_letter (a b : ascii) :
  is_upper b = false ->
  (lower_ascii a =? b)%char = same_letter a b.
Proof.
  intros U. pose proof lower_ascii_same_letter_all as H.
  rewrite forallb_forall in H. specialize (H a (in_all_ascii a)).
  rewrite forallb_forall in H. specialize (H b (in_all_ascii b)).
  rewrite U in H. apply Bool.eqb_prop. exact H.
Qed.

(** Lowering a string and comparing it with a word without upper-case
    letters is comparing the two case-insensitively. *)
Lemma lower_same_word (w : string) :
  forallb (fun c => negb (is_upper c)) (list_ascii_of_string w) = true ->
  forall s : string, (lower s =? w)%string = same_word s w.
Proof.
  induction w as [|b w IH]; intros U s.
  - destruct s; reflexivity.
  - cbn [list_ascii_of_string forallb] in U. apply andb_true_iff in U.
    destruct U as [Ub Uw]. apply negb_true_iff in Ub.
    destruct s as [|a s]; [reflexivity|].
    cbn [lower same_word String.eqb].
    rewrite (lower_ascii_same_letter a b Ub), (IH Uw s).
    destruct (same_letter a b); reflexivity.
Qed.

Lemma excluded_lower (t : string) :
  excluded t = existsb (String.eqb (lower t)) ["bluetooth"; "raat"].
Proof.
  unfold excluded, excluded_types. cbn [existsb].
  rewrite !lower_same_word by reflexivity. reflexivity.
Qed.

Lemma display_label_lower (t : string) :
  display_label t
  = if ("spotifyconnect" =? lower t)%string then "Spotify Connect"
    else if ("airplay2" =? lower t)%string then "AirPlay"
    else if ("upnp" =? lower t)%string then "UPnP/DLNA"
    else if ("optical" =? lower t)%string then "Optical"
    else t.
Proof.
  unfold display_label, label_table. cbn [find fst snd].
  rewrite <- !lower_same_word by reflexivity.
  rewrite !(String.eqb_sym (lower t)).
  repeat match goal with
         | |- context [(?k =? lower t)%string] =>
             destruct (k =? lower t)%string; try reflexivity
         end.
Qed.

Lemma format_source_name_is_display_label (t : string) :
  MediaPlayer._format_source_name t = display_label t.
Proof.
  rewrite display_label_lower.
  unfold MediaPlayer._format_source_name,
    MediaPlayer.source_mapping, MediaPlayer.assoc.
  repeat match goal with
         | |- context [(?k =? lower t)%string] =>
             destruct (k =? lower t)%string; try reflexivity
         end.
Qed.

Lemma keys_dict_set (k : string) (v : value) (d : dict) :
  keys (dict_set k v d) = if mem k (keys d) then keys d else (keys d ++ [k])%list.
Proof.
  unfold keys, mem.
  induction d as [|[k0 v0] d IH]; simpl; [reflexivity|].
  rewrite (String.eqb_sym k k0).
  destruct (String.eqb_spec k0 k) as [->|N]; simpl; [reflexivity|].
  rewrite IH.
  destruct (existsb (String.eqb k) (map fst d)); reflexivity.
Qed.

Lemma filter_absorb (x : string) (ks l : list string) :
  mem x ks = true ->
  filter (fun k => negb (mem k ks)) (filter (fun y => negb (y =? x)%string) l)
  = filter (fun k => negb (mem k ks)) l.
Proof.
  intros H. induction l as [|y l IH]; simpl; [reflexivity|].
  destruct (String.eqb_spec y x) as [->|N]; simpl.
  - rewrite H. simpl. exact IH.
  - rewrite IH. reflexivity.
Qed.

Lemma mem_app_one (k x : string) (ks : list string) :
  mem k (ks ++ [x]) = mem k ks || (k =? x)%string.
Proof.
  unfold mem. rewrite existsb_app. simpl. rewrite orb_false_r. reflexivity.
Qed.

Lemma filter_split (x : string) (ks l : list string) :
  filter (fun k => negb (mem k (ks ++ [x]))) l
  = filter (fun k => negb (mem k ks)) (filter (fun y => negb (y =? x)%string) l).
Proof.
  induction l as [|y l IH]; simpl; [reflexivity|].
  rewrite mem_app_one.
  destruct (String.eqb_spec y x) as [->|N]; simpl.
  - rewrite orb_true_r. simpl. exact IH.
  - rewrite orb_false_r. rewrite IH. reflexivity.
Qed.

(** Inserting keys one after the other into a dict lists each key once,
    in the order of first insertion. *)
Lemma keys_of_insertions (pairs : list (string * value)) :
  forall acc : dict,
    keys (fold_left (fun a p => dict_set (fst p) (VBool true) a) pairs acc)
    = (keys acc
         ++ filter (fun k => negb (mem k (keys acc)))
              (first_occurrences (map fst pairs)))%list.
Proof.
  induction pairs as [|[l id] pairs IH]; intros acc; simpl.
  - rewrite app_nil_r. reflexivity.
  - rewrite IH, keys_dict_set.
    destruct (mem l (keys acc)) eqn:E; simpl.
    + rewrite (filter_absorb l (keys acc) _ E). reflexivity.
    + rewrite filter_split, <- app_assoc. reflexivity.
Qed.

(** Writing identifiers one after the other under their labels: the last
    write under a label wins, a label never written keeps its binding. *)
Lemma lookup_of_writes (label : string) (pairs : list (string * value)) :
  forall m : dict,
    lookup label (fold_left (fun a p => dict_set (fst p) (snd p) a) pairs m)
    = match last_written label pairs with
      | Some id => Some id
      | None => lookup label m
      end.
Proof.
  induction pairs as [|[l id] pairs IH]; intros m; simpl; [reflexivity|].
  rewrite IH. destruct (last_written label pairs); [reflexivity|].
  destruct (String.eqb_spec l label) as [->|N].
  - apply lookup_dict_set_eq.
  - apply lookup_dict_set_ne. exact N.
Qed.

(** The loop of [source_list] over well-typed entries returns, having
    inserted the exposed labels into [source_types] and written their
    identifiers into the entity's mapping, in order. *)
Lemma source_list_loop_exposed (raw : list dict) :
  Forall well_typed_source raw ->
  forall (source_types : dict) (self : MediaPlayer.entity),
    MediaPlayer.source_list_loop (map VDict raw) source_types self
    = (Ok (fold_left (fun a p => dict_set (fst p) (VBool true) a)
             (exposed raw) source_types),
       MediaPlayer.mkEntity (MediaPlayer.data self)
         (fold_left (fun a p => dict_set (fst p) (snd p) a)
            (exposed raw) (MediaPlayer._source_mapping self))
         (MediaPlayer._night_mode_available self)).
Proof.
  induction 1 as [|entry raw W _ IH]; intros source_types self.
  - destruct self; reflexivity.
  - simpl map. cbn [MediaPlayer.source_list_loop exposed].
    unfold exposed_as, raw_type, well_typed_source in *.
    unfold bind at 1, lift at 1, Py.get at 1.
    destruct (lookup "type" entry) as [ty|].
    2:{ simpl. apply IH. }
    destruct ty as [ |b|n|q|s|l|m];
      try (unfold bind at 1, lift at 1; rewrite W; apply IH).
    unfold bind at 1, lift at 1. cbn [truthy].
    destruct (String.eqb_spec s "") as [->|N]; cbn [negb].
    { apply IH. }
    cbn [MediaPlayer.as_str rbind].
    rewrite <- excluded_lower.
    destruct (excluded s); cbn [negb].
    { apply IH. }
    unfold bind at 1, lift at 1. cbn [MediaPlayer.as_str].
    unfold bind at 1, lift at 1, Py.get at 1.
    unfold bind at 1, MediaPlayer.set_source_mapping at 1.
    rewrite IH. cbn [fold_left fst snd MediaPlayer.data
                       MediaPlayer._source_mapping
                       MediaPlayer._night_mode_available].
    rewrite format_source_name_is_display_label. reflexivity.
Qed.

Lemma filter_not_in_nil (l : list string) :
  filter (fun k => negb (mem k [])) l = l.
Proof.
  induction l as [|x l IH]; [reflexivity|].
  cbn [filter]. unfold mem at 1. cbn [existsb negb]. rewrite IH. reflexivity.
Qed.

Lemma first_occurrences_in (x : string) (l : list string) :
  In x (first_occurrences l) <-> In x l.
Proof.
  induction l as [|a l IH]; simpl; [tauto|].
  rewrite filter_In, IH.
  destruct (String.eqb_spec x a) as [->|N]; simpl; [tauto|].
  split; [tauto|]. intros [E|I]; [symmetry in E; contradiction | tauto].
Qed.

Lemma first_occurrences_nodup (l : list string) :
  NoDup (first_occurrences l).
Proof.
  induction l as [|a l IH]; simpl; constructor.
  - rewrite filter_In. intros [_ H].
    rewrite String.eqb_refl in H. discriminate.
  - apply NoDup_filter. exact IH.
Qed.

(** C5, as amended.  For every raw source list read from the snapshot
    whose entries are mappings with a type that is a string, falsy or
    missing: the exposed list is unknown for the empty raw list and
    otherwise holds, once each and in order of first appearance, the
    display labels of the entries that have a type outside the exclusion
    set, compared case-insensitively, the labels being looked up
    case-insensitively in the fixed table and an unknown type being its
    own label; the label-to-identifier mapping then binds each exposed
    label to the identifier written last under it and keeps its earlier
    bindings for the other labels. *)
Theorem source_list_projection (self : MediaPlayer.entity)
    (d sources : dict) (raw : list dict) :
  MediaPlayer.data self = VDict d ->
  lookup "sources" d = Some (VDict sources) ->
  lookup "sources" sources = Some (VList (map VDict raw)) ->
  Forall well_typed_source raw ->
  fst (MediaPlayer.source_list self)
  = Ok (match raw with
        | [] => VNone
        | _ => VList (map VStr (labels raw))
        end)
  /\
  (forall label : string,
      lookup label (MediaPlayer._source_mapping (snd (MediaPlayer.source_list self)))
      = match last_written label (exposed raw) with
        | Some id => Some id
        | None => lookup label (MediaPlayer._source_mapping self)
        end)
  /\ NoDup (labels raw)
  /\ (forall label : string,
         In label (labels raw) <-> In label (map fst (exposed raw))).
Proof.
  intros D L S W.
  assert (R : MediaPlayer.source_list self
              = (Ok (match raw with
                     | [] => VNone
                     | _ => VList (map VStr (labels raw))
                     end),
                 MediaPlayer.mkEntity (MediaPlayer.data self)
                   (fold_left (fun a p => dict_set (fst p) (snd p) a)
                      (exposed raw) (MediaPlayer._source_mapping self))
                   (MediaPlayer._night_mode_available self))).
  { unfold MediaPlayer.source_list, bind, lift. rewrite D.
    rewrite (absent_of_present_mapping d "sources" (VDict sources) L
               (lookup_some_truthy _ _ _ S)).
    unfold getitem. rewrite L. unfold Py.get. rewrite S.
    destruct raw as [|entry raw].
    - destruct self; simpl in *; subst; reflexivity.
    - cbn [truthy map iter].
      change (VDict entry :: map VDict raw) with (map VDict (entry :: raw)).
      rewrite (source_list_loop_exposed (entry :: raw) W).
      unfold ret. rewrite keys_of_insertions. cbn [keys map app].
      rewrite filter_not_in_nil. rewrite D. reflexivity. }
  rewrite R. cbn [fst snd MediaPlayer._source_mapping].
  refine (conj eq_refl (conj _ (conj _ _))).
  - intros label. apply lookup_of_writes.
  - apply first_occurrences_nodup.
  - intros label. apply first_occurrences_in.
Qed.

(** Raw types [spotifyconnect, bluetooth] yield exactly
    ["Spotify Connect"].  In the list of mixed case, RAAT and BlueTooth
    are dropped, AirPlay2 and airplay2 share the label "AirPlay", whose
    identifier is the one written last, OPTICAL is labelled "Optical"
    and Phono is its own label. *)
Lemma source_list_projection_witness :
  (fst (MediaPlayer.source_list
          (observing (snapshot_with_sources spotify_and_bluetooth)))
   = Ok (VList [VStr "Spotify Connect"])
   /\ lookup "Spotify Connect"
        (MediaPlayer._source_mapping
           (snd (MediaPlayer.source_list
                   (observing (snapshot_with_sources spotify_and_bluetooth)))))
      = Some (VStr "a"))
  /\
  (fst (MediaPlayer.source_list
          (observing (snapshot_with_sources mixed_case_sources)))
   = Ok (VList [VStr "AirPlay"; VStr "Phono"; VStr "Optical"])
   /\ lookup "AirPlay"
        (MediaPlayer._source_mapping
           (snd (MediaPlayer.source_list
                   (observing (snapshot_with_sources mixed_case_sources)))))
      = Some (VStr "4")).
Proof.
  assert (W : Forall well_typed_source spotify_and_bluetooth)
    by (repeat constructor).
  assert (W' : Forall well_typed_source mixed_case_sources)
    by (repeat constructor).
  destruct (source_list_projection
              (observing (snapshot_with_sources spotify_and_bluetooth))
              (snapshot_with_sources spotify_and_bluetooth)
              [("sources", VList (map VDict spotify_and_bluetooth))]
              spotify_and_bluetooth eq_refl eq_refl eq_refl W)
    as [H [K _]].
  destruct (source_list_projection
              (observing (snapshot_with_sources mixed_case_sources))
              (snapshot_with_sources mixed_case_sources)
              [("sources", VList (map VDict mixed_case_sources))]
              mixed_case_sources eq_refl eq_refl eq_refl W')
    as [H' [K' _]].
  split; split;
    [exact H | exact (K "Spotify Connect") | exact H' | exact (K' "AirPlay")].
Defined.

(** C5, as stated for every raw source list, fails on an entry whose
    type is not a string: reading the list raises. *)
Lemma source_list_raises_on_non_string_type :
  fst (MediaPlayer.source_list
         (observing
            (snapshot_with_sources
               [[("sourceId", VStr "a"); ("type", VInt 7)]])))
  = Raise AttributeError.
Proof. reflexivity. Qed.

(** Case is ignored in the exclusion set and in the table, an unknown
    type is passed through unchanged, and of two entries with the same
    label the second one's identifier is the one kept. *)
Example source_list_case_and_duplicates :
  MediaPlayer.source_list
    (observing
       [("sources",
         VDict [("sources",
                 VList [VDict [("sourceId", VStr "1"); ("type", VStr "AirPlay2")];
                        VDict [("sourceId", VStr "2"); ("type", VStr "RAAT")];
                        VDict [("sourceId", VStr "3"); ("type", VStr "Phono")];
                        VDict [("sourceId", VStr "4"); ("type", VStr "airplay2")];
                        VDict [("sourceId", VStr "5"); ("type", VStr "Optical")]])])])
  = (Ok (VList [VStr "AirPlay"; VStr "Phono"; VStr "Optical"]),
     MediaPlayer.mkEntity
       (VDict
          [("sources",
            VDict [("sources",
                    VList [VDict [("sourceId", VStr "1"); ("type", VStr "AirPlay2")];
                           VDict [("sourceId", VStr "2"); ("type", VStr "RAAT")];
                           VDict [("sourceId", VStr "3"); ("type", VStr "Phono")];
                           VDict [("sourceId", VStr "4"); ("type", VStr "airplay2")];
                           VDict [("sourceId", VStr "5"); ("type", VStr "Optical")]])])])
       [("AirPlay", VStr "4"); ("Phono", VStr "3"); ("Optical", VStr "5")]
       false).
Proof. reflexivity. Qed.

(* ===================================================================== *)
(** ** The client: one attempt per call *)
(* ===================================================================== *)

Section SingleAttempt.

Variable dev : device.

Lemma one_request_send (rq : request) :
  at_most_one_request (DevialetAPI.send dev rq).
Proof. intros t. right. exists rq. apply send_trace. Qed.

Lemma one_request_raise (e : exn) :
  at_most_one_request (@raise trace value e).
Proof. intros t. left. reflexivity. Qed.

Lemma one_request_ret (v : value) :
  at_most_one_request (@ret trace value v).
Proof. intros t. left. reflexivity. Qed.

(** A step that touches nothing, then a computation that sends at most
    once. *)
Lemma one_request_after_lift {A} (r : result A) (k : A -> M trace value) :
  (forall a, at_most_one_request (k a)) ->
  at_most_one_request (x <- lift r ;; k x).
Proof.
  intros H t. unfold bind, lift. destruct r as [a|e]; [apply H | left; reflexivity].
Qed.

Lemma one_request_get_firmware_version :
  at_most_one_request (DevialetAPI.get_firmware_version dev).
Proof.
  intros t. right. exists (mkRequest GET API_SYSTEMS_CURRENT None).
  unfold DevialetAPI.get_firmware_version, DevialetAPI.get_system_info,
    DevialetAPI.get, bind, lift, ret.
  pose proof (send_trace dev (mkRequest GET API_SYSTEMS_CURRENT None) t) as H.
  destruct (DevialetAPI.send dev (mkRequest GET API_SYSTEMS_CURRENT None) t)
    as [[a|e] t']; simpl in *; subst t'; [|reflexivity].
  destruct (truthy a); [|reflexivity].
  destruct (contains a "firmwareVersion") as [[|]|]; reflexivity.
Qed.

Lemma one_request_set_volume (volume : value) :
  at_most_one_request (DevialetAPI.set_volume dev volume).
Proof.
  unfold DevialetAPI.set_volume.
  apply one_request_after_lift; intros m.
  apply one_request_after_lift; intros v.
  apply one_request_send.
Qed.

Lemma one_request_play_source (source_id : value) :
  at_most_one_request (DevialetAPI.play_source dev source_id).
Proof.
  unfold DevialetAPI.play_source.
  apply one_request_after_lift; intros id. apply one_request_send.
Qed.

Lemma one_request_set_eq_preset (preset : value) :
  at_most_one_request (DevialetAPI.set_eq_preset dev preset).
Proof.
  unfold DevialetAPI.set_eq_preset.
  destruct (negb _); [apply one_request_ret | apply one_request_send].
Qed.

Lemma one_request_methods :
  Forall (fun km => forall args : list value,
              at_most_one_request (snd km args))
    (DevialetAPI.methods dev).
Proof.
  unfold DevialetAPI.methods.
  repeat (constructor;
          [ intros args; cbn [snd];
            unfold DevialetAPI.nullary, DevialetAPI.unary;
            destruct args as [|a [|b [|c args]]];
            first [ apply one_request_raise
                  | apply one_request_send
                  | apply one_request_after_lift; intros ?;
                    apply one_request_send
                  | apply one_request_get_firmware_version
                  | apply one_request_set_volume
                  | apply one_request_play_source
                  | apply one_request_set_eq_preset ]
          | ]).
  constructor.
Qed.

Lemma find_method_in (name : string) (l : list (string * DevialetAPI.bound_method))
    (m : DevialetAPI.bound_method) :
  DevialetAPI.find_method name l = Some m -> exists k, In (k, m) l.
Proof.
  induction l as [|[k m'] l IH]; simpl; [discriminate|].
  destruct (k =? name)%string.
  - intros [= ->]. exists k. left. reflexivity.
  - intros H. destruct (IH H) as [k' I]. exists k'. right. exact I.
Qed.

Lemma job_sends_at_most_once (name : string) (args : list value) :
  at_most_one_request (DevialetAPI.async_add_executor_job dev name args).
Proof.
  intros t. unfold DevialetAPI.async_add_executor_job, DevialetAPI.getattr,
    bind, lift.
  destruct (DevialetAPI.find_method name (DevialetAPI.methods dev))
    as [m|] eqn:E.
  2:{ destruct (prefix "__" name); left; reflexivity. }
  destruct (find_method_in name _ m E) as [k I].
  pose proof one_request_methods as F.
  rewrite Forall_forall in F. exact (F (k, m) I args t).
Qed.

End SingleAttempt.

(** X1.  A job on the client, whatever the attribute name, the
    arguments, the device and the history, adds at most one event to the
    trace, and that event is a request: there is no retry and no refresh
    request in the client.  Where the name is not an attribute of the
    client, the job raises at the attribute lookup and sends nothing. *)
Theorem client_call_is_a_single_attempt (dev : device) (name : string)
    (args : list value) :
  at_most_one_request (DevialetAPI.async_add_executor_job dev name args)
  /\
  (forall e : exn,
      DevialetAPI.getattr dev name = Raise e ->
      forall t : trace,
        DevialetAPI.async_add_executor_job dev name args t = (Raise e, t))
  /\
  (DevialetAPI.find_method name (DevialetAPI.methods dev) = None ->
   prefix "__" name = false ->
   DevialetAPI.getattr dev name = Raise AttributeError).
Proof.
  refine (conj _ (conj _ _)).
  - apply job_sends_at_most_once.
  - intros e G t. unfold DevialetAPI.async_add_executor_job, bind, lift.
    rewrite G. reflexivity.
  - intros N U. unfold DevialetAPI.getattr. rewrite N, U. reflexivity.
Qed.

(** The request method itself, called on an endpoint, sends once; a name
    the class does not define sends nothing. *)
Lemma client_call_is_a_single_attempt_witness :
  DevialetAPI.async_add_executor_job (always_replies (VDict [])) "get"
    [VStr API_VOLUME] []
  = (Ok (VDict []), [Http (mkRequest GET API_VOLUME None)])
  /\ DevialetAPI.async_add_executor_job (always_replies (VDict []))
       "power_off_system" [] []
     = (Raise AttributeError, []).
Proof.
  split; [reflexivity|].
  apply (proj1 (proj2 (client_call_is_a_single_attempt
                         (always_replies (VDict [])) "power_off_system" []))).
  apply (proj2 (proj2 (client_call_is_a_single_attempt
                         (always_replies (VDict [])) "power_off_system" [])));
    reflexivity.
Defined.

(* ===================================================================== *)
(** ** The volume that is sent *)
(* ===================================================================== *)

Lemma Qle_bool_false (a b : Q) : Qle_bool a b = false -> Qlt b a.
Proof.
  intros E. apply Qnot_le_lt. intros H. apply Qle_bool_iff in H.
  rewrite H in E. discriminate.
Qed.

(** X2.  [set_volume] on any value: a value that is not a number raises
    [TypeError] before anything is sent; a number makes exactly one POST
    whose volume is a number between 0 and 100, equal to the given one
    when that lies in the range, and the integer bound 100 or 0 when it
    lies above or below. *)
Theorem set_volume_stays_in_range (dev : device) (t : trace) (volume : value) :
  (number volume = None ->
   DevialetAPI.set_volume dev volume t = (Raise TypeError, t))
  /\
  (forall q : Q,
      number volume = Some q ->
      exists (sent : value) (qs : Q),
        snd (DevialetAPI.set_volume dev volume t)
        = (t ++ [Http (mkRequest POST API_VOLUME
                         (Some (VDict [("volume", sent)])))])%list
        /\ number sent = Some qs
        /\ in_volume_range qs
        /\ (in_volume_range q -> Qeq qs q)
        /\ (Qlt (100 # 1) q -> sent = VInt 100)
        /\ (Qlt q (0 # 1) -> sent = VInt 0)).
Proof.
  split.
  - intros N. unfold DevialetAPI.set_volume, bind, lift, Py.min.
    rewrite N. reflexivity.
  - intros q N.
    unfold DevialetAPI.set_volume, DevialetAPI.post, bind, lift,
      Py.min, Py.max, Qltb.
    rewrite N. cbn [number].
    destruct (Qle_bool (inject_Z 100) q) eqn:H; cbn [negb number].
    + apply Qle_bool_iff in H.
      exists (VInt 100), (inject_Z 100).
      rewrite send_trace.
      refine (conj eq_refl (conj eq_refl (conj _ (conj _ (conj _ _))))).
      * split; discriminate.
      * intros [_ U]. apply Qle_antisym; assumption.
      * reflexivity.
      * intros L. exfalso.
        apply (Qlt_irrefl q). apply Qlt_le_trans with (0 # 1)%Q; [exact L|].
        apply Qle_trans with (inject_Z 100); [discriminate | exact H].
    + apply Qle_bool_false in H. rewrite N.
      destruct (Qle_bool q (inject_Z 0)) eqn:Z; cbn [negb].
      * apply Qle_bool_iff in Z.
        exists (VInt 0), (inject_Z 0).
        rewrite send_trace.
        refine (conj eq_refl (conj eq_refl (conj _ (conj _ (conj _ _))))).
        -- split; discriminate.
        -- intros [L _]. apply Qle_antisym; assumption.
        -- intros L. exfalso. apply (Qlt_irrefl q).
           apply Qlt_trans with (100 # 1)%Q; assumption.
        -- reflexivity.
      * apply Qle_bool_false in Z.
        exists volume, q.
        rewrite send_trace.
        refine (conj eq_refl (conj N (conj _ (conj _ (conj _ _))))).
        -- split; apply Qlt_le_weak; assumption.
        -- reflexivity.
        -- intros L. exfalso. apply (Qlt_irrefl q).
           apply Qlt_trans with (100 # 1)%Q; assumption.
        -- intros L. exfalso. apply (Qlt_irrefl q).
           apply Qlt_trans with (0 # 1)%Q; assumption.
Qed.

(** The text "50" is refused with nothing sent; the float 57.5 is sent as
    it is. *)
Lemma set_volume_stays_in_range_witness :
  DevialetAPI.set_volume (always_replies (VDict [])) (VStr "50") []
  = (Raise TypeError, [])
  /\ exists (sent : value) (qs : Q),
       snd (DevialetAPI.set_volume (always_replies (VDict []))
              (VFloat (115 # 2)) [])
       = [Http (mkRequest POST API_VOLUME (Some (VDict [("volume", sent)])))]
       /\ Qeq qs (115 # 2).
Proof.
  destruct (set_volume_stays_in_range (always_replies (VDict [])) []
              (VStr "50")) as [R _].
  destruct (set_volume_stays_in_range (always_replies (VDict [])) []
              (VFloat (115 # 2))) as [_ S].
  split; [exact (R eq_refl)|].
  destruct (S (115 # 2)%Q eq_refl) as [sent [qs [E [_ [_ [I _]]]]]].
  exists sent, qs. split; [exact E|].
  apply I. split; discriminate.
Defined.

(* ===================================================================== *)
(** ** Services and actions *)
(* ===================================================================== *)

Lemma skipn_own_length {A} (t new : list A) :
  skipn (length t) (t ++ new) = new.
Proof. induction t as [|x t IH]; [reflexivity | exact IH]. Qed.

Lemma history_app (l l' : Services.log) :
  history (l ++ l')%list = (history l ++ history l')%list.
Proof. apply map_app. Qed.

(** A job that appends at most one event, run for an entry: the log
    without the identifiers is the history the job leaves. *)
Lemma at_entry_history {A} (entry_id : string) (job : M trace A)
    (l : Services.log) :
  at_most_one_request job ->
  fst (Services.at_entry entry_id job l) = fst (job (history l))
  /\ history (snd (Services.at_entry entry_id job l)) = snd (job (history l)).
Proof.
  intros H. unfold Services.at_entry, history.
  destruct (H (map snd l)) as [E | [rq E]];
    destruct (job (map snd l)) as [r t']; cbn [fst snd] in *; subst t';
    (split; [reflexivity|]); rewrite map_app, map_map; cbn [snd];
    rewrite map_id.
  - rewrite skipn_all, app_nil_r. reflexivity.
  - rewrite skipn_own_length. reflexivity.
Qed.

(** The handlers' loop is the loop over the entries told apart, without
    the identifiers. *)
Lemma for_each_entry_at_erased (name : string) (args : list value)
    (entries : list Services.entry) :
  forall l : Services.log,
    Services.for_each_entry (map snd entries) name args (history l)
    = (fst (Services.for_each_entry_at entries name args l),
       history (snd (Services.for_each_entry_at entries name args l))).
Proof.
  induction entries as [|[entry_id dev] rest IH]; intros l; [reflexivity|].
  cbn [map snd Services.for_each_entry Services.for_each_entry_at].
  unfold bind.
  destruct (at_entry_history entry_id
              (DevialetAPI.async_add_executor_job dev name args) l
              (job_sends_at_most_once dev name args)) as [F H].
  destruct (Services.at_entry entry_id
              (DevialetAPI.async_add_executor_job dev name args) l)
    as [r l'].
  destruct (DevialetAPI.async_add_executor_job dev name args (history l))
    as [r' t']. cbn [fst snd] in F, H. subst r' t'.
  destruct r as [v|e]; [apply IH | reflexivity].
Qed.

Lemma at_entry_send (entry_id : string) (dev : device) (rq : request)
    (l : Services.log) :
  Services.at_entry entry_id (DevialetAPI.send dev rq) l
  = (fst (DevialetAPI.send dev rq (history l)),
     (l ++ [(entry_id, Http rq)])%list).
Proof.
  unfold Services.at_entry. fold (history l).
  pose proof (send_trace dev rq (history l)) as T.
  destruct (DevialetAPI.send dev rq (history l)) as [r t'].
  cbn [fst snd] in *. subst t'. rewrite skipn_own_length. reflexivity.
Qed.

(** When the job is one request and every entry's device answers it, the
    loop sends the request once to each entry, in order. *)
Lemma for_each_entry_at_sends (name : string) (args : list value)
    (rq : request) :
  (forall dev, DevialetAPI.async_add_executor_job dev name args
               = DevialetAPI.send dev rq) ->
  forall (entries : list Services.entry) (l : Services.log),
    Forall (fun en => answers (snd en) rq) entries ->
    Services.for_each_entry_at entries name args l
    = (Ok tt, (l ++ once_per_entry entries rq)%list).
Proof.
  intros J entries.
  induction entries as [|[entry_id dev] rest IH]; intros l A.
  - simpl. rewrite app_nil_r. reflexivity.
  - inversion A as [|? ? Ad Ar]; subst. cbn [snd] in Ad.
    cbn [Services.for_each_entry_at]. unfold bind. rewrite J, at_entry_send.
    destruct (Ad (history l)) as [a R]. rewrite R.
    rewrite (IH _ Ar). cbn [once_per_entry map fst].
    rewrite <- app_assoc. reflexivity.
Qed.

(** When the job of an entry raises, the loop ends there: the entries
    before it were each sent the request, the entries after it are sent
    nothing. *)
Lemma for_each_entry_at_stops (name : string) (args : list value)
    (rq : request) :
  (forall dev, DevialetAPI.async_add_executor_job dev name args
               = DevialetAPI.send dev rq) ->
  forall (pre : list Services.entry) (en : Services.entry)
         (post : list Services.entry) (l : Services.log) (ex : exn),
    Forall (fun en => answers (snd en) rq) pre ->
    fst (DevialetAPI.send (snd en) rq
           (history (l ++ once_per_entry pre rq)%list))
    = Raise ex ->
    Services.for_each_entry_at (pre ++ en :: post) name args l
    = (Raise ex, (l ++ once_per_entry (pre ++ [en]) rq)%list).
Proof.
  intros J pre.
  induction pre as [|[entry_id dev] pre IH]; intros en post l ex A R.
  - destruct en as [entry_id dev]. cbn [snd once_per_entry map] in R.
    rewrite app_nil_r in R.
    cbn [app Services.for_each_entry_at]. unfold bind.
    rewrite J, at_entry_send, R. reflexivity.
  - inversion A as [|? ? Ad Ar]; subst. cbn [snd] in Ad.
    cbn [app Services.for_each_entry_at]. unfold bind at 1.
    rewrite J, at_entry_send.
    destruct (Ad (history l)) as [a Ra]. rewrite Ra.
    cbn [once_per_entry map fst] in R |- *.
    rewrite (IH en post (l ++ [(entry_id, Http rq)])%list ex Ar).
    + rewrite <- app_assoc. reflexivity.
    + rewrite <- app_assoc. exact R.
Qed.

Lemma simple_service_job
    (h : list Services.entry -> M Services.log unit) (e : string) :
  In (h, e) simple_services ->
  exists name : string,
    (forall entries, h entries = Services.for_each_entry_at entries name [])
    /\ (forall dev, DevialetAPI.async_add_executor_job dev name []
                    = DevialetAPI.send dev (command e)).
Proof.
  intros I. simpl in I.
  repeat (destruct I as [I|I];
          [ injection I as <- <-; eexists; split; [reflexivity | reflexivity]
          | ]).
  contradiction.
Qed.

(** X3.  A service without parameters reaches every configured entry.
    When each entry's device answers, the handler puts its command once
    to each entry, in the order of the entries, and does nothing else (in
    particular it requests no refresh).  When the call on an entry
    raises, the exception leaves the handler: the entries before that
    one have each been sent the command once, the entries after it are
    sent nothing. *)
Theorem simple_service_reaches_every_entry
    (h : list Services.entry -> M Services.log unit) (e : string) :
  In (h, e) simple_services ->
  forall (entries : list Services.entry) (l : Services.log),
    (Forall (fun en => answers (snd en) (command e)) entries ->
     h entries l = (Ok tt, (l ++ once_per_entry entries (command e))%list))
    /\
    (forall (pre : list Services.entry) (en : Services.entry)
            (post : list Services.entry) (ex : exn),
        entries = (pre ++ en :: post)%list ->
        Forall (fun en => answers (snd en) (command e)) pre ->
        fst (DevialetAPI.send (snd en) (command e)
               (history (l ++ once_per_entry pre (command e))%list))
        = Raise ex ->
        h entries l
        = (Raise ex, (l ++ once_per_entry (pre ++ [en]) (command e))%list)).
Proof.
  intros I entries l. destruct (simple_service_job h e I) as [name [H J]].
  rewrite H. split.
  - apply for_each_entry_at_sends. exact J.
  - intros pre en post ex ->. apply for_each_entry_at_stops. exact J.
Qed.

Lemma answers_always_replies (d : dict) (rq : request) :
  lookup "error" d = None -> answers (always_replies (VDict d)) rq.
Proof.
  intros E t. apply send_returns.
  unfold always_replies, classify; simpl. rewrite E. discriminate.
Qed.

(** The mute service with two entries, and with three entries of which
    the second one's device answers with a body that is not a mapping. *)
Lemma simple_service_reaches_every_entry_witness :
  Services.handle_mute_at
    [("hall", always_replies (VDict [])); ("study", always_replies (VDict []))]
    []
  = (Ok tt, [("hall", Http (command API_MUTE));
             ("study", Http (command API_MUTE))])
  /\ Services.handle_mute_at
       [("hall", always_replies (VDict []));
        ("study", always_replies (VInt 5));
        ("attic", always_replies (VDict []))] []
     = (Raise TypeError, [("hall", Http (command API_MUTE));
                          ("study", Http (command API_MUTE))]).
Proof.
  assert (I : In (Services.handle_mute_at, API_MUTE) simple_services)
    by (simpl; tauto).
  split.
  - apply (proj1 (simple_service_reaches_every_entry _ _ I
                    [("hall", always_replies (VDict []));
                     ("study", always_replies (VDict []))] [])).
    repeat constructor; apply answers_always_replies; reflexivity.
  - apply (proj2 (simple_service_reaches_every_entry _ _ I
                    [("hall", always_replies (VDict []));
                     ("study", always_replies (VInt 5));
                     ("attic", always_replies (VDict []))] [])
             [("hall", always_replies (VDict []))]
             ("study", always_replies (VInt 5))
             [("attic", always_replies (VDict []))] TypeError eq_refl).
    + repeat constructor; apply answers_always_replies; reflexivity.
    + reflexivity.
Defined.

(** X4.  The preset service validates before it sends: a preset that is
    not one of the three names is sent to no entry and the handler
    returns; a valid one is posted once to each entry, in the order of
    the entries, when each device answers. *)
Theorem preset_service_validates_locally
    (entries : list Services.entry) (preset : value) (l : Services.log) :
  (valid_preset preset = false ->
   Services.handle_set_eq_preset_at entries preset l = (Ok tt, l))
  /\
  (valid_preset preset = true ->
   Forall (fun en =>
             answers (snd en)
               (mkRequest POST API_EQUALIZER
                  (Some (VDict [("preset", preset)])))) entries ->
   Services.handle_set_eq_preset_at entries preset l
   = (Ok tt,
      (l ++ once_per_entry entries
              (mkRequest POST API_EQUALIZER
                 (Some (VDict [("preset", preset)]))))%list)).
Proof.
  unfold Services.handle_set_eq_preset_at. split.
  - intros V. induction entries as [|[entry_id dev] rest IH]; [reflexivity|].
    cbn [Services.for_each_entry_at]. unfold bind at 1.
    change (DevialetAPI.async_add_executor_job dev "set_eq_preset" [preset])
      with (fun s => DevialetAPI.set_eq_preset dev preset s).
    unfold DevialetAPI.set_eq_preset. fold (valid_preset preset).
    rewrite V. cbn [negb]. unfold Services.at_entry, ret.
    rewrite skipn_all, app_nil_r. exact IH.
  - intros V. apply for_each_entry_at_sends. intros dev.
    change (DevialetAPI.async_add_executor_job dev "set_eq_preset" [preset])
      with (fun s => DevialetAPI.set_eq_preset dev preset s).
    unfold DevialetAPI.set_eq_preset. fold (valid_preset preset).
    rewrite V. reflexivity.
Qed.

Lemma preset_service_validates_locally_witness :
  Services.handle_set_eq_preset_at
    [("hall", always_replies (VDict [])); ("study", always_replies (VDict []))]
    (VStr "rock") []
  = (Ok tt, [])
  /\ Services.handle_set_eq_preset_at
       [("hall", always_replies (VDict []));
        ("study", always_replies (VDict []))] (VStr "voice") []
     = (Ok tt, [("hall", Http (eq_preset_request "voice"));
                ("study", Http (eq_preset_request "voice"))]).
Proof.
  split.
  - exact (proj1 (preset_service_validates_locally
                    [("hall", always_replies (VDict []));
                     ("study", always_replies (VDict []))]
                    (VStr "rock") []) eq_refl).
  - apply (proj2 (preset_service_validates_locally
                    [("hall", always_replies (VDict []));
                     ("study", always_replies (VDict []))]
                    (VStr "voice") []) eq_refl).
    repeat constructor; apply answers_always_replies; reflexivity.
Defined.

Lemma simple_action_job (a : device -> MediaPlayer.entity -> M trace unit)
    (e : string) :
  In (a, e) simple_actions ->
  forall (dev : device) (self : MediaPlayer.entity),
    a dev self
    = (DevialetAPI.send dev (command e) ;;; MediaPlayer.async_request_refresh).
Proof.
  intros I dev self. simpl in I.
  repeat (destruct I as [I|I]; [injection I as <- <-; reflexivity|]).
  contradiction.
Qed.

(** X5.  Each action of the media player without parameters (volume up
    and down, play, pause, stop, previous, next, mute, unmute) sends
    exactly one POST of the empty object to its endpoint, stop using the
    endpoint of pause, and then requests exactly one refresh if the call
    returned and none if it raised. *)
Theorem simple_action_sends_then_refreshes
    (a : device -> MediaPlayer.entity -> M trace unit) (e : string) :
  In (a, e) simple_actions ->
  forall (dev : device) (self : MediaPlayer.entity) (t : trace),
    snd (a dev self t)
    = match fst (DevialetAPI.send dev (command e) t) with
      | Ok _ => (t ++ [Http (command e); Refresh])%list
      | Raise _ => (t ++ [Http (command e)])%list
      end.
Proof.
  intros I dev self t. rewrite (simple_action_job a e I).
  apply command_then_refresh.
Qed.

Lemma simple_action_sends_then_refreshes_witness :
  snd (MediaPlayer.async_media_stop (always_replies (VDict []))
         (observing []) [])
  = [Http (command API_PAUSE); Refresh]
  /\ snd (MediaPlayer.async_media_next_track (always_replies (VInt 5))
            (observing []) [])
     = [Http (command API_NEXT)].
Proof.
  split.
  - apply (simple_action_sends_then_refreshes MediaPlayer.async_media_stop
             API_PAUSE).
    simpl; tauto.
  - apply (simple_action_sends_then_refreshes MediaPlayer.async_media_next_track
             API_NEXT).
    simpl; tauto.
Defined.

(** X6.  Nothing is de-duplicated: an action run twice in a row on a
    device that answers sends its POST twice and requests two
    refreshes. *)
Theorem repeated_action_is_sent_twice
    (a : device -> MediaPlayer.entity -> M trace unit) (e : string) :
  In (a, e) simple_actions ->
  forall (dev : device) (self : MediaPlayer.entity) (t : trace),
    answers dev (command e) ->
    (a dev self ;;; a dev self) t
    = (Ok tt,
       (t ++ [Http (command e); Refresh; Http (command e); Refresh])%list).
Proof.
  intros I dev self t A. rewrite (simple_action_job a e I).
  assert (R : forall u,
             (DevialetAPI.send dev (command e) ;;;
              MediaPlayer.async_request_refresh) u
             = (Ok tt, (u ++ [Http (command e); Refresh])%list)).
  { intros u. rewrite then_refresh. destruct (A u) as [v R].
    pose proof (send_trace dev (command e) u) as T.
    destruct (DevialetAPI.send dev (command e) u) as [[v'|ex] u'];
      simpl in *; [subst u' | discriminate].
    rewrite <- app_assoc. reflexivity. }
  unfold bind at 1. rewrite R, R, <- app_assoc. reflexivity.
Qed.

Lemma repeated_action_is_sent_twice_witness :
  ((fun dev self => MediaPlayer.async_mute_volume dev self true)
     (always_replies (VDict [])) (observing [])
   ;;; (fun dev self => MediaPlayer.async_mute_volume dev self true)
         (always_replies (VDict [])) (observing [])) []
  = (Ok tt,
     [Http (command API_MUTE); Refresh; Http (command API_MUTE); Refresh]).
Proof.
  apply (repeated_action_is_sent_twice
           (fun dev self => MediaPlayer.async_mute_volume dev self true)
           API_MUTE).
  - simpl; tauto.
  - apply answers_always_replies. reflexivity.
Defined.

(** X7.  Setting the volume level from a percentage sends the clamped
    percentage in one POST and then requests one refresh if the call
    returned. *)
Theorem set_volume_level_sends_clamped_then_refreshes
    (dev : device) (self : MediaPlayer.entity) (volume_percent : Z)
    (t : trace) :
  snd (MediaPlayer.async_set_volume_level dev self volume_percent t)
  = match fst (DevialetAPI.send dev (set_volume_request volume_percent) t) with
    | Ok _ => (t ++ [Http (set_volume_request volume_percent); Refresh])%list
    | Raise _ => (t ++ [Http (set_volume_request volume_percent)])%list
    end.
Proof.
  unfold MediaPlayer.async_set_volume_level.
  change (DevialetAPI.async_add_executor_job dev "set_volume"
            [VInt volume_percent])
    with (fun s => DevialetAPI.set_volume dev (VInt volume_percent) s).
  assert (E : (fun s => DevialetAPI.set_volume dev (VInt volume_percent) s)
              = DevialetAPI.send dev (set_volume_request volume_percent)).
  { unfold DevialetAPI.set_volume, bind, lift.
    rewrite min_100_int, max_0_int. reflexivity. }
  rewrite E. apply command_then_refresh.
Qed.

(* ===================================================================== *)
(** ** The media player and the sensors read the same snapshot *)
(* ===================================================================== *)

(** X8.  For every entity, whatever its snapshot holds: the state of the
    media player is the playback sensor's value read as playing, paused
    or, for anything else including unknown, idle; and it raises exactly
    what the sensor raises. *)
Theorem state_is_the_sensor_value_classified (self : MediaPlayer.entity) :
  MediaPlayer.state self
  = (v <~ Sensor.DevialetPlaybackSensor.native_value (MediaPlayer.data self) ;;
     Ok (state_of v)).
Proof.
  unfold MediaPlayer.state, Sensor.DevialetPlaybackSensor.native_value,
    MediaPlayer.absent, Sensor.and_get, state_of.
  destruct (MediaPlayer.data self) as [ |b|n|q|s|l|d]; try reflexivity;
    try (match goal with
         | |- context [truthy ?x] => destruct (truthy x) eqn:T
         end; cbn [negb rbind Py.get]; rewrite ?T; reflexivity).
  destruct d as [|p d]; [reflexivity|]. rewrite truthy_dict_cons.
  cbn [negb rbind Py.get getitem].
  destruct (lookup "playback" (p :: d)) as [x|]; cbn [rbind truthy negb];
    [|reflexivity].
  destruct (truthy x); cbn [negb rbind]; [|reflexivity].
  destruct x as [ | | | | | |m]; try reflexivity.
  cbn [rbind Py.get].
  repeat match goal with
         | |- context [eq_str ?a ?b] => destruct (eq_str a b)
         end; reflexivity.
Qed.

Lemma volume_level_scaled (self : MediaPlayer.entity) :
  MediaPlayer.volume_level self
  = (v <~ Sensor.DevialetVolumeSensor.native_value (MediaPlayer.data self) ;;
     match v with
     | VNone => Ok VNone
     | _ => truediv v (100 # 1)
     end).
Proof.
  unfold MediaPlayer.volume_level, Sensor.DevialetVolumeSensor.native_value,
    MediaPlayer.absent, Sensor.and_get.
  destruct (MediaPlayer.data self) as [ |b|n|q|s|l|d]; try reflexivity;
    try (match goal with
         | |- context [truthy ?x] => destruct (truthy x) eqn:T
         end; cbn [negb rbind Py.get]; rewrite ?T; reflexivity).
  destruct d as [|p d]; [reflexivity|]. rewrite truthy_dict_cons.
  cbn [negb rbind Py.get getitem].
  destruct (lookup "volume" (p :: d)) as [x|]; cbn [rbind truthy negb];
    [|reflexivity].
  destruct (truthy x); cbn [negb rbind]; [|reflexivity].
  destruct x as [ | | | | | |m]; reflexivity.
Qed.

(** X9.  For every entity, whatever its snapshot holds: the volume level
    of the media player is the volume sensor's value divided by the float
    100.0, and unknown when the sensor's value is unknown.  It raises
    what the sensor raises, and it raises by itself where the sensor
    returns a value that cannot be divided: [TypeError] for a string, a
    list or a mapping, [OverflowError] for an integer too large for a
    float. *)
Theorem volume_level_is_the_sensor_value_scaled (self : MediaPlayer.entity) :
  MediaPlayer.volume_level self
  = (v <~ Sensor.DevialetVolumeSensor.native_value (MediaPlayer.data self) ;;
     match v with
     | VNone => Ok VNone
     | _ => truediv v (100 # 1)
     end)
  /\
  (forall e : exn,
      Sensor.DevialetVolumeSensor.native_value (MediaPlayer.data self)
      = Raise e ->
      MediaPlayer.volume_level self = Raise e)
  /\
  (Sensor.DevialetVolumeSensor.native_value (MediaPlayer.data self) = Ok VNone ->
   MediaPlayer.volume_level self = Ok VNone)
  /\
  (forall v : value,
      Sensor.DevialetVolumeSensor.native_value (MediaPlayer.data self) = Ok v ->
      v <> VNone -> number v = None ->
      MediaPlayer.volume_level self = Raise TypeError)
  /\
  (forall (n : Z) (s : bool),
      Sensor.DevialetVolumeSensor.native_value (MediaPlayer.data self)
      = Ok (VInt n) ->
      float_of_int n = S754_infinity s ->
      MediaPlayer.volume_level self = Raise OverflowError).
Proof.
  rewrite (volume_level_scaled self).
  refine (conj eq_refl (conj _ (conj _ (conj _ _)))).
  - intros e ->. reflexivity.
  - intros ->. reflexivity.
  - intros v -> N T. cbn [rbind].
    destruct v; try discriminate T; try reflexivity. contradiction N.
    reflexivity.
  - intros n s -> E. cbn [rbind truediv]. unfold int_truediv. rewrite E.
    reflexivity.
Qed.

(** A volume field that holds text: the sensor shows the text, the media
    player's level cannot be read. *)
Lemma volume_level_is_the_sensor_value_scaled_witness :
  Sensor.DevialetVolumeSensor.native_value
    (VDict [("volume", VDict [("volume", VStr "abc")])])
  = Ok (VStr "abc")
  /\ MediaPlayer.volume_level
       (observing [("volume", VDict [("volume", VStr "abc")])])
     = Raise TypeError.
Proof.
  split; [reflexivity|].
  apply (proj1 (proj2 (proj2 (proj2
           (volume_level_is_the_sensor_value_scaled
              (observing [("volume", VDict [("volume", VStr "abc")])])))))
           (VStr "abc") eq_refl).
  - discriminate.
  - reflexivity.
Defined.





(* ===================================================================== *)
(** ** Sources: the list, the current source, the selection *)
(* ===================================================================== *)

(** Reading the source list of a snapshot with well-typed entries: the
    value returned and the entity left behind. *)
Lemma source_list_run (self : MediaPlayer.entity) (d sources : dict)
    (raw : list dict) :
  MediaPlayer.data self = VDict d ->
  lookup "sources" d = Some (VDict sources) ->
  lookup "sources" sources = Some (VList (map VDict raw)) ->
  Forall well_typed_source raw ->
  MediaPlayer.source_list self
  = (Ok (match raw with
         | [] => VNone
         | _ => VList (map VStr (labels raw))
         end),
     MediaPlayer.mkEntity (VDict d)
       (fold_left (fun a p => dict_set (fst p) (snd p) a)
          (exposed raw) (MediaPlayer._source_mapping self))
       (MediaPlayer._night_mode_available self)).
Proof.
  intros D L S W.
  unfold MediaPlayer.source_list, bind, lift. rewrite D.
  rewrite (absent_of_present_mapping d "sources" (VDict sources) L
             (lookup_some_truthy _ _ _ S)).
  unfold getitem. rewrite L. unfold Py.get. rewrite S.
  destruct raw as [|entry raw].
  - destruct self; simpl in *; subst; reflexivity.
  - cbn [truthy map iter].
    change (VDict entry :: map VDict raw) with (map VDict (entry :: raw)).
    rewrite (source_list_loop_exposed (entry :: raw) W).
    unfold ret. rewrite keys_of_insertions. cbn [keys map app].
    rewrite filter_not_in_nil. rewrite D. reflexivity.
Qed.

Lemma excluded_label_is_the_type (t : string) :
  excluded t = true -> display_label t = t.
Proof.
  rewrite excluded_lower, display_label_lower. cbn [existsb].
  rewrite orb_false_r. intros H. apply orb_true_iff in H.
  destruct H as [H|H]; apply String.eqb_eq in H; rewrite H; reflexivity.
Qed.

Lemma display_label_not_excluded (t : string) :
  excluded t = false -> excluded (display_label t) = false.
Proof.
  intros H. rewrite display_label_lower.
  repeat match goal with
         | |- context [(?k =? lower t)%string] =>
             destruct (k =? lower t)%string; [reflexivity|]
         end.
  exact H.
Qed.

Lemma exposed_labels_not_excluded (raw : list dict) (label : string) :
  In label (map fst (exposed raw)) -> excluded label = false.
Proof.
  induction raw as [|entry raw IH]; simpl; [contradiction|].
  unfold exposed_as.
  destruct (raw_type entry) as [t|]; [|exact IH].
  destruct (excluded t) eqn:E; [exact IH|].
  simpl. intros [<-|I]; [apply display_label_not_excluded; exact E | exact (IH I)].
Qed.

(** X11.  The current source is labelled like the entries of the source
    list, but without the exclusion: when the device plays from a source
    of an excluded type, the media player reports that type as its
    current source, and the source list read from the same snapshot does
    not contain it. *)
Theorem current_source_can_be_missing_from_the_list
    (self : MediaPlayer.entity) (d playback src : dict) (t : string) :
  MediaPlayer.data self = VDict d ->
  lookup "playback" d = Some (VDict playback) ->
  lookup "source" playback = Some (VDict src) ->
  lookup "type" src = Some (VStr t) ->
  t <> "" ->
  MediaPlayer.source self = Ok (VStr (display_label t))
  /\
  (forall (sources : dict) (raw : list dict),
      lookup "sources" d = Some (VDict sources) ->
      lookup "sources" sources = Some (VList (map VDict raw)) ->
      Forall well_typed_source raw ->
      excluded t = true ->
      MediaPlayer.source self = Ok (VStr t)
      /\ exists l : value,
           fst (MediaPlayer.source_list self) = Ok l
           /\ forall ls : list value, l = VList ls -> ~ In (VStr t) ls).
Proof.
  intros D L S T NE.
  assert (R : MediaPlayer.source self = Ok (VStr (display_label t))).
  { unfold MediaPlayer.source. rewrite D.
    rewrite (absent_of_present_mapping d "playback" _ L
               (lookup_some_truthy _ _ _ S)).
    cbn [rbind]. unfold getitem. rewrite L. cbn [rbind].
    unfold Py.get at 1. rewrite S. cbn [rbind].
    rewrite (lookup_some_truthy _ _ _ T).
    unfold Py.get. rewrite T. cbn [rbind truthy].
    destruct (String.eqb_spec t "") as [E|_]; [contradiction|].
    cbn [negb MediaPlayer.as_str rbind].
    rewrite format_source_name_is_display_label. reflexivity. }
  split; [exact R|].
  intros sources raw Ls Lr W E.
  rewrite R, (excluded_label_is_the_type t E). split; [reflexivity|].
  rewrite (source_list_run self d sources raw D Ls Lr W). cbn [fst].
  eexists. split; [reflexivity|].
  intros ls H I. destruct raw as [|entry raw]; [discriminate|].
  injection H as <-. apply in_map_iff in I. destruct I as [x [[= ->] I]].
  unfold labels in I. rewrite first_occurrences_in in I.
  apply exposed_labels_not_excluded in I. rewrite E in I. discriminate.
Qed.

Lemma current_source_can_be_missing_from_the_list_witness :
  MediaPlayer.source
    (observing
       [("playback", VDict [("source", VDict [("type", VStr "bluetooth")])]);
        ("sources", VDict [("sources", VList (map VDict spotify_and_bluetooth))])])
  = Ok (VStr "bluetooth")
  /\ fst (MediaPlayer.source_list
            (observing
               [("playback", VDict [("source", VDict [("type", VStr "bluetooth")])]);
                ("sources",
                 VDict [("sources", VList (map VDict spotify_and_bluetooth))])]))
     = Ok (VList [VStr "Spotify Connect"]).
Proof.
  assert (W : Forall well_typed_source spotify_and_bluetooth)
    by (constructor; [exact I | constructor; [exact I | constructor]]).
  destruct (current_source_can_be_missing_from_the_list
              (observing
                 [("playback", VDict [("source", VDict [("type", VStr "bluetooth")])]);
                  ("sources",
                   VDict [("sources", VList (map VDict spotify_and_bluetooth))])])
              _ [("source", VDict [("type", VStr "bluetooth")])]
              [("type", VStr "bluetooth")] "bluetooth"
              eq_refl eq_refl eq_refl eq_refl ltac:(discriminate))
    as [_ H].
  destruct (H [("sources", VList (map VDict spotify_and_bluetooth))]
              spotify_and_bluetooth eq_refl eq_refl W eq_refl) as [S _].
  split; [exact S | reflexivity].
Defined.

Lemma last_written_of_in (label : string) (pairs : list (string * value)) :
  In label (map fst pairs) -> exists v, last_written label pairs = Some v.
Proof.
  induction pairs as [|[l id] pairs IH]; simpl; [contradiction|].
  intros [->|I].
  - destruct (last_written label pairs) as [x|]; [exists x; reflexivity|].
    rewrite String.eqb_refl. exists id. reflexivity.
  - destruct (IH I) as [x ->]. exists x. reflexivity.
Qed.

Lemma job_play_source (dev : device) (v : value) (id : string) :
  Py.str v = Ok id ->
  DevialetAPI.async_add_executor_job dev "play_source" [v]
  = DevialetAPI.send dev (command (API_PLAY_SOURCE id)).
Proof.
  intros H.
  change (DevialetAPI.async_add_executor_job dev "play_source" [v])
    with (DevialetAPI.play_source dev v).
  unfold DevialetAPI.play_source, bind, lift. rewrite H. reflexivity.
Qed.

(** X12.  Reading the source list and then selecting a source.  Every
    label of the list that the reading returns is bound in the entity's
    source mapping afterwards, to the identifier written last under it.
    Selecting a label that the mapping binds to an identifier sends one
    POST to the play endpoint of that identifier's text, whether the
    identifier is a string, an integer, a boolean or None, and then
    requests a refresh if the call returned; selecting a name that the
    mapping does not bind sends nothing and requests no refresh. *)
Theorem selecting_a_listed_source_plays_its_identifier
    (dev : device) (self : MediaPlayer.entity) (d sources : dict)
    (raw : list dict) (t : trace) :
  MediaPlayer.data self = VDict d ->
  lookup "sources" d = Some (VDict sources) ->
  lookup "sources" sources = Some (VList (map VDict raw)) ->
  Forall well_typed_source raw ->
  (forall (listed : list value) (label : string),
      fst (MediaPlayer.source_list self) = Ok (VList listed) ->
      In (VStr label) listed ->
      exists v : value,
        lookup label
          (MediaPlayer._source_mapping (snd (MediaPlayer.source_list self)))
        = Some v
        /\ last_written label (exposed raw) = Some v)
  /\
  (forall (label : string) (v : value) (id : string),
      lookup label
        (MediaPlayer._source_mapping (snd (MediaPlayer.source_list self)))
      = Some v ->
      Py.str v = Ok id ->
      snd (MediaPlayer.async_select_source dev
             (snd (MediaPlayer.source_list self)) label t)
      = match fst (DevialetAPI.send dev (command (API_PLAY_SOURCE id)) t) with
        | Ok _ => (t ++ [Http (command (API_PLAY_SOURCE id)); Refresh])%list
        | Raise _ => (t ++ [Http (command (API_PLAY_SOURCE id))])%list
        end)
  /\
  (forall name : string,
      lookup name
        (MediaPlayer._source_mapping (snd (MediaPlayer.source_list self)))
      = None ->
      MediaPlayer.async_select_source dev
        (snd (MediaPlayer.source_list self)) name t
      = (Ok tt, t)).
Proof.
  intros D L S W.
  rewrite (source_list_run self d sources raw D L S W). cbn [fst snd].
  refine (conj _ (conj _ _)).
  - intros listed label E I. cbn [MediaPlayer._source_mapping].
    destruct raw as [|entry raw]; [discriminate E|].
    injection E as <-. apply in_map_iff in I.
    destruct I as [x [X I]]. injection X as ->.
    unfold labels in I. rewrite first_occurrences_in in I.
    destruct (last_written_of_in label _ I) as [v H].
    exists v. split; [|exact H]. rewrite lookup_of_writes, H. reflexivity.
  - intros label v id H P. unfold MediaPlayer.async_select_source.
    rewrite H, (job_play_source dev v id P).
    apply command_then_refresh.
  - intros name H. unfold MediaPlayer.async_select_source.
    rewrite H. reflexivity.
Qed.

(** The list of mixed case, on an entity that already binds a name:
    "AirPlay" plays the identifier written last under it, and a name
    that was never listed sends nothing. *)
Lemma selecting_a_listed_source_plays_its_identifier_witness :
  (exists v : value,
      lookup "AirPlay"
        (MediaPlayer._source_mapping
           (snd (MediaPlayer.source_list
                   (observing (snapshot_with_sources mixed_case_sources)))))
      = Some v
      /\ last_written "AirPlay" (exposed mixed_case_sources) = Some v)
  /\ snd (MediaPlayer.async_select_source (always_replies (VDict []))
            (snd (MediaPlayer.source_list
                    (observing (snapshot_with_sources mixed_case_sources))))
            "AirPlay" [])
     = [Http (command (API_PLAY_SOURCE "4")); Refresh]
  /\ MediaPlayer.async_select_source (always_replies (VDict []))
       (snd (MediaPlayer.source_list
               (observing (snapshot_with_sources mixed_case_sources))))
       "RAAT" []
     = (Ok tt, []).
Proof.
  assert (W : Forall well_typed_source mixed_case_sources)
    by (repeat constructor).
  destruct (selecting_a_listed_source_plays_its_identifier
              (always_replies (VDict []))
              (observing (snapshot_with_sources mixed_case_sources))
              (snapshot_with_sources mixed_case_sources)
              [("sources", VList (map VDict mixed_case_sources))]
              mixed_case_sources [] eq_refl eq_refl eq_refl W)
    as [B [P N]].
  refine (conj _ (conj _ _)).
  - apply (B [VStr "AirPlay"; VStr "Phono"; VStr "Optical"] "AirPlay" eq_refl).
    left. reflexivity.
  - exact (P "AirPlay" (VStr "4") "4" eq_refl eq_refl).
  - exact (N "RAAT" eq_refl).
Defined.

(** The loop of [source_list], on any input and whether it returns or
    raises, only adds to the mapping and touches nothing else. *)
Lemma source_list_loop_grows (l : list value) :
  forall (source_types : dict) (self : MediaPlayer.entity),
    MediaPlayer.data
      (snd (MediaPlayer.source_list_loop l source_types self))
    = MediaPlayer.data self
    /\ forall (label : string) (v : value),
         lookup label (MediaPlayer._source_mapping self) = Some v ->
         exists v',
           lookup label
             (MediaPlayer._source_mapping
                (snd (MediaPlayer.source_list_loop l source_types self)))
           = Some v'.
Proof.
  induction l as [|source l IH]; intros source_types self.
  - split; [reflexivity | intros label v H; exists v; exact H].
  - assert (Same : MediaPlayer.data self = MediaPlayer.data self
                   /\ forall (label : string) (v : value),
                        lookup label (MediaPlayer._source_mapping self) = Some v ->
                        exists v',
                          lookup label (MediaPlayer._source_mapping self) = Some v')
      by (split; [reflexivity | intros label v H; exists v; exact H]).
    cbn [MediaPlayer.source_list_loop]. unfold bind, lift.
    destruct (Py.get source "type" VNone) as [ty|]; [|exact Same].
    destruct (if truthy ty then _ else _) as [[|]|]; [| apply IH | exact Same].
    destruct (MediaPlayer.as_str ty) as [s|]; [|exact Same].
    destruct (Py.get source "sourceId" VNone) as [id|]; [|exact Same].
    unfold MediaPlayer.set_source_mapping.
    destruct (IH (dict_set (MediaPlayer._format_source_name s) (VBool true)
                    source_types)
                (MediaPlayer.mkEntity (MediaPlayer.data self)
                   (dict_set (MediaPlayer._format_source_name s) id
                      (MediaPlayer._source_mapping self))
                   (MediaPlayer._night_mode_available self))) as [Hd Hm].
    split; [exact Hd|].
    intros label v H.
    destruct (String.eqb_spec (MediaPlayer._format_source_name s) label)
      as [E|N].
    + apply (Hm label id). cbn [MediaPlayer._source_mapping].
      rewrite <- E. apply lookup_dict_set_eq.
    + apply (Hm label v). cbn [MediaPlayer._source_mapping].
      rewrite (lookup_dict_set_ne label _ id _ N). exact H.
Qed.

(** X13.  The source mapping never forgets: on any snapshot, and whether
    the reading returns or raises, a name that was bound before the
    source list is read is still bound afterwards, and the snapshot the
    entity holds is untouched. *)
Theorem source_mapping_only_grows (self : MediaPlayer.entity)
    (name : string) (v : value) :
  lookup name (MediaPlayer._source_mapping self) = Some v ->
  (exists v',
      lookup name
        (MediaPlayer._source_mapping (snd (MediaPlayer.source_list self)))
      = Some v')
  /\ MediaPlayer.data (snd (MediaPlayer.source_list self))
     = MediaPlayer.data self.
Proof.
  intros H.
  assert (Same : (exists v', lookup name (MediaPlayer._source_mapping self)
                             = Some v')
                 /\ MediaPlayer.data self = MediaPlayer.data self)
    by (split; [exists v; exact H | reflexivity]).
  unfold MediaPlayer.source_list, bind, lift, ret.
  destruct (MediaPlayer.absent (MediaPlayer.data self) "sources") as [[|]|];
    try exact Same.
  destruct (getitem (MediaPlayer.data self) "sources") as [sources|];
    [|exact Same].
  destruct (Py.get sources "sources" (VList [])) as [sl|]; [|exact Same].
  destruct (truthy sl); [|exact Same].
  destruct (iter sl) as [l|]; [|exact Same].
  destruct (source_list_loop_grows l [] self) as [Hd Hm].
  destruct (MediaPlayer.source_list_loop l [] self) as [[types|e] self'];
    cbn [snd] in *; split; try exact Hd; exact (Hm name v H).
Qed.

(** A source that left the list is still selectable. *)
Lemma source_mapping_only_grows_witness :
  exists v',
    lookup "Spotify Connect"
      (MediaPlayer._source_mapping
         (snd (MediaPlayer.source_list
                 (MediaPlayer.set_data (VDict (snapshot_with_sources []))
                    (snd (MediaPlayer.source_list
                            (observing
                               (snapshot_with_sources spotify_and_bluetooth))))))))
    = Some v'.
Proof.
  exact (proj1 (source_mapping_only_grows
                  (MediaPlayer.set_data (VDict (snapshot_with_sources []))
                     (snd (MediaPlayer.source_list
                             (observing
                                (snapshot_with_sources spotify_and_bluetooth)))))
                  "Spotify Connect" (VStr "a") eq_refl)).
Defined.

(* ===================================================================== *)
(** ** The sound mode that is reported, the presets that are sent *)
(* ===================================================================== *)

Lemma switch_on_inv (d : dict) :
  Switch.is_on (VDict d) = Ok (VBool true) ->
  exists nm : value,
    lookup "night_mode" d = Some nm
    /\ truthy nm = true
    /\ exists s, Py.get nm "nightMode" VNone = Ok s /\ eq_str s "on" = true.
Proof.
  unfold Switch.is_on, MediaPlayer.absent.
  destruct d as [|p d]; [discriminate|]. rewrite truthy_dict_cons.
  cbn [negb rbind Py.get getitem].
  destruct (lookup "night_mode" (p :: d)) as [nm|]; cbn [rbind truthy negb];
    [|discriminate].
  destruct (truthy nm) eqn:T; cbn [negb rbind]; [|discriminate].
  intros H. exists nm. split; [reflexivity | split; [exact T|]].
  destruct (Py.get nm "nightMode" VNone) as [s|]; [|discriminate].
  cbn [rbind] in H. injection H as H. exists s. split; [reflexivity | exact H].
Qed.

Lemma format_valid_preset (p : string) :
  valid_preset (VStr p) = true ->
  In (MediaPlayer._format_sound_mode p) ["Flat"; "Voice"; "Custom"].
Proof.
  unfold valid_preset. cbn [existsb eq_str]. rewrite orb_false_r.
  intros H. apply orb_true_iff in H. destruct H as [H|H].
  - apply String.eqb_eq in H. subst p. simpl. tauto.
  - apply orb_true_iff in H. destruct H as [H|H];
      apply String.eqb_eq in H; subst p; simpl; tauto.
Qed.

(** Where a reported mode comes from. *)
Lemma sound_mode_origin (self : MediaPlayer.entity) (d : dict) (m : string) :
  MediaPlayer.data self = VDict d ->
  MediaPlayer.sound_mode self = Ok (VStr m) ->
  (MediaPlayer._night_mode_available self = true /\ m = "Night Mode")
  \/ exists eq : dict,
       lookup "equalizer" d = Some (VDict eq)
       /\ ((exists p, lookup "preset" eq = Some (VStr p)
                      /\ m = MediaPlayer._format_sound_mode p)
           \/ (lookup "preset" eq = None /\ m = "Flat")).
Proof.
  intros D H. unfold MediaPlayer.sound_mode in H. rewrite D in H.
  destruct (truthy (VDict d)); cbn [negb] in H; [|discriminate].
  match type of H with
  | rbind ?x _ = _ => destruct x as [c|] eqn:C; [|discriminate]
  end.
  cbn [rbind] in H.
  match type of H with
  | rbind ?x _ = _ => destruct x as [on|] eqn:ON; [|discriminate]
  end.
  cbn [rbind] in H. destruct on.
  - injection H as H. subst m. left. split; [|reflexivity].
    destruct (MediaPlayer._night_mode_available self); [reflexivity|].
    injection C as C. subst c. discriminate ON.
  - right. clear C ON. cbn [Py.get rbind getitem] in H.
    destruct (lookup "equalizer" d) as [e|] eqn:E.
    2: { cbn [truthy] in H. discriminate H. }
    destruct (truthy e); [|discriminate H].
    cbn [rbind] in H.
    destruct e; cbn [Py.get rbind] in H; try discriminate H.
    eexists. split; [reflexivity|].
    match type of H with
    | context [lookup "preset" ?q] => destruct (lookup "preset" q) as [mode|] eqn:P
    end.
    + cbn [rbind] in H.
      destruct mode; cbn [MediaPlayer._format_sound_mode_value] in H;
        try discriminate H.
      injection H as H. subst m. left. eexists. split; reflexivity.
    + right. split; [reflexivity|].
      cbn [rbind MediaPlayer._format_sound_mode_value] in H.
      injection H as H. subst m. reflexivity.
Qed.

(** X14.  The sound mode the media player reports against the night-mode
    switch and the list of selectable modes.  When night mode is available
    and the night-mode switch reads on, the reported mode is "Night Mode",
    whatever the equalizer holds.  When the preset stored in the snapshot,
    if any, is one of the three valid presets, every mode that is reported
    is an entry of the list of selectable modes. *)
Theorem reported_sound_mode_is_listed (self : MediaPlayer.entity) (d : dict) :
  MediaPlayer.data self = VDict d ->
  (MediaPlayer._night_mode_available self = true ->
   Switch.is_on (VDict d) = Ok (VBool true) ->
   MediaPlayer.sound_mode self = Ok (VStr "Night Mode"))
  /\
  ((forall (eq : dict) (p : value),
       lookup "equalizer" d = Some (VDict eq) ->
       lookup "preset" eq = Some p -> valid_preset p = true) ->
   forall m : string,
     MediaPlayer.sound_mode self = Ok (VStr m) ->
     exists l : list value,
       MediaPlayer.sound_mode_list self = VList l /\ In (VStr m) l).
Proof.
  intros D. split.
  - intros A S. apply switch_on_inv in S.
    destruct S as [nm [L [T [s [G E]]]]].
    unfold MediaPlayer.sound_mode. rewrite D, A.
    destruct d as [|kv d]; [discriminate L|]. rewrite truthy_dict_cons.
    cbn [negb Py.get getitem rbind]. rewrite L. rewrite T.
    cbn [rbind]. rewrite G. cbn [rbind]. rewrite E. reflexivity.
  - intros V m S.
    assert (T : truthy (MediaPlayer.data self) = true).
    { unfold MediaPlayer.sound_mode in S.
      destruct (truthy (MediaPlayer.data self)); [reflexivity | discriminate S]. }
    exists (map VStr (sound_modes (MediaPlayer._night_mode_available self))).
    split; [apply sound_mode_list_of_flag; exact T|].
    apply in_map. unfold sound_modes.
    destruct (sound_mode_origin self d m D S) as [[A ->]|[eq [E [[p [P ->]]|[P ->]]]]].
    + rewrite A. simpl. tauto.
    + apply in_or_app. left. apply format_valid_preset. exact (V eq _ E P).
    + simpl. tauto.
Qed.

(** An entity for which night mode is available, on a snapshot whose
    switch reads on and whose equalizer holds the voice preset; and the
    same snapshot with the switch off. *)
Lemma reported_sound_mode_is_listed_witness :
  MediaPlayer.sound_mode
    (MediaPlayer.mkEntity
       (VDict [("night_mode", VDict [("nightMode", VStr "on")]);
               ("equalizer", VDict [("preset", VStr "voice")])]) [] true)
  = Ok (VStr "Night Mode")
  /\ exists l : list value,
       MediaPlayer.sound_mode_list
         (MediaPlayer.mkEntity
            (VDict [("night_mode", VDict [("nightMode", VStr "off")]);
                    ("equalizer", VDict [("preset", VStr "voice")])]) [] true)
       = VList l
       /\ In (VStr "Voice") l.
Proof.
  split.
  - apply (proj1 (reported_sound_mode_is_listed
                    (MediaPlayer.mkEntity
                       (VDict [("night_mode", VDict [("nightMode", VStr "on")]);
                               ("equalizer", VDict [("preset", VStr "voice")])])
                       [] true)
                    _ eq_refl)); reflexivity.
  - apply (proj2 (reported_sound_mode_is_listed
                    (MediaPlayer.mkEntity
                       (VDict [("night_mode", VDict [("nightMode", VStr "off")]);
                               ("equalizer", VDict [("preset", VStr "voice")])])
                       [] true)
                    _ eq_refl)).
    + intros eq p E P. vm_compute in E. injection E as E. subst eq.
      vm_compute in P. injection P as P. subst p. reflexivity.
    + reflexivity.
Defined.

(** The label of a valid preset leads back to the preset. *)
Lemma reverse_lookup_format (p : string) :
  In p MediaPlayer.SOUND_MODES ->
  MediaPlayer.reverse_lookup (MediaPlayer._format_sound_mode p)
    MediaPlayer.SOUND_MODE_MAPPING
  = VStr p
  /\ existsb (String.eqb (MediaPlayer._format_sound_mode p))
       (map MediaPlayer._format_sound_mode MediaPlayer.SOUND_MODES) = true
  /\ (MediaPlayer._format_sound_mode p =? "Night Mode")%string = false
  /\ valid_preset (VStr p) = true.
Proof.
  intros I. simpl in I.
  repeat (destruct I as [I|I]; [subst p; vm_compute; tauto|]).
  contradiction.
Qed.

(** A call that the device answers hands over to what follows it. *)
Lemma answered_then {B} (dev : device) (rq : request) (k : M trace B)
    (t : trace) :
  returns (DevialetAPI.send dev rq) t ->
  (DevialetAPI.send dev rq ;;; k) t = k (t ++ [Http rq])%list.
Proof.
  intros [a Ha]. unfold bind.
  pose proof (send_trace dev rq t) as Ht.
  destruct (DevialetAPI.send dev rq t) as [[a'|e] t'];
    simpl in Ha, Ht; [subst t'; reflexivity | discriminate Ha].
Qed.

Lemma job_set_eq_preset (dev : device) (p : string) :
  valid_preset (VStr p) = true ->
  DevialetAPI.async_add_executor_job dev "set_eq_preset" [VStr p]
  = DevialetAPI.send dev (eq_preset_request p).
Proof.
  intros V.
  change (DevialetAPI.async_add_executor_job dev "set_eq_preset" [VStr p])
    with (DevialetAPI.set_eq_preset dev (VStr p)).
  unfold DevialetAPI.set_eq_preset. unfold valid_preset in V. rewrite V.
  reflexivity.
Qed.

(** X15.  Selecting the label of a valid preset sends that preset: for
    each of the three presets, on an entity that holds a snapshot and a
    device that answers, selecting the preset's label first switches night
    mode off when night mode is available, then posts the preset itself,
    then requests one refresh, and nothing else. *)
Theorem selecting_a_preset_label_sends_the_preset
    (dev : device) (self : MediaPlayer.entity) (p : string) (t : trace) :
  truthy (MediaPlayer.data self) = true ->
  In p MediaPlayer.SOUND_MODES ->
  answers dev (night_mode_request false) ->
  answers dev (eq_preset_request p) ->
  MediaPlayer.async_select_sound_mode dev self
    (MediaPlayer._format_sound_mode p) t
  = (Ok tt,
     (t ++ (if MediaPlayer._night_mode_available self
            then [Http (night_mode_request false)] else [])
        ++ [Http (eq_preset_request p); Refresh])%list).
Proof.
  intros T I N E.
  destruct (reverse_lookup_format p I) as [R [L [NM V]]].
  unfold MediaPlayer.async_select_sound_mode.
  rewrite T, NM, andb_false_r, L, R. cbn [negb truthy].
  assert (P : negb (p =? "")%string = true).
  { simpl in I. repeat (destruct I as [I|I]; [subst p; reflexivity|]).
    contradiction. }
  rewrite P, (job_set_eq_preset dev p V), then_refresh.
  destruct (MediaPlayer._night_mode_available self).
  - rewrite job_set_night_mode. unfold bind at 1.
    rewrite (answered_then dev _ _ t (N t)). unfold ret at 1.
    rewrite (answered_then dev _ _ _ (E _)). unfold ret.
    rewrite <- !app_assoc. reflexivity.
  - unfold bind at 1. unfold ret at 1.
    rewrite (answered_then dev _ _ t (E t)). unfold ret.
    rewrite <- !app_assoc. reflexivity.
Qed.

(** Selecting "Voice" on an entity for which night mode is available. *)
Lemma selecting_a_preset_label_sends_the_preset_witness :
  MediaPlayer.async_select_sound_mode (always_replies (VDict []))
    (MediaPlayer.mkEntity (VDict snapshot_with_night_mode) [] true) "Voice" []
  = (Ok tt,
     [Http (night_mode_request false); Http (eq_preset_request "voice");
      Refresh]).
Proof.
  apply (selecting_a_preset_label_sends_the_preset
           (always_replies (VDict []))
           (MediaPlayer.mkEntity (VDict snapshot_with_night_mode) [] true)
           "voice" []).
  - reflexivity.
  - simpl. tauto.
  - apply answers_always_replies. reflexivity.
  - apply answers_always_replies. reflexivity.
Defined.

(* ===================================================================== *)
(** ** The stream-information sensor: state against attributes *)
(* ===================================================================== *)

Lemma lower_empty (s : string) : (lower s =? "")%string = (s =? "")%string.
Proof. destruct s; reflexivity. Qed.

Ltac cases_in H :=
  repeat match type of H with
         | context [match ?x with _ => _ end] =>
             destruct x eqn:?; cbv beta iota in H; try discriminate H
         end.

(** The codec as the attributes test it and as the state reads it. *)
Lemma codec_read (si c c' : value) (lc : string) :
  Py.get si "codec" VNone = Ok c ->
  Py.get si "codec" (VStr "") = Ok c' ->
  str_lower c' = Ok lc ->
  truthy c = truthy (VStr lc).
Proof.
  destruct si; try discriminate. cbn [Py.get].
  destruct (lookup "codec" d) as [x|]; intros G G' L;
    injection G as G; injection G' as G'; subst c c'.
  - destruct x; try discriminate L. cbn [str_lower] in L.
    destruct (is_ascii s); [|discriminate L]. injection L as L. subst lc.
    cbn [truthy]. rewrite lower_empty. reflexivity.
  - injection L as L. subst lc. reflexivity.
Qed.

Lemma codec_tested (si c' : value) :
  Py.get si "codec" (VStr "") = Ok c' ->
  exists c, Py.get si "codec" VNone = Ok c.
Proof.
  destruct si; try discriminate. intros _. eexists. reflexivity.
Qed.

Lemma supported_read (si c' : value) :
  Py.get si "codec" (VStr "") = Ok c' ->
  exists s, Py.get si "supported" (VBool true) = Ok s.
Proof.
  destruct si; try discriminate. intros _. eexists. reflexivity.
Qed.

(** X16.  The stream-information sensor, on every snapshot.  When its
    attributes hold a codec, lossless and supported entry, its state is
    that codec, followed by " (Lossless)" when the lossless attribute is
    truthy; and when its state is a string, the attributes hold these
    three entries and the state is built from them in this way.  When the
    stream information binds the codec to None, reading the state raises
    an attribute error although the attributes are read as the empty
    mapping. *)
Theorem stream_info_state_matches_attributes (data : value) :
  (forall codec lossless supported : value,
      Sensor.DevialetStreamInfoSensor.extra_state_attributes data
      = Ok (VDict [("codec", codec); ("lossless", lossless);
                   ("supported", supported)]) ->
      exists c : string,
        codec = VStr c
        /\ Sensor.DevialetStreamInfoSensor.native_value data
           = Ok (VStr (if truthy lossless then c ++ " (Lossless)" else c)))
  /\
  (forall s : string,
      Sensor.DevialetStreamInfoSensor.native_value data = Ok (VStr s) ->
      exists (c : string) (lossless supported : value),
        Sensor.DevialetStreamInfoSensor.extra_state_attributes data
        = Ok (VDict [("codec", VStr c); ("lossless", lossless);
                     ("supported", supported)])
        /\ s = (if truthy lossless then c ++ " (Lossless)" else c))
  /\
  (forall d playback stream_info : dict,
      data = VDict d ->
      lookup "playback" d = Some (VDict playback) ->
      lookup "streamInfo" playback = Some (VDict stream_info) ->
      lookup "codec" stream_info = Some VNone ->
      Sensor.DevialetStreamInfoSensor.native_value data = Raise AttributeError
      /\ Sensor.DevialetStreamInfoSensor.extra_state_attributes data
         = Ok (VDict [])).
Proof.
  refine (conj _ (conj _ _)).
  - intros codec lossless supported H.
    unfold Sensor.DevialetStreamInfoSensor.extra_state_attributes,
      Sensor.DevialetStreamInfoSensor.native_value,
      Sensor.DevialetStreamInfoSensor.no_stream_info, Sensor.and_get,
      rbind in *.
    cases_in H. injection H as <- <- <-.
    match goal with
    | G : Py.get ?si "codec" VNone = Ok ?c, T : negb (truthy ?c) = false,
      G' : Py.get ?si "codec" (VStr "") = Ok ?c', L : str_lower ?c' = Ok ?lc
      |- _ => rewrite <- (codec_read si c c' lc G G' L), T
    end.
    eexists. split; [reflexivity|].
    match goal with |- context [truthy ?l] => destruct (truthy l) end;
      reflexivity.
  - intros s H.
    unfold Sensor.DevialetStreamInfoSensor.extra_state_attributes,
      Sensor.DevialetStreamInfoSensor.native_value,
      Sensor.DevialetStreamInfoSensor.no_stream_info, Sensor.and_get,
      rbind in *.
    cases_in H.
    all: injection H as <-.
    all: match goal with
         | G' : Py.get ?si "codec" (VStr "") = Ok ?c',
           L : str_lower ?c' = Ok ?lc,
           T : negb (truthy (VStr ?lc)) = false |- _ =>
             destruct (codec_tested si c' G') as [c G];
             destruct (supported_read si c' G') as [sp SP];
             rewrite G, SP, (codec_read si c c' lc G G' L), T
         end.
    all: do 3 eexists; split; [reflexivity|].
    all: match goal with
         | E : truthy ?l = _ |- context [truthy ?l] => rewrite E
         end; reflexivity.
  - intros d playback stream_info -> P S C.
    unfold Sensor.DevialetStreamInfoSensor.extra_state_attributes,
      Sensor.DevialetStreamInfoSensor.native_value,
      Sensor.DevialetStreamInfoSensor.no_stream_info, Sensor.and_get.
    assert (Td : truthy (VDict d) = true) by (destruct d; [discriminate P | reflexivity]).
    assert (Tp : truthy (VDict playback) = true)
      by (destruct playback; [discriminate S | reflexivity]).
    rewrite Td. cbn [Py.get rbind]. rewrite P, Tp.
    cbn [negb contains getitem rbind Py.get]. rewrite S.
    cbn [negb rbind Py.get]. rewrite C. split; reflexivity.
Qed.

(** A stream in the FLAC codec marked lossless; and a stream whose codec
    is null. *)
Lemma stream_info_state_matches_attributes_witness :
  Sensor.DevialetStreamInfoSensor.native_value
    (VDict [("playback",
             VDict [("streamInfo",
                     VDict [("codec", VStr "FLAC");
                            ("lossless", VBool true)])])])
  = Ok (VStr "flac (Lossless)")
  /\ Sensor.DevialetStreamInfoSensor.native_value
       (VDict [("playback",
                VDict [("streamInfo", VDict [("codec", VNone)])])])
     = Raise AttributeError.
Proof.
  split.
  - destruct (proj1 (stream_info_state_matches_attributes
                       (VDict [("playback",
                                VDict [("streamInfo",
                                        VDict [("codec", VStr "FLAC");
                                               ("lossless", VBool true)])])]))
                (VStr "flac") (VBool true) (VBool true) eq_refl)
      as [c [E H]].
    injection E as <-. exact H.
  - exact (proj1 (proj2 (proj2 (stream_info_state_matches_attributes
                                  (VDict [("playback",
                                           VDict [("streamInfo",
                                                   VDict [("codec", VNone)])])])))
                    _ _ _ eq_refl eq_refl eq_refl eq_refl)).
Defined.

(* ===================================================================== *)
(** ** Setting up the night-mode switch *)
(* ===================================================================== *)

(** X17.  The night-mode switch against the media player's night-mode
    flag, on a snapshot for which the specification says whether night
    mode is listed.  When the snapshot's system information is not None,
    the switch entity is added exactly when night mode is listed, which is
    also exactly when a media player that reads the snapshot for the first
    time raises its flag.  When the system information is None, as after
    a failed call, the media player leaves its flag alone but setting up
    the switch raises a type error. *)
Theorem switch_setup_follows_the_listed_feature (d : dict) (nm : bool) :
  night_mode_listed d = Some nm ->
  (lookup "system_info" d <> Some VNone ->
   Switch.async_setup_entry (Some (VDict d)) = Ok nm
   /\ MediaPlayer._night_mode_available
        (snd (MediaPlayer.check_night_mode_available (observing d))) = nm)
  /\
  (lookup "system_info" d = Some VNone ->
   Switch.async_setup_entry (Some (VDict d)) = Raise TypeError
   /\ MediaPlayer.check_night_mode_available (observing d)
      = (Ok tt, observing d)).
Proof.
  intros H. split.
  - intros N. split.
    2:{ rewrite (check_night_mode_available_latches (observing d) d nm eq_refl H).
        reflexivity. }
    unfold Switch.async_setup_entry. unfold night_mode_listed in H.
    destruct d as [|kv d]; [injection H as <-; reflexivity|].
    rewrite truthy_dict_cons. cbn [Py.get rbind].
    destruct (lookup "system_info" (kv :: d)) as [si|].
    2:{ injection H as <-. reflexivity. }
    destruct si as [ | | | | | |si]; try discriminate H.
    { contradiction N. reflexivity. }
    cbn [contains getitem rbind].
    destruct (lookup "availableFeatures" si) as [av|].
    2:{ injection H as <-. reflexivity. }
    destruct av; try discriminate H. injection H as <-. reflexivity.
  - intros N. split.
    + unfold Switch.async_setup_entry.
      destruct d as [|kv d]; [discriminate N|].
      rewrite truthy_dict_cons. cbn [Py.get rbind]. rewrite N. reflexivity.
    + rewrite (check_night_mode_available_latches (observing d) d nm eq_refl H).
      unfold night_mode_listed in H. rewrite N in H. injection H as <-.
      reflexivity.
Qed.

(** A snapshot that lists night mode, and a snapshot whose system
    information is None. *)
Lemma switch_setup_follows_the_listed_feature_witness :
  Switch.async_setup_entry (Some (VDict snapshot_with_night_mode)) = Ok true
  /\ Switch.async_setup_entry (Some (VDict [("system_info", VNone)]))
     = Raise TypeError.
Proof.
  split.
  - apply (proj1 (switch_setup_follows_the_listed_feature
                    snapshot_with_night_mode true eq_refl)).
    discriminate.
  - apply (proj2 (switch_setup_follows_the_listed_feature
                    [("system_info", VNone)] false eq_refl)).
    reflexivity.
Defined.

(* ===================================================================== *)
(** ** The configuration flow *)
(* ===================================================================== *)

(** X18.  The user step of the configuration flow.  Without input it
    shows the form without errors and sends nothing.  With an input from
    which the host cannot be read, or with a host whose URL is rejected,
    it shows the form with the error "unknown" and sends nothing.  With
    any other host it sends exactly one request, the reading of the
    device information at that host; when the client returns a falsy
    value, as it does for a device that does not answer, the form is
    shown with the error "cannot_connect"; and an entry is created
    exactly when the client returned a non-empty mapping whose device
    identifier (or "unknown" without one) is not configured yet, with
    the model (or "Devialet Speaker" without one) for title and the input
    for data. *)
Theorem config_flow_creates_entry_only_after_probe
    (network : value -> device) (url_rejected configured : value -> bool)
    (input : value) (t : trace) :
  ConfigFlow.async_step_user network url_rejected configured None t
  = (ConfigFlow.ShowForm [], t)
  /\
  (forall e : exn,
      getitem input "host" = Raise e ->
      ConfigFlow.async_step_user network url_rejected configured
        (Some input) t
      = (ConfigFlow.ShowForm [("base", VStr "unknown")], t))
  /\
  (forall host : value,
      getitem input "host" = Ok host ->
      url_rejected host = true ->
      ConfigFlow.async_step_user network url_rejected configured
        (Some input) t
      = (ConfigFlow.ShowForm [("base", VStr "unknown")], t))
  /\
  (forall host : value,
      getitem input "host" = Ok host ->
      url_rejected host = false ->
      snd (ConfigFlow.async_step_user network url_rejected configured
             (Some input) t)
      = (t ++ [Http (mkRequest GET API_DEVICES_CURRENT None)])%list
      /\
      (forall v : value,
          fst (DevialetAPI.get (network host) API_DEVICES_CURRENT t) = Ok v ->
          truthy v = false ->
          fst (ConfigFlow.async_step_user network url_rejected configured
                 (Some input) t)
          = ConfigFlow.ShowForm [("base", VStr "cannot_connect")])
      /\
      (forall title data : value,
          fst (ConfigFlow.async_step_user network url_rejected configured
                 (Some input) t)
          = ConfigFlow.CreateEntry title data
          <-> data = input
              /\ exists info : dict,
                   fst (DevialetAPI.get (network host) API_DEVICES_CURRENT t)
                   = Ok (VDict info)
                   /\ info <> []
                   /\ title = match lookup "model" info with
                              | Some m => m
                              | None => VStr "Devialet Speaker"
                              end
                   /\ configured match lookup "deviceId" info with
                                 | Some i => i
                                 | None => VStr "unknown"
                                 end = false)).
Proof.
  refine (conj eq_refl (conj _ (conj _ _))).
  - intros e H. unfold ConfigFlow.async_step_user, ConfigFlow.validate_input.
    unfold ConfigFlow.CONF_HOST. rewrite H. reflexivity.
  - intros host H R.
    unfold ConfigFlow.async_step_user, ConfigFlow.validate_input.
    unfold ConfigFlow.CONF_HOST. rewrite H, R. reflexivity.
  - intros host H R.
    unfold ConfigFlow.async_step_user, ConfigFlow.validate_input.
    unfold ConfigFlow.CONF_HOST. rewrite H, R. rewrite job_get_device_info.
    unfold DevialetAPI.get.
    pose proof (send_trace (network host)
                  (mkRequest GET API_DEVICES_CURRENT None) t) as Ht.
    destruct (DevialetAPI.send (network host)
                (mkRequest GET API_DEVICES_CURRENT None) t) as [[v|e] t'];
      cbn [fst snd] in Ht |- *; subst t'.
    2:{ refine (conj eq_refl (conj _ _)).
        - intros v E. discriminate E.
        - intros title data. split; [discriminate|].
          intros [_ [info [E _]]]. discriminate E. }
    destruct (truthy v) eqn:T; cbn [negb].
    2:{ refine (conj eq_refl (conj _ _)).
        - intros v' _ _. reflexivity.
        - intros title data. split; [discriminate|].
          intros [_ [info [E [N _]]]]. injection E as E. subst v.
          destruct info; [contradiction N; reflexivity | discriminate T]. }
    destruct v as [ | | | | | |info]; cbn [Py.get];
      try (refine (conj eq_refl (conj _ _));
           [ intros v' E T'; injection E as E; subst v'; rewrite T in T';
             discriminate T'
           | intros title data; split; [discriminate|];
             intros [_ [info [E _]]]; discriminate E ]).
    cbn [getitem lookup String.eqb Ascii.eqb Bool.eqb].
    destruct (configured _) eqn:C; cbn [fst snd].
    + refine (conj eq_refl (conj _ _)).
      * intros v' E T'. injection E as E. subst v'. rewrite T in T'.
        discriminate T'.
      * intros title data. split; [discriminate|].
        intros [_ [info' [E [_ [_ C']]]]]. injection E as E. subst info'.
        rewrite C in C'. discriminate C'.
    + refine (conj eq_refl (conj _ _)).
      * intros v' E T'. injection E as E. subst v'. rewrite T in T'.
        discriminate T'.
      * intros title data. split.
        -- intros E. injection E as E1 E2. subst title data.
           split; [reflexivity|]. exists info.
           refine (conj eq_refl (conj _ (conj eq_refl C))).
           intros ->. discriminate T.
        -- intros [-> [info' [E [_ [-> _]]]]]. injection E as E. subst info'.
           reflexivity.
Qed.

(** A speaker that answers with its model and identifier, a host at
    which nothing answers, and a host whose URL is rejected. *)
Lemma config_flow_creates_entry_only_after_probe_witness :
  fst (ConfigFlow.async_step_user
         (fun _ => always_replies
                     (VDict [("model", VStr "Phantom I");
                             ("deviceId", VStr "J01")]))
         (fun _ => false) (fun _ => false)
         (Some (VDict [("host", VStr "192.168.1.20")])) [])
  = ConfigFlow.CreateEntry (VStr "Phantom I")
      (VDict [("host", VStr "192.168.1.20")])
  /\ fst (ConfigFlow.async_step_user
            (fun _ _ _ => Failed) (fun _ => false) (fun _ => false)
            (Some (VDict [("host", VStr "192.168.1.20")])) [])
     = ConfigFlow.ShowForm [("base", VStr "cannot_connect")]
  /\ ConfigFlow.async_step_user
       (fun _ => always_replies (VDict [("model", VStr "Phantom I")]))
       (fun host => eq_str host "[::1") (fun _ => false)
       (Some (VDict [("host", VStr "[::1")])) []
     = (ConfigFlow.ShowForm [("base", VStr "unknown")], []).
Proof.
  refine (conj _ (conj _ _)).
  - destruct (config_flow_creates_entry_only_after_probe
                (fun _ => always_replies
                            (VDict [("model", VStr "Phantom I");
                                    ("deviceId", VStr "J01")]))
                (fun _ => false) (fun _ => false)
                (VDict [("host", VStr "192.168.1.20")]) [])
      as [_ [_ [_ P]]].
    destruct (P (VStr "192.168.1.20") eq_refl eq_refl) as [_ [_ C]].
    apply C. split; [reflexivity|].
    exists [("model", VStr "Phantom I"); ("deviceId", VStr "J01")].
    refine (conj eq_refl (conj _ (conj eq_refl eq_refl))). discriminate.
  - destruct (config_flow_creates_entry_only_after_probe
                (fun _ _ _ => Failed) (fun _ => false) (fun _ => false)
                (VDict [("host", VStr "192.168.1.20")]) [])
      as [_ [_ [_ P]]].
    destruct (P (VStr "192.168.1.20") eq_refl eq_refl) as [_ [F _]].
    apply (F VNone); reflexivity.
  - destruct (config_flow_creates_entry_only_after_probe
                (fun _ => always_replies (VDict [("model", VStr "Phantom I")]))
                (fun host => eq_str host "[::1") (fun _ => false)
                (VDict [("host", VStr "[::1")]) [])
      as [_ [_ [R _]]].
    exact (R (VStr "[::1") eq_refl eq_refl).
Defined.

(* ===================================================================== *)
(** ** The playback sensor's attributes against the media player *)
(* ===================================================================== *)

Lemma playback_attributes_and_player
    (self : MediaPlayer.entity) (attrs : dict) :
  Sensor.DevialetPlaybackSensor.extra_state_attributes (MediaPlayer.data self)
  = Ok (VDict attrs) ->
  (forall v : value,
      lookup "mute_state" attrs = Some v ->
      MediaPlayer.is_volume_muted self = Ok (VBool (eq_str v "muted")))
  /\
  (forall ty : value,
      lookup "source_type" attrs = Some ty ->
      MediaPlayer.source self
      = if truthy ty
        then (s <~ MediaPlayer.as_str ty ;;
              Ok (VStr (MediaPlayer._format_source_name s)))
        else Ok VNone).
Proof.
  intros H. destruct self as [dt sm fl]. cbn [MediaPlayer.data] in H.
  unfold MediaPlayer.is_volume_muted, MediaPlayer.source, MediaPlayer.absent.
  cbn [MediaPlayer.data].
  unfold Sensor.DevialetPlaybackSensor.extra_state_attributes,
    Sensor.and_get in H.
  assert (E : forall P : Prop, attrs = [] ->
              (forall k v, lookup k attrs = Some v -> P)).
  { intros P -> k v L. discriminate L. }
  destruct (truthy dt) eqn:T.
  2:{ cbn [rbind] in H. rewrite T in H. cbn [negb] in H.
      injection H as <-. split; intros ? L; discriminate L. }
  destruct dt as [ | | | | | |d]; try discriminate H. clear E.
  cbn [Py.get rbind negb getitem] in H |- *.
  destruct (lookup "playback" d) as [pb|] eqn:P.
  2:{ cbn [truthy negb] in H. injection H as <-.
      split; intros ? L; discriminate L. }
  destruct (truthy pb) eqn:Tp; cbn [negb rbind] in H |- *.
  2:{ injection H as <-. split; intros ? L; discriminate L. }
  destruct pb as [ | | | | s|l|pb]; try discriminate H.
  - (* a str *)
    cbn [contains getitem] in H.
    destruct (is_substring "muteState" s); cbn [rbind] in H; [discriminate H|].
    destruct (is_substring "source" s); cbn [rbind] in H; [discriminate H|].
    injection H as <-. split; intros ? L; discriminate L.
  - (* a list *)
    cbn [contains getitem] in H.
    destruct (existsb (fun x => eq_str x "muteState") l); cbn [rbind] in H;
      [discriminate H|].
    destruct (existsb (fun x => eq_str x "source") l); cbn [rbind] in H;
      [discriminate H|].
    injection H as <-. split; intros ? L; discriminate L.
  - (* a mapping *)
    cbn [contains getitem Py.get rbind] in H |- *.
    destruct (lookup "muteState" pb) as [ms|] eqn:M;
      destruct (lookup "source" pb) as [src|] eqn:S; cbn [rbind] in H |- *.
    all: try (destruct (truthy src) eqn:Ts;
              [destruct src; try discriminate H; cbn [Py.get rbind] in H |- *|]).
    all: injection H as <-.
    all: split; intros x L; simpl in L; try discriminate L;
      injection L as <-; reflexivity.
Qed.

(** X19.  The attributes of the playback sensor against the properties of
    the media player, on every snapshot on which the attributes are read
    without an exception.  When the attributes hold a mute state, the
    media player is muted exactly when that state is "muted".  When they
    hold a source type: the media player's current source is None where
    the type is falsy, the display label of the type where it is a
    non-empty string, and reading the current source raises
    [AttributeError] where the type is truthy and not a string, although
    the sensor shows it. *)
Theorem playback_attributes_agree_with_the_player
    (self : MediaPlayer.entity) (attrs : dict) :
  Sensor.DevialetPlaybackSensor.extra_state_attributes (MediaPlayer.data self)
  = Ok (VDict attrs) ->
  (forall v : value,
      lookup "mute_state" attrs = Some v ->
      MediaPlayer.is_volume_muted self = Ok (VBool (eq_str v "muted")))
  /\
  (forall ty : value,
      lookup "source_type" attrs = Some ty ->
      (truthy ty = false -> MediaPlayer.source self = Ok VNone)
      /\ (forall s : string,
             ty = VStr s -> s <> "" ->
             MediaPlayer.source self = Ok (VStr (display_label s)))
      /\ (truthy ty = true -> (forall s : string, ty <> VStr s) ->
          MediaPlayer.source self = Raise AttributeError)).
Proof.
  intros H. destruct (playback_attributes_and_player self attrs H) as [M S].
  split; [exact M|]. intros ty L. rewrite (S ty L).
  refine (conj _ (conj _ _)).
  - intros T. rewrite T. reflexivity.
  - intros s -> N. cbn [truthy].
    destruct (String.eqb_spec s "") as [E|_]; [contradiction|].
    cbn [negb MediaPlayer.as_str rbind].
    rewrite format_source_name_is_display_label. reflexivity.
  - intros T N. rewrite T.
    destruct ty; try reflexivity. exfalso. exact (N s eq_refl).
Qed.

(** A snapshot whose playback is muted and plays from AirPlay; and a
    snapshot whose source type is the number 7. *)
Lemma playback_attributes_agree_with_the_player_witness :
  (MediaPlayer.is_volume_muted
     (observing [("playback",
                  VDict [("muteState", VStr "muted");
                         ("source", VDict [("type", VStr "AirPlay2")])])])
   = Ok (VBool true)
   /\ MediaPlayer.source
        (observing [("playback",
                     VDict [("muteState", VStr "muted");
                            ("source", VDict [("type", VStr "AirPlay2")])])])
      = Ok (VStr "AirPlay"))
  /\
  (Sensor.DevialetPlaybackSensor.extra_state_attributes
     (VDict [("playback", VDict [("source", VDict [("type", VInt 7)])])])
   = Ok (VDict [("source_type", VInt 7)])
   /\ MediaPlayer.source
        (observing [("playback", VDict [("source", VDict [("type", VInt 7)])])])
      = Raise AttributeError).
Proof.
  split.
  - destruct (playback_attributes_agree_with_the_player
                (observing
                   [("playback",
                     VDict [("muteState", VStr "muted");
                            ("source", VDict [("type", VStr "AirPlay2")])])])
                [("mute_state", VStr "muted");
                 ("source_type", VStr "AirPlay2")] eq_refl) as [M S].
    split; [exact (M (VStr "muted") eq_refl)|].
    destruct (S (VStr "AirPlay2") eq_refl) as [_ [L _]].
    apply (L "AirPlay2" eq_refl). discriminate.
  - split; [reflexivity|].
    destruct (playback_attributes_agree_with_the_player
                (observing
                   [("playback", VDict [("source", VDict [("type", VInt 7)])])])
                [("source_type", VInt 7)] eq_refl) as [_ S].
    destruct (S (VInt 7) eq_refl) as [_ [_ R]].
    apply R; [reflexivity | discriminate].
Defined.
